(** * smooth-freecad: the format converter, embedded and verified

    A shallow embedding of the converter core of the FreeCAD client of
    Smooth: [fctb_parser.py] (tool bits), [fctl_parser.py] (tool libraries),
    [shape_storage.py] (shape files) and the duplicate check of
    [SmoothDialog.py].

    Python values are modelled as JSON-like terms, text as sequences of
    Unicode code points, dictionaries as insertion-ordered association
    lists, floats as IEEE 754 binary64 numbers with exact integer
    arithmetic, and exceptions as an error monad. *)

From Stdlib Require Import String Ascii ZArith NArith List Bool Lia.
Import ListNotations.

Set Implicit Arguments.
Set Warnings "-register-all".

(* ================================================================== *)
(** * Text: Python [str] as a list of code points *)

Definition char := N.
Definition str := list char.

(** An ASCII literal of the source as a [str]. *)
Definition py (s : string) : str :=
  map N_of_ascii (list_ascii_of_string s).
Arguments py s : simpl never.

(** U+00B0, the degree sign. *)
Definition degree_sign : str := [176%N].

Fixpoint str_eqb (a b : str) : bool :=
  match a, b with
  | [], [] => true
  | x :: a', y :: b' => N.eqb x y && str_eqb a' b'
  | _, _ => false
  end.

(** [c.isspace()]: the code points of bidirectional class WS, B or S and of
    category Zs; [str.strip] and the pattern [\s] use the same set. *)
Definition is_space (c : char) : bool :=
  ((9 <=? c) && (c <=? 13) || (28 <=? c) && (c <=? 32) || (c =? 133) || (c =? 160)
   || (c =? 5760) || (8192 <=? c) && (c <=? 8202) || (c =? 8232) || (c =? 8233)
   || (c =? 8239) || (c =? 8287) || (c =? 12288))%N.

Definition is_digit (c : char) : bool := ((48 <=? c) && (c <=? 57))%N.
Definition is_upper (c : char) : bool := ((65 <=? c) && (c <=? 90))%N.
Definition is_lower (c : char) : bool := ((97 <=? c) && (c <=? 122))%N.

(** Case mapping of one code point.  The tables cover the ASCII letters,
    which is what FreeCAD property names are made of; other code points are
    left as they are. *)
Definition lower_char (c : char) : char := if is_upper c then (c + 32)%N else c.
Definition upper_char (c : char) : char := if is_lower c then (c - 32)%N else c.
Definition is_cased (c : char) : bool := is_upper c || is_lower c.

(** [s.lower()] *)
Definition lower (s : str) : str := map lower_char s.

(** [s.title()]: a cased letter that follows an uncased code point (or the
    start) is upper-cased, every other cased letter is lower-cased. *)
Fixpoint title_from (prev_cased : bool) (s : str) : str :=
  match s with
  | [] => []
  | c :: s' =>
      (if prev_cased then lower_char c else upper_char c)
        :: title_from (is_cased c) s'
  end.
Definition title (s : str) : str := title_from false s.

Fixpoint lstrip (s : str) : str :=
  match s with
  | c :: s' => if is_space c then lstrip s' else s
  | [] => []
  end.
Definition rstrip (s : str) : str := rev (lstrip (rev s)).
(** [s.strip()] *)
Definition strip (s : str) : str := rstrip (lstrip s).

Fixpoint startswith (p s : str) : bool :=
  match p, s with
  | [], _ => true
  | x :: p', y :: s' => N.eqb x y && startswith p' s'
  | _ :: _, [] => false
  end.

(** [s.endswith(p)] *)
Definition endswith (s p : str) : bool := startswith (rev p) (rev s).

(** [p in s] for two strings. *)
Fixpoint contains (p s : str) : bool :=
  startswith p s || match s with [] => false | _ :: s' => contains p s' end.

(** [s.split(sep)] for a one-character separator, and [s.split(sep, 1)]. *)
Fixpoint split_on (sep : char) (s : str) : list str :=
  match s with
  | [] => [[]]
  | c :: s' =>
      if N.eqb c sep then [] :: split_on sep s'
      else match split_on sep s' with
           | w :: ws => (c :: w) :: ws
           | [] => [[c]]
           end
  end.

Fixpoint split_once (sep : char) (s : str) : list str :=
  match s with
  | [] => [[]]
  | c :: s' =>
      if N.eqb c sep then [[]; s']
      else match split_once sep s' with
           | w :: ws => (c :: w) :: ws
           | [] => [[c]]
           end
  end.

(** [sep.join(parts)] *)
Fixpoint join (sep : str) (parts : list str) : str :=
  match parts with
  | [] => []
  | [p] => p
  | p :: ps => p ++ sep ++ join sep ps
  end.

(* ================================================================== *)
(** * Decimal digits *)

Definition digit_char (d : Z) : char := Z.to_N (48 + d).
Definition digit_val (c : char) : Z := Z.of_N c - 48.

Fixpoint digits_fuel (fuel : nat) (n : Z) (acc : str) : str :=
  match fuel with
  | O => acc
  | S f =>
      let acc' := digit_char (n mod 10) :: acc in
      if (n <? 10)%Z then acc' else digits_fuel f (n / 10) acc'
  end.

(** The decimal digits of [n >= 0], most significant first, no leading zero
    (["0"] for zero). *)
Definition digits (n : Z) : str := digits_fuel (S (Z.to_nat (Z.log2 n))) n [].

(** The number written by a string of decimal digits (empty: 0). *)
Definition digits_value (s : str) : Z :=
  fold_left (fun acc c => (10 * acc + digit_val c)%Z) s 0%Z.

(** [n] as exactly [k] digits, padded with zeros on the left. *)
Definition zero_pad (k : nat) (s : str) : str :=
  repeat 48%N (k - length s) ++ s.

(** [str(n)] for a Python [int]. *)
Definition int_str (n : Z) : str :=
  if (n <? 0)%Z then 45%N :: digits (- n) else digits n.

(* ================================================================== *)
(** * Floats: IEEE 754 binary64 with exact integer arithmetic *)

Module F64.

(** [Fin s m e] is the number (-1)^s * m * 2^e, with 2^52 <= m < 2^53 and
    -1074 <= e <= 971 for a normal number, and m < 2^52, e = -1074 for a
    subnormal one. *)
Inductive t :=
| Zero (neg : bool)
| Inf (neg : bool)
| NaN
| Fin (neg : bool) (m : positive) (e : Z).

Definition emin : Z := -1074.
Definition emax : Z := 971.

(** [round_half_even a b] is the integer nearest to a/b (b > 0), ties to
    the even one. *)
Definition round_half_even (a b : Z) : Z :=
  let q := (a / b)%Z in
  let r := (a mod b)%Z in
  if (2 * r <? b)%Z then q
  else if (b <? 2 * r)%Z then (q + 1)%Z
  else if Z.even q then q else (q + 1)%Z.

(** (p/q) / 2^e as a fraction. *)
Definition scale (p q e : Z) : Z * Z :=
  if (0 <=? e)%Z then (p, (q * 2 ^ e)%Z) else ((p * 2 ^ (- e))%Z, q).

(** floor (log2 (p/q)) for p, q > 0. *)
Definition ilog2 (p q : Z) : Z :=
  let e0 := (Z.log2 p - Z.log2 q)%Z in
  let '(n, d) := scale p q e0 in
  if (n <? d)%Z then (e0 - 1)%Z else e0.

(** The binary64 number nearest to p/q (p, q > 0), ties to even; the
    rounding of [float(...)], of int-to-float conversion and of float
    literals. *)
Definition of_ratio (neg : bool) (p q : Z) : t :=
  let e := Z.max (ilog2 p q - 52) emin in
  let '(n, d) := scale p q e in
  let m := round_half_even n d in
  let '(m, e) := if (m =? 2 ^ 53)%Z then ((2 ^ 52)%Z, (e + 1)%Z) else (m, e) in
  if (m =? 0)%Z then Zero neg
  else if (emax <? e)%Z then Inf neg
  else Fin neg (Z.to_pos m) e.

(** [float(n)] for a Python [int] that is in range. *)
Definition of_Z (n : Z) : t :=
  if (n =? 0)%Z then Zero false else of_ratio (n <? 0)%Z (Z.abs n) 1.

(** The value written [sign int_digits . frac_digits]. *)
Definition of_decimal (neg : bool) (int_part frac_part : str) : t :=
  let n := digits_value (int_part ++ frac_part) in
  if (n =? 0)%Z then Zero neg
  else of_ratio neg n (10 ^ Z.of_nat (length frac_part)).

(** [float(s)] on a string of the shape [[-+]?[0-9]*\.?[0-9]+]. *)
Definition of_str (s : str) : t :=
  let '(neg, s1) :=
    match s with
    | c :: r =>
        if N.eqb c 45 then (true, r)
        else if N.eqb c 43 then (false, r)
        else (false, s)
    | [] => (false, s)
    end in
  match split_once 46%N s1 with
  | [i; f] => of_decimal neg i f
  | _ => of_decimal neg s1 []
  end.

Definition is_finite (x : t) : bool :=
  match x with Zero _ | Fin _ _ _ => true | _ => false end.

Definition sign_str (neg : bool) : str := if neg then [45%N] else [].

(** round (m * 2^e * 10^k), ties to even. *)
Definition scaled_round (m e : Z) (k : Z) : Z :=
  if (0 <=? e)%Z then (m * 2 ^ e * 10 ^ k)%Z
  else round_half_even (m * 10 ^ k) (2 ^ (- e)).

(** The hundredths [n] written with two decimals. *)
Definition fixed2 (n : Z) : str :=
  digits (n / 100) ++ [46%N] ++ zero_pad 2 (digits (n mod 100)).

(** [f"{x:.2f}"] *)
Definition format_2f (x : t) : str :=
  match x with
  | NaN => py "nan"
  | Inf s => sign_str s ++ py "inf"
  | Zero s => sign_str s ++ py "0.00"
  | Fin s m e => sign_str s ++ fixed2 (scaled_round (Z.pos m) e 2)
  end.

(** Equality of two floats as numbers ([==]): NaN differs from itself and
    the two zeros are equal. *)
Definition eqb (x y : t) : bool :=
  match x, y with
  | Zero _, Zero _ => true
  | Inf a, Inf b => Bool.eqb a b
  | Fin a m e, Fin b m' e' => Bool.eqb a b && (m =? m')%positive && (e =? e')%Z
  | _, _ => false
  end.

(** Whether the float is the integer [n]. *)
Definition eqb_Z (x : t) (n : Z) : bool :=
  match x with
  | Zero _ => (n =? 0)%Z
  | Fin s m e =>
      let v := if s then Z.neg m else Z.pos m in
      if (0 <=? e)%Z then (v * 2 ^ e =? n)%Z else (v =? n * 2 ^ (- e))%Z
  | _ => false
  end.

(** floor (log10 (p/q)) + 1 for p, q > 0: the position of the decimal
    point before the first significant digit. *)
Fixpoint decpt_search (fuel : nat) (p q d : Z) : Z :=
  match fuel with
  | O => d
  | S f =>
      (* invariant: p/q < 10^d; go down while p/q < 10^(d-1) *)
      let '(n, dn) := if (0 <=? d - 1)%Z then (p, (q * 10 ^ (d - 1))%Z)
                      else ((p * 10 ^ (1 - d))%Z, q) in
      if (n <? dn)%Z then decpt_search f p q (d - 1)%Z else d
  end.
Definition decpt (p q : Z) : Z := decpt_search 700 p q 310.

(** The candidates with [k] significant digits around p/q: the digit
    string as an integer and the decimal point position. *)
Definition candidate_lo (p q d : Z) (k : Z) : Z :=
  (* floor (p/q * 10^(k-d)) *)
  if (0 <=? k - d)%Z then (p * 10 ^ (k - d) / q)%Z else (p / (q * 10 ^ (d - k)))%Z.

Definition of_digits (c d k : Z) : t :=
  (* c * 10^(d-k) *)
  if (0 <=? d - k)%Z then of_ratio false (c * 10 ^ (d - k)) 1
  else of_ratio false c (10 ^ (k - d)).

(** Whether candidate [a] is nearer to p/q than candidate [b = a + 1]
    (both scaled by 10^(d-k)): compares 2*p/q*10^(k-d) with a + b. *)
Definition nearer_lo (p q d k a : Z) : bool :=
  let '(n, dn) := if (0 <=? k - d)%Z then ((2 * p * 10 ^ (k - d))%Z, q)
                  else ((2 * p)%Z, (q * 10 ^ (d - k))%Z) in
  let s := ((2 * a + 1) * dn)%Z in
  if (n <? s)%Z then true else if (s <? n)%Z then false else Z.even a.

(** The shortest digit string that reads back as [x], nearest to [x]
    among those: [repr]'s digits and decimal point. *)
Fixpoint shortest_from (fuel : nat) (x : t) (p q d : Z) (k : Z) : Z * Z :=
  let lo := candidate_lo p q d k in
  let hi := (lo + 1)%Z in
  let ok_lo := eqb (of_digits lo d k) x && (0 <? lo)%Z in
  let ok_hi := eqb (of_digits hi d k) x in
  let pick c := if (c =? 10 ^ k)%Z then ((10 ^ (k - 1))%Z, (d + 1)%Z) else (c, d) in
  match fuel with
  | O => pick lo
  | S f =>
      if ok_lo && ok_hi then (if nearer_lo p q d k lo then pick lo else pick hi)
      else if ok_lo then pick lo
      else if ok_hi then pick hi
      else shortest_from f x p q d (k + 1)%Z
  end.

Definition strip_zeros (c : Z) : str := rev (
  (fix drop (s : str) := match s with 48%N :: r => drop r | _ => s end)
    (rev (digits c))).

(** [repr(x)], which is also [str(x)]. *)
Definition repr (x : t) : str :=
  match x with
  | NaN => py "nan"
  | Inf s => sign_str s ++ py "inf"
  | Zero s => sign_str s ++ py "0.0"
  | Fin s m e =>
      let '(p, q) := scale (Z.pos m) 1 (- e) in
      let d0 := decpt p q in
      let '(c, d) := shortest_from 17 (Fin false m e) p q d0 1 in
      let ds := strip_zeros c in
      let k := Z.of_nat (length ds) in
      sign_str s ++
      if ((-4 <? d) && (d <=? 16))%Z then
        if (d <=? 0)%Z then py "0." ++ repeat 48%N (Z.to_nat (- d)) ++ ds
        else if (k <=? d)%Z then ds ++ repeat 48%N (Z.to_nat (d - k)) ++ py ".0"
        else firstn (Z.to_nat d) ds ++ [46%N] ++ skipn (Z.to_nat d) ds
      else
        let ex := (d - 1)%Z in
        firstn 1 ds
        ++ (match skipn 1 ds with [] => [] | r => 46%N :: r end)
        ++ [101%N] ++ (if (ex <? 0)%Z then [45%N] else [43%N])
        ++ zero_pad 2 (digits (Z.abs ex))
  end.

End F64.

(* ================================================================== *)
(** * Python values, dictionaries and exceptions *)

(** The values [json.load] produces.  A [dict] keeps its keys in insertion
    order, as Python's does. *)
Inductive pyval :=
| PNone
| PBool (b : bool)
| PInt (n : Z)
| PFloat (x : F64.t)
| PStr (s : str)
| PList (l : list pyval)
| PDict (d : list (str * pyval)).

Definition dict := list (str * pyval).

(** [d.get(k)] as an option. *)
Fixpoint dict_get (d : dict) (k : str) : option pyval :=
  match d with
  | [] => None
  | (k', v) :: d' => if str_eqb k' k then Some v else dict_get d' k
  end.

(** [k in d] *)
Definition dict_in (k : str) (d : dict) : bool :=
  match dict_get d k with Some _ => true | None => false end.

(** [d[k] = v]: an existing key keeps its place, a new one goes last. *)
Fixpoint dict_set (d : dict) (k : str) (v : pyval) : dict :=
  match d with
  | [] => [(k, v)]
  | (k', v') :: d' =>
      if str_eqb k' k then (k', v) :: d' else (k', v') :: dict_set d' k v
  end.

Definition dict_keys (d : dict) : list str := map fst d.

Inductive exn :=
| ValueError (msg : str)
| KeyError (key : str)
| IndexError
| AttributeError
| TypeError
| OverflowError
| IsADirectoryError
| FileNotFoundError
| FctbParseError (msg : str)
| FctlParseError (msg : str).

Inductive result (A : Type) :=
| Ok (a : A)
| Raise (e : exn).
Arguments Ok {A} a.
Arguments Raise {A} e.

Definition bind {A B} (r : result A) (f : A -> result B) : result B :=
  match r with Ok a => f a | Raise e => Raise e end.

Notation "x <- c ;; k" := (bind c (fun x => k))
  (at level 61, c at next level, right associativity).

(** A loop [for x in xs: acc = body(acc, x)] that an exception leaves. *)
Fixpoint for_each {A S} (xs : list A) (body : S -> A -> result S) (acc : S)
  : result S :=
  match xs with
  | [] => Ok acc
  | x :: xs' => acc' <- body acc x ;; for_each xs' body acc'
  end.

(** [bool(v)] *)
Definition truthy (v : pyval) : bool :=
  match v with
  | PNone => false
  | PBool b => b
  | PInt n => negb (n =? 0)%Z
  | PFloat x => match x with F64.Zero _ => false | _ => true end
  | PStr s => match s with [] => false | _ => true end
  | PList l => match l with [] => false | _ => true end
  | PDict d => match d with [] => false | _ => true end
  end.

(** [a or b] *)
Definition py_or (a b : pyval) : pyval := if truthy a then a else b.

(** [isinstance(v, (int, float))]; a [bool] is an [int]. *)
Definition is_number (v : pyval) : bool :=
  match v with PBool _ | PInt _ | PFloat _ => true | _ => false end.

(** [isinstance(v, str)], [isinstance(v, list)], [isinstance(v, dict)] *)
Definition is_str (v : pyval) : bool := match v with PStr _ => true | _ => false end.
Definition is_list (v : pyval) : bool := match v with PList _ => true | _ => false end.
Definition is_dict (v : pyval) : bool := match v with PDict _ => true | _ => false end.

(** [v.get(k)] and [v.get(k, default)]: only a [dict] has the method. *)
Definition py_get (v : pyval) (k : str) (default : pyval) : result pyval :=
  match v with
  | PDict d => Ok (match dict_get d k with Some x => x | None => default end)
  | _ => Raise AttributeError
  end.

(** [v.items()] *)
Definition py_items (v : pyval) : result dict :=
  match v with PDict d => Ok d | _ => Raise AttributeError end.

(** [d[k]] on a [dict] *)
Definition dict_item (d : dict) (k : str) : result pyval :=
  match dict_get d k with Some x => Ok x | None => Raise (KeyError k) end.

(** Equality with a string literal: [v == "..."]. *)
Definition eq_str (v : pyval) (s : str) : bool :=
  match v with PStr t => str_eqb t s | _ => false end.

(** [k in v] for a string [k]: a key of a dict, a substring of a string, an
    element of a list; the other types are not containers. *)
Definition py_in (k : str) (v : pyval) : result bool :=
  match v with
  | PDict d => Ok (dict_in k d)
  | PStr s => Ok (contains k s)
  | PList l => Ok (existsb (fun x => eq_str x k) l)
  | _ => Raise TypeError
  end.

(** [v[k]] for a string [k]: a dict is looked up, a string or a list wants
    an integer index, the rest cannot be subscripted. *)
Definition py_item (v : pyval) (k : str) : result pyval :=
  match v with
  | PDict d => dict_item d k
  | _ => Raise TypeError
  end.

(** ** [str] and [repr] *)

Definition hex_digit (d : N) : char := (if d <? 10 then 48 + d else 87 + d)%N.

Fixpoint hex_fixed (k : nat) (c : N) : str :=
  match k with
  | O => []
  | S k' => hex_fixed k' (c / 16) ++ [hex_digit (c mod 16)]
  end.

(** Whether [repr] leaves a code point as it is.  ASCII and Latin-1 follow
    the Unicode tables; every code point above U+00FF is taken as
    printable. *)
Definition is_printable (c : char) : bool :=
  ((32 <=? c) && (c <? 127) || (161 <=? c) && negb (c =? 173))%N.

Definition repr_char (quote : char) (c : char) : str :=
  if (N.eqb c quote || N.eqb c 92)%bool then [92%N; c]
  else if N.eqb c 9 then py "\t"
  else if N.eqb c 10 then py "\n"
  else if N.eqb c 13 then py "\r"
  else if is_printable c then [c]
  else if (c <? 256)%N then py "\x" ++ hex_fixed 2 c
  else if (c <? 65536)%N then py "\u" ++ hex_fixed 4 c
  else py "\U" ++ hex_fixed 8 c.

(** [repr(s)]: single quotes, unless the text has one and no double quote. *)
Definition str_repr (s : str) : str :=
  let quote :=
    if existsb (N.eqb 39) s && negb (existsb (N.eqb 34) s) then 34%N else 39%N in
  [quote] ++ flat_map (repr_char quote) s ++ [quote].

Fixpoint py_repr (v : pyval) : str :=
  match v with
  | PNone => py "None"
  | PBool b => if b then py "True" else py "False"
  | PInt n => int_str n
  | PFloat x => F64.repr x
  | PStr s => str_repr s
  | PList l => py "[" ++ join (py ", ") (map py_repr l) ++ py "]"
  | PDict d =>
      py "{" ++
      join (py ", ")
           (map (fun kv => let '(k, x) := kv in str_repr k ++ py ": " ++ py_repr x) d)
      ++ py "}"
  end.

(** [str(v)] *)
Definition py_str (v : pyval) : str :=
  match v with
  | PStr s => s
  | _ => py_repr v
  end.

(** The float a number is formatted as: [float(v)] for a [bool], an [int]
    (out of range: OverflowError) or a [float]. *)
Definition as_float (v : pyval) : result F64.t :=
  match v with
  | PBool b => Ok (F64.of_Z (if b then 1 else 0))
  | PInt n => match F64.of_Z n with
              | F64.Inf _ => Raise OverflowError
              | x => Ok x
              end
  | PFloat x => Ok x
  | _ => Raise TypeError
  end.

(** Hashable keys compare as numbers across [bool], [int] and [float]. *)
Definition is_hashable (v : pyval) : bool :=
  match v with PList _ | PDict _ => false | _ => true end.

Definition key_eqb (a b : pyval) : bool :=
  let int_of v := match v with
                  | PBool b => Some (if b then 1 else 0)%Z
                  | PInt n => Some n
                  | _ => None
                  end in
  match a, b with
  | PNone, PNone => true
  | PStr s, PStr t => str_eqb s t
  | PFloat x, PFloat y => F64.eqb x y
  | PFloat x, _ => match int_of b with Some n => F64.eqb_Z x n | None => false end
  | _, PFloat y => match int_of a with Some n => F64.eqb_Z y n | None => false end
  | _, _ => match int_of a, int_of b with
            | Some n, Some n' => (n =? n')%Z
            | _, _ => false
            end
  end.

(** A Python dict whose keys are any hashable values. *)
Definition pydict := list (pyval * pyval).

(** [k in d]: hashing an unhashable key is a TypeError. *)
Definition pydict_in (k : pyval) (d : pydict) : result bool :=
  if is_hashable k then Ok (existsb (fun kv => key_eqb (fst kv) k) d)
  else Raise TypeError.

(* ================================================================== *)
(** * Regular expressions: the backtracking matcher of [re] *)

Module Re.

(** The constructs the two patterns of [fctb_parser.py] use.  A repeated
    body always consumes a code point here. *)
Inductive regex :=
| Chr (p : char -> bool)      (** one code point of a class *)
| Cat (a b : regex)           (** [ab] *)
| Opt (a : regex)             (** [a?], greedy *)
| Star (a : regex)            (** [a*], greedy *)
| Group (i : nat) (a : regex) (** [(a)], the i-th group *)
| Bol                         (** [^] *)
| Eol                         (** [$]: the end, or just before a final newline *)
| Ahead (a : regex)           (** [(?=a)] *)
| NotBehind (a : regex).      (** [(?<!a)] for a zero-width [a] *)

(** [a+] *)
Definition Plus (a : regex) : regex := Cat a (Star a).

Definition groups := list (nat * str).

Fixpoint group (g : groups) (i : nat) : option str :=
  match g with
  | [] => None
  | (j, s) :: g' => if Nat.eqb j i then Some s else group g' i
  end.

(** [run r i s g k]: match [r] at index [i], where [s] is the text from
    [i] on and [g] the groups so far, then go on with [k]; the first
    alternative that lets [k] succeed wins, as in a backtracking
    matcher. *)
Fixpoint run {R : Type} (r : regex) (i : nat) (s : str) (g : groups)
         (k : nat -> str -> groups -> option R) {struct r} : option R :=
  match r with
  | Chr p =>
      match s with
      | c :: s' => if p c then k (S i) s' g else None
      | [] => None
      end
  | Cat a b => run a i s g (fun i' s' g' => run b i' s' g' k)
  | Opt a =>
      match run a i s g k with
      | Some x => Some x
      | None => k i s g
      end
  | Star a =>
      (fix star (fuel : nat) (i : nat) (s : str) (g : groups) : option R :=
         match fuel with
         | O => k i s g
         | S fuel' =>
             match run a i s g
                       (fun i' s' g' =>
                          if Nat.eqb i' i then None else star fuel' i' s' g') with
             | Some x => Some x
             | None => k i s g
             end
         end) (length s) i s g
  | Group n a =>
      run a i s g (fun i' s' g' => k i' s' ((n, firstn (i' - i) s) :: g'))
  | Bol => if Nat.eqb i 0 then k i s g else None
  | Eol =>
      match s with
      | [] => k i s g
      | [10%N] => k i s g
      | _ => None
      end
  | Ahead a =>
      match run a i s g (fun _ _ g' => Some g') with
      | Some g' => k i s g'
      | None => None
      end
  | NotBehind a =>
      match run a i s g (fun i' _ _ => if Nat.eqb i' i then Some tt else None) with
      | Some _ => None
      | None => k i s g
      end
  end.

(** [re.match(r, s)]: the groups of the match at the start of [s]. *)
Definition match_ (r : regex) (s : str) : option groups :=
  run r 0 s [] (fun _ _ g => Some g).

(** One attempt at index [i]; after an empty match the next attempt at the
    same place must consume something. *)
Definition try_at (r : regex) (i : nat) (s : str) (must_advance : bool)
  : option (nat * str) :=
  run r i s []
      (fun j s' _ => if must_advance && Nat.eqb j i then None else Some (j, s')).

Fixpoint sub_loop (fuel : nat) (r : regex) (repl : str) (i : nat) (s : str)
         (must_advance : bool) : str :=
  match fuel with
  | O => s
  | S fuel' =>
      match try_at r i s must_advance with
      | Some (j, s') => repl ++ sub_loop fuel' r repl j s' (Nat.eqb j i)
      | None =>
          match s with
          | [] => []
          | c :: s' => c :: sub_loop fuel' r repl (S i) s' false
          end
      end
  end.

(** [re.sub(r, repl, s)] for a literal replacement. *)
Definition sub (r : regex) (repl : str) (s : str) : str :=
  sub_loop (2 * length s + 2) r repl 0 s false.

End Re.

(* ================================================================== *)
(** * fctb_parser.py *)

Definition is_sign (c : char) : bool := N.eqb c 45 || N.eqb c 43.
Definition is_dot (c : char) : bool := N.eqb c 46.
(** [.]: any code point but a newline. *)
Definition not_newline (c : char) : bool := negb (N.eqb c 10).

(** The pattern [^([-+]?[0-9]*\.?[0-9]+)\s*(.+)$] of
    [parse_parameter_value]. *)
Definition number_re : Re.regex :=
  Re.Cat Re.Bol
    (Re.Cat
       (Re.Group 1
          (Re.Cat (Re.Opt (Re.Chr is_sign))
             (Re.Cat (Re.Star (Re.Chr is_digit))
                (Re.Cat (Re.Opt (Re.Chr is_dot)) (Re.Plus (Re.Chr is_digit))))))
       (Re.Cat (Re.Star (Re.Chr is_space))
          (Re.Cat (Re.Group 2 (Re.Plus (Re.Chr not_newline))) Re.Eol))).

(** The same pattern after its optional sign, as the continuation the
    matcher runs: [t] is the whole text, for the first group. *)
Definition after_sign (t : str) (i1 : nat) (s1 : str) (g1 : Re.groups)
  : option Re.groups :=
  Re.run (Re.Star (Re.Chr is_digit)) i1 s1 g1
    (fun i2 s2 g2 =>
       Re.run (Re.Opt (Re.Chr is_dot)) i2 s2 g2
         (fun i3 s3 g3 =>
            Re.run (Re.Plus (Re.Chr is_digit)) i3 s3 g3
              (fun i4 s4 g4 =>
                 Re.run (Re.Star (Re.Chr is_space)) i4 s4
                   ((1%nat, firstn (i4 - 0) t) :: g4)
                   (fun i5 s5 g5 =>
                      Re.run (Re.Plus (Re.Chr not_newline)) i5 s5 g5
                        (fun i6 s6 g6 =>
                           match s6 with
                           | [] => Some ((2%nat, firstn (i6 - i5) s5) :: g6)
                           | [10%N] => Some ((2%nat, firstn (i6 - i5) s5) :: g6)
                           | _ => None
                           end))))).

(** The list [['m', '°', 'in', 'deg']] of the unit check. *)
Definition unit_indicators : list str :=
  [py "m"; degree_sign; py "in"; py "deg"].

(** [any(c in unit_part for c in ['m', '°', 'in', 'deg'])] *)
Definition looks_like_unit (unit_part : str) : bool :=
  existsb (fun c => contains c unit_part) unit_indicators.

Definition unit_value (value : F64.t) (unit : str) : pyval :=
  PDict [(py "value", PFloat value); (py "unit", PStr unit)].

(** [parse_parameter_value] (fctb_parser.py, lines 27-63) *)
Definition parse_parameter_value (value : pyval) : pyval :=
  match value with
  | PStr s =>
      match Re.match_ number_re (strip s) with
      | Some g =>
          match Re.group g 1, Re.group g 2 with
          | Some numeric_part, Some unit_part =>
              if truthy (PStr unit_part) && looks_like_unit unit_part
              then unit_value (F64.of_str numeric_part) (strip unit_part)
              else value
          | _, _ => value
          end
      | None => value
      end
  | _ => value
  end.

(** [[field for field in required if field not in data]] *)
Definition missing_fields (required : list str) (data : dict) : list str :=
  filter (fun field => negb (dict_in field data)) required.

Definition fctb_required_fields : list str :=
  [py "version"; py "name"; py "shape"; py "shape-type"; py "parameter"].

(** The loop that fills [parsed_parameters]. *)
Definition parse_parameters (items : dict) : dict :=
  fold_left (fun parsed kv => dict_set parsed (fst kv) (parse_parameter_value (snd kv)))
            items [].

(** [parse_fctb_dict] (fctb_parser.py, lines 66-101) *)
Definition parse_fctb_dict (data : dict) : result dict :=
  let missing := missing_fields fctb_required_fields data in
  match missing with
  | _ :: _ =>
    Raise (FctbParseError (py "Missing required fields: " ++ join (py ", ") missing))
  | [] =>
    parameter <- dict_item data (py "parameter") ;;
    items <- py_items parameter ;;
    let parsed_parameters := parse_parameters items in
    version <- dict_item data (py "version") ;;
    name <- dict_item data (py "name") ;;
    shape <- dict_item data (py "shape") ;;
    shape_type <- dict_item data (py "shape-type") ;;
    Ok [ (py "version", version);
         (py "id", match dict_get data (py "id") with Some x => x | None => PNone end);
         (py "name", name);
         (py "shape", shape);
         (py "shape_type", shape_type);
         (py "parameters", PDict parsed_parameters);
         (py "attribute",
           match dict_get data (py "attribute") with Some x => x | None => PDict [] end);
         (py "_original", PDict data) ]
  end.

(** The table of [map_shape_type]. *)
Definition shape_type_map : list (str * str) :=
  [ (py "Drill", py "cutting_tool"); (py "Endmill", py "cutting_tool");
    (py "Ballend", py "cutting_tool"); (py "VBit", py "cutting_tool");
    (py "ThreadMill", py "cutting_tool"); (py "ChamferMill", py "cutting_tool");
    (py "CornerRound", py "cutting_tool"); (py "Reamer", py "cutting_tool");
    (py "SpottingDrill", py "cutting_tool"); (py "SurfacingBit", py "cutting_tool");
    (py "Probe", py "probe") ].

(** [table.get(key, default)] for a table with string keys; the key is
    hashed first. *)
Definition table_get (table : list (str * str)) (key : pyval) (default : str)
  : result pyval :=
  if is_hashable key then
    Ok (PStr match find (fun kv => eq_str key (fst kv)) table with
             | Some kv => snd kv
             | None => default
             end)
  else Raise TypeError.

(** [map_shape_type] (fctb_parser.py, lines 127-155) *)
Definition map_shape_type (freecad_shape_type : pyval) : result pyval :=
  table_get shape_type_map freecad_shape_type (py "cutting_tool").

(** The pattern [(?<!^)(?=[A-Z])]. *)
Definition capital_re : Re.regex :=
  Re.Cat (Re.NotBehind Re.Bol) (Re.Ahead (Re.Chr is_upper)).

(** The geometry key of a parameter name (fctb_parser.py, lines 182-183):
    [key[0].lower() + key[1:]], then [re.sub(..., '_', ...).lower()]. *)
Definition snake_key (key : str) : result str :=
  match key with
  | [] => Raise IndexError
  | c :: rest =>
      let param_key := lower [c] ++ rest in
      Ok (lower (Re.sub capital_re (py "_") param_key))
  end.

(** The body of the geometry loop (fctb_parser.py, lines 177-190). *)
Definition geometry_step (geometry : dict) (kv : str * pyval) : result dict :=
  let '(key, value) := kv in
  if str_eqb key (py "Material") then Ok geometry
  else
    param_key <- snake_key key ;;
    match value with
    | PDict d =>
        if dict_in (py "value") d then
          v <- dict_item d (py "value") ;;
          let geometry := dict_set geometry param_key v in
          u <- dict_item d (py "unit") ;;
          Ok (dict_set geometry (param_key ++ py "_unit") u)
        else Ok (dict_set geometry param_key value)
    | _ => Ok (dict_set geometry param_key value)
    end.

(** [fctb_to_smooth] (fctb_parser.py, lines 158-228) *)
Definition fctb_to_smooth (tool : dict) : result dict :=
  params <- dict_item tool (py "parameters") ;;
  items <- py_items params ;;
  geometry <- for_each items geometry_step [] ;;
  let material :=
    match dict_get items (py "Material") with
    | Some x => [(py "type", x)]
    | None => []
    end in
  shape_data <-
    (if truthy (match dict_get tool (py "shape") with Some x => x | None => PNone end)
     then
       shape <- dict_item tool (py "shape") ;;
       shape_type <- dict_item tool (py "shape_type") ;;
       shape' <- dict_item tool (py "shape") ;;
       Ok (PDict [ (py "format", PStr (py "fcstd"));
                   (py "source_system", PStr (py "freecad"));
                   (py "reference",
                     PDict [ (py "type", PStr (py "local_path")); (py "value", shape) ]);
                   (py "metadata",
                     PDict [ (py "shape_type", shape_type);
                             (py "original_reference", shape') ]) ])
     else Ok PNone) ;;
  shape_type <- dict_item tool (py "shape_type") ;;
  type <- map_shape_type shape_type ;;
  name <- dict_item tool (py "name") ;;
  shape <- dict_item tool (py "shape") ;;
  shape_type' <- dict_item tool (py "shape_type") ;;
  version <- dict_item tool (py "version") ;;
  Ok [ (py "type", type);
       (py "description", name);
       (py "geometry", PDict geometry);
       (py "material", if truthy (PDict material) then PDict material else PNone);
       (py "shape_data", shape_data);
       (py "freecad_metadata",
         PDict [ (py "shape", shape);
                 (py "shape_type", shape_type');
                 (py "id", match dict_get tool (py "id") with Some x => x | None => PNone end);
                 (py "version", version) ]) ].

(** The table of [reverse_map_shape_type]. *)
Definition type_map : list (str * str) :=
  [ (py "probe", py "Probe"); (py "cutting_tool", py "Endmill") ].

(** [reverse_map_shape_type] (fctb_parser.py, lines 231-250) *)
Definition reverse_map_shape_type (smooth_type : pyval) : result pyval :=
  table_get type_map smooth_type (py "Endmill").

(** [snake_to_camel] (fctb_parser.py, lines 253-267) *)
Definition snake_to_camel (snake_str : str) : str :=
  let components := split_on 95%N snake_str in
  join [] (map title components).

(** [format_parameter_value] (fctb_parser.py, lines 270-295) *)
Definition format_parameter_value (value : pyval) (unit : pyval) : result str :=
  match unit with
  | PNone => Ok (py_str value)
  | _ =>
      if is_number value then
        x <- as_float value ;;
        if eq_str unit degree_sign then Ok (F64.format_2f x ++ degree_sign)
        else Ok (F64.format_2f x ++ py " " ++ py_str unit)
      else Ok (py_str value)
  end.

(** The list of dimensional keys of [smooth_to_fctb]. *)
Definition dimensional_keys : list str :=
  [ py "diameter"; py "length"; py "height"; py "angle"; py "tip_angle";
    py "cutting_edge_height"; py "shank_diameter" ].

Definition is_dimensional (key : str) : bool :=
  existsb (str_eqb key) dimensional_keys.

(** The message of the ValueError. *)
Definition missing_unit_message (key unit_key : str) : str :=
  py "Dimensional parameter '" ++ key ++ py "' missing required unit field '"
     ++ unit_key ++ py "'".

(** The body of the loop over [geometry.items()] (fctb_parser.py, lines
    327-356); the state is [parameters] and [processed_keys]. *)
Definition parameter_step (geometry : dict) (st : dict * list str) (kv : str * pyval)
  : result (dict * list str) :=
  let '(parameters, processed_keys) := st in
  let '(key, value) := kv in
  if endswith key (py "_unit") then Ok st
  else if existsb (str_eqb key) processed_keys then Ok st
  else
    let unit_key := key ++ py "_unit" in
    if dict_in unit_key geometry then
      unit <- dict_item geometry unit_key ;;
      let param_name := snake_to_camel key in
      formatted <- format_parameter_value value unit ;;
      Ok (dict_set parameters param_name (PStr formatted),
          unit_key :: key :: processed_keys)
    else
      let param_name := snake_to_camel key in
      if is_number value then
        if is_dimensional key then
          Raise (ValueError (missing_unit_message key unit_key))
        else Ok (dict_set parameters param_name value, key :: processed_keys)
      else Ok (dict_set parameters param_name (PStr (py_str value)),
               key :: processed_keys).

Definition get_or (d : dict) (k : str) (default : pyval) : pyval :=
  match dict_get d k with Some x => x | None => default end.

(** The parameters of the tool bit (fctb_parser.py, lines 322-360). *)
Definition build_parameters (geometry material : pyval) : result dict :=
  items <- py_items geometry ;;
  st <- for_each items (parameter_step items) ([], []) ;;
  let parameters := fst st in
  type <- py_get material (py "type") PNone ;;
  if truthy type then
    type' <- py_item material (py "type") ;;
    Ok (dict_set parameters (py "Material") type')
  else Ok parameters.

(** The shape-type (fctb_parser.py, lines 362-366). *)
Definition resolve_shape_type (smooth_tool : dict) (metadata : pyval) : result pyval :=
  has <- py_in (py "shape_type") metadata ;;
  if has then py_item metadata (py "shape_type")
  else reverse_map_shape_type (get_or smooth_tool (py "type") (PStr (py "cutting_tool"))).

(** The shape file reference (fctb_parser.py, lines 368-379). *)
Definition resolve_shape_file (metadata shape_data : pyval) (default_shape : str)
  : result pyval :=
  shape_file <- py_get metadata (py "shape") PNone ;;
  shape_file <-
    (if negb (truthy shape_file) && truthy shape_data then
       shape_ref <- py_get shape_data (py "reference") (PDict []) ;;
       value <- py_get shape_ref (py "value") PNone ;;
       if truthy value then py_item shape_ref (py "value")
       else
         meta <- py_get shape_data (py "metadata") (PDict []) ;;
         original <- py_get meta (py "original_reference") PNone ;;
         if truthy original then
           meta' <- py_item shape_data (py "metadata") ;;
           py_item meta' (py "original_reference")
         else Ok shape_file
     else Ok shape_file) ;;
  if negb (truthy shape_file) then Ok (PStr (default_shape ++ py ".fcstd"))
  else Ok shape_file.

(** [smooth_to_fctb] (fctb_parser.py, lines 298-397) *)
Definition smooth_to_fctb (smooth_tool : dict) (default_shape : str) : result dict :=
  let geometry := get_or smooth_tool (py "geometry") (PDict []) in
  let material := py_or (get_or smooth_tool (py "material") PNone) (PDict []) in
  let metadata := py_or (get_or smooth_tool (py "freecad_metadata") PNone) (PDict []) in
  let shape_data := py_or (get_or smooth_tool (py "shape_data") PNone) (PDict []) in
  parameters <- build_parameters geometry material ;;
  shape_type <- resolve_shape_type smooth_tool metadata ;;
  shape_file <- resolve_shape_file metadata shape_data default_shape ;;
  version <- py_get metadata (py "version") (PInt 2) ;;
  let fctb :=
    [ (py "version", version);
      (py "name", get_or smooth_tool (py "description") (PStr (py "Unnamed Tool")));
      (py "shape", shape_file);
      (py "shape-type", shape_type);
      (py "parameter", PDict parameters);
      (py "attribute", PDict []) ] in
  has_id <- py_in (py "id") metadata ;;
  if has_id then
    id <- py_item metadata (py "id") ;;
    Ok (dict_set fctb (py "id") id)
  else if dict_in (py "id") smooth_tool then
    id <- dict_item smooth_tool (py "id") ;;
    Ok (dict_set fctb (py "id") id)
  else Ok fctb.

(* ================================================================== *)
(** * fctl_parser.py *)

Definition fctl_required_fields : list str := [py "version"; py "tools"].

(** [parse_fctl_dict] (fctl_parser.py, lines 33-66) *)
Definition parse_fctl_dict (data : dict) : result dict :=
  let missing := missing_fields fctl_required_fields data in
  match missing with
  | _ :: _ =>
    Raise (FctlParseError (py "Missing required fields: " ++ join (py ", ") missing))
  | [] =>
    tools <- dict_item data (py "tools") ;;
    if negb (is_list tools) then
      Raise (FctlParseError (py "'tools' field must be a list"))
    else
      let label := py_or (get_or data (py "label") PNone) (get_or data (py "name") PNone) in
      version <- dict_item data (py "version") ;;
      tools' <- dict_item data (py "tools") ;;
      Ok [ (py "version", version);
           (py "label", label);
           (py "tools", tools');
           (py "_original", PDict data) ]
  end.

(* ================================================================== *)
(** * SmoothDialog.py: the duplicate check *)

(** [d[k] = v] on a dict with hashable keys. *)
Fixpoint pydict_set (d : pydict) (k v : pyval) : pydict :=
  match d with
  | [] => [(k, v)]
  | (k', v') :: d' =>
      if key_eqb k' k then (k', v) :: d' else (k', v') :: pydict_set d' k v
  end.

(** [f"{desc}|{diam}"] *)
Definition signature (desc diam : pyval) : pyval :=
  PStr (py_str desc ++ py "|" ++ py_str diam).

Definition is_none (v : pyval) : bool := match v with PNone => true | _ => false end.

(** [check_duplicates] (SmoothDialog.py, lines 490-500) *)
Definition check_duplicates (tool : dict) (existing_by_id existing_by_sig : pydict)
  : result (bool * str) :=
  let freecad_id := get_or tool (py "id") PNone in
  let desc := get_or tool (py "description") (PStr []) in
  diam <- py_get (get_or tool (py "geometry") (PDict [])) (py "diameter") PNone ;;
  by_id <- (if truthy freecad_id then pydict_in freecad_id existing_by_id else Ok false) ;;
  if by_id then Ok (true, py "FreeCAD ID")
  else
    by_sig <- (if truthy desc && negb (is_none diam)
               then pydict_in (signature desc diam) existing_by_sig
               else Ok false) ;;
    if by_sig then Ok (true, py "description+diameter")
    else Ok (false, []).

(** The body of the loop of [export_tool_bits] that indexes the tools the
    server already has (SmoothDialog.py, lines 517-523); the state is
    [existing_by_id] and [existing_by_sig]. *)
Definition index_step (st : pydict * pydict) (item : pyval)
  : result (pydict * pydict) :=
  let '(existing_by_id, existing_by_sig) := st in
  metadata <- py_get item (py "freecad_metadata") (PDict []) ;;
  fc_id <- py_get metadata (py "id") PNone ;;
  existing_by_id <-
    (if truthy fc_id then
       if is_hashable fc_id then Ok (pydict_set existing_by_id fc_id item)
       else Raise TypeError
     else Ok existing_by_id) ;;
  desc <- py_get item (py "description") (PStr []) ;;
  geometry <- py_get item (py "geometry") (PDict []) ;;
  diam <- py_get geometry (py "diameter") PNone ;;
  if truthy desc && negb (is_none diam) then
    Ok (existing_by_id, pydict_set existing_by_sig (signature desc diam) item)
  else Ok (existing_by_id, existing_by_sig).

Definition index_existing (items : list pyval) : result (pydict * pydict) :=
  for_each items index_step ([], []).

(* ================================================================== *)
(** * SHA-256 (FIPS 180-4), as [hashlib.sha256] computes it *)

Module SHA256.

Definition mask : Z := 2 ^ 32 - 1.
Definition add (x y : Z) : Z := Z.land (x + y) mask.
Definition rotr (n x : Z) : Z :=
  Z.lor (Z.shiftr x n) (Z.land (Z.shiftl x (32 - n)) mask).
Definition shr (n x : Z) : Z := Z.shiftr x n.
Definition xor3 (a b c : Z) : Z := Z.lxor (Z.lxor a b) c.

Definition ch (x y z : Z) : Z := Z.lxor (Z.land x y) (Z.land (Z.lxor x mask) z).
Definition maj (x y z : Z) : Z := xor3 (Z.land x y) (Z.land x z) (Z.land y z).
Definition big_sigma0 (x : Z) : Z := xor3 (rotr 2 x) (rotr 13 x) (rotr 22 x).
Definition big_sigma1 (x : Z) : Z := xor3 (rotr 6 x) (rotr 11 x) (rotr 25 x).
Definition small_sigma0 (x : Z) : Z := xor3 (rotr 7 x) (rotr 18 x) (shr 3 x).
Definition small_sigma1 (x : Z) : Z := xor3 (rotr 17 x) (rotr 19 x) (shr 10 x).

(** The first 64 primes, by trial division. *)
Fixpoint primes_from (fuel : nat) (n : Z) (found : list Z) : list Z :=
  match fuel with
  | O => rev found
  | S f =>
      if forallb (fun p => negb (n mod p =? 0)%Z) found
      then primes_from f (n + 1)%Z (n :: found)
      else primes_from f (n + 1)%Z found
  end.
Definition primes : list Z := primes_from 310 2 [].

(** floor of the k-th root of n, one bit at a time. *)
Fixpoint iroot (k : Z) (bit : nat) (n r : Z) : Z :=
  let r' := (r + 2 ^ Z.of_nat bit)%Z in
  let r := if (r' ^ k <=? n)%Z then r' else r in
  match bit with
  | O => r
  | S b => iroot k b n r
  end.

(** The first 32 bits of the fractional part of the k-th root of p. *)
Definition frac_root (k p : Z) : Z :=
  Z.land (iroot k 40 (p * 2 ^ (32 * k)) 0) mask.

(** The initial hash value and the round constants. *)
Definition h0 : list Z := map (frac_root 2) (firstn 8 primes).
Definition k256 : list Z := map (frac_root 3) primes.

(** A message padded to a multiple of 64 bytes. *)
Fixpoint be_bytes (k : nat) (n : Z) : list Z :=
  match k with
  | O => []
  | S k' => be_bytes k' (n / 256) ++ [(n mod 256)%Z]
  end.

Definition pad (msg : list Z) : list Z :=
  let len := Z.of_nat (length msg) in
  let zeros := Z.to_nat ((55 - len) mod 64) in
  msg ++ [128%Z] ++ repeat 0%Z zeros ++ be_bytes 8 (8 * len).

Fixpoint be_word (bs : list Z) (acc : Z) : Z :=
  match bs with
  | [] => acc
  | b :: bs' => be_word bs' (acc * 256 + b)%Z
  end.

Fixpoint words (fuel : nat) (bs : list Z) : list Z :=
  match fuel, bs with
  | S f, _ :: _ => be_word (firstn 4 bs) 0 :: words f (skipn 4 bs)
  | _, _ => []
  end.

(** The message schedule, newest word first. *)
Fixpoint schedule (n : nat) (w : list Z) : list Z :=
  match n with
  | O => w
  | S n' =>
      let x := add (add (small_sigma1 (nth 1 w 0%Z)) (nth 6 w 0%Z))
                   (add (small_sigma0 (nth 14 w 0%Z)) (nth 15 w 0%Z)) in
      schedule n' (x :: w)
  end.

Definition state := list Z.

Definition round (s : state) (kw : Z * Z) : state :=
  match s with
  | [a; b; c; d; e; f; g; h] =>
      let t1 := add (add (add h (big_sigma1 e)) (add (ch e f g) (fst kw))) (snd kw) in
      let t2 := add (big_sigma0 a) (maj a b c) in
      [add t1 t2; a; b; c; add d t1; e; f; g]
  | _ => s
  end.

Definition compress (s : state) (block : list Z) : state :=
  let w := rev (schedule 48 (rev (words 16 block))) in
  let s' := fold_left round (combine k256 w) s in
  map (fun xy => add (fst xy) (snd xy)) (combine s s').

Fixpoint blocks (fuel : nat) (bs : list Z) (s : state) : state :=
  match fuel, bs with
  | S f, _ :: _ => blocks f (skipn 64 bs) (compress s (firstn 64 bs))
  | _, _ => s
  end.

Definition digest (msg : list Z) : state :=
  let p := pad msg in
  blocks (length p) p h0.

(** [hexdigest()]: 64 lower-case hexadecimal digits. *)
Definition hexdigest (msg : list Z) : str :=
  flat_map (fun w => hex_fixed 8 (Z.to_N w)) (digest msg).

End SHA256.

(* ================================================================== *)
(** * shape_storage.py *)

(** What a path names: a regular file with its bytes, or a directory. *)
Inductive node :=
| File (content : list Z)
| Dir.

(** The file system: what each path names, if anything. *)
Definition filesystem := str -> option node.

(** [path.exists()] *)
Definition exists_ (fs : filesystem) (path : str) : bool :=
  match fs path with Some _ => true | None => false end.

(** [open(path, "rb")]: the bytes still to be read. *)
Definition open_rb (fs : filesystem) (path : str) : result (list Z) :=
  match fs path with
  | Some (File content) => Ok content
  | Some Dir => Raise IsADirectoryError
  | None => Raise FileNotFoundError
  end.

(** The block size of [calculate_file_hash]. *)
Definition block_size : nat := 4096.

(** [f.read(n)]: the block read and the bytes left. *)
Definition read (n : nat) (f : list Z) : list Z * list Z := (firstn n f, skipn n f).

(** [for byte_block in iter(lambda: f.read(4096), b""): h.update(byte_block)];
    the hash object is the message fed to it so far. *)
Fixpoint update_blocks (fuel : nat) (f : list Z) (h : list Z) : list Z :=
  match fuel with
  | O => h
  | S fuel' =>
      let '(byte_block, f') := read block_size f in
      match byte_block with
      | [] => h
      | _ => update_blocks fuel' f' (h ++ byte_block)
      end
  end.

(** [calculate_file_hash] (shape_storage.py, lines 18-31) *)
Definition calculate_file_hash (fs : filesystem) (file_path : str) : result str :=
  f <- open_rb fs file_path ;;
  let sha256_hash := update_blocks (S (length f)) f [] in
  Ok (SHA256.hexdigest sha256_hash).

(** [verify_shape_file_integrity] (shape_storage.py, lines 207-229) *)
Definition verify_shape_file_integrity (fs : filesystem) (file_path : str)
           (expected_hash : str) : result bool :=
  if negb (exists_ fs file_path) then Ok false
  else
    let hash_value :=
      if contains (py ":") expected_hash then
        match split_once 58%N expected_hash with
        | [algo; hash_value] => hash_value
        | _ => expected_hash
        end
      else expected_hash in
    actual_hash <- calculate_file_hash fs file_path ;;
    Ok (str_eqb actual_hash hash_value).

(* ================================================================== *)
(** * Concrete documents *)

(** A tool library whose label is the empty string. *)
Definition library_with_empty_label : dict :=
  [ (py "version", PInt 1); (py "tools", PList []);
    (py "label", PStr []); (py "name", PStr (py "Lib")) ].

(** A tool library from the test suite's shape. *)
Definition library_doc : dict :=
  [ (py "version", PInt 1); (py "label", PStr (py "Default"));
    (py "tools",
      PList [PDict [(py "nr", PInt 1); (py "path", PStr (py "drill_5.0mm.fctb"))]]) ].

(** A tool bit document with every required key, whose [parameter] is
    [null]. *)
Definition bit_with_null_parameter : dict :=
  [ (py "version", PInt 2); (py "name", PStr (py "Test Tool"));
    (py "shape", PStr (py "test.fcstd")); (py "shape-type", PStr (py "Drill"));
    (py "parameter", PNone) ].

(** The minimal valid tool bit of [test_missing_optional_fields]. *)
Definition minimal_bit : dict :=
  [ (py "version", PInt 2); (py "name", PStr (py "Test Tool"));
    (py "shape", PStr (py "test.fcstd")); (py "shape-type", PStr (py "Drill"));
    (py "parameter", PDict [(py "Diameter", PStr (py "5.00 mm"))]) ].

(** A drill as the server stores it after an export, and the same drill
    exported again under another name: both carry the FreeCAD id in
    [freecad_metadata]. *)
Definition drill_bit (name : string) : dict :=
  [ (py "version", PInt 2); (py "id", PStr (py "drill_5.0mm"));
    (py "name", PStr (py name));
    (py "shape", PStr (py "drill.fcstd")); (py "shape-type", PStr (py "Drill"));
    (py "parameter", PDict [(py "Diameter", PStr (py "5.00 mm"))]) ].

Definition exported (doc : dict) : result dict :=
  tool <- parse_fctb_dict doc ;; fctb_to_smooth tool.

Definition stored_drill : result pyval :=
  item <- exported (drill_bit "Drill 5.0mm") ;; Ok (PDict item).

(** The duplicate check of a candidate against the index of one stored
    item, as [export_tool_bits] runs it. *)
Definition check_against (stored : result pyval) (candidate : result dict)
  : result (bool * str) :=
  item <- stored ;;
  index <- index_existing [item] ;;
  tool <- candidate ;;
  check_duplicates tool (fst index) (snd index).

(** A file system with one directory, and one with one empty file. *)
Definition fs_with_directory : filesystem :=
  fun path => if str_eqb path (py "/tmp/shapes") then Some Dir else None.

Definition fs_with_empty_file : filesystem :=
  fun path => if str_eqb path (py "endmill.fcstd") then Some (File []) else None.

(** The document of [test_endmill_round_trip]. *)
Definition endmill_bit : dict :=
  [ (py "version", PInt 2); (py "id", PStr (py "endmill-6mm"));
    (py "name", PStr (py "6mm 4-Flute Endmill"));
    (py "shape", PStr (py "endmill.fcstd")); (py "shape-type", PStr (py "Endmill"));
    (py "parameter",
      PDict [ (py "Diameter", PStr (py "6.00 mm"));
              (py "Length", PStr (py "50.00 mm"));
              (py "Flutes", PInt 4);
              (py "Material", PStr (py "HSS"));
              (py "ShankDiameter", PStr (py "6.00 mm")) ]);
    (py "attribute", PDict []) ].

(** A V-bit whose diameter is written without decimals and whose angle is
    written as the test suite's "60.0000 °", with an empty shape. *)
Definition vbit_as_written : dict :=
  [ (py "version", PInt 2);
    (py "name", PStr (py "60 degree V-Bit"));
    (py "shape", PStr []); (py "shape-type", PStr (py "VBit"));
    (py "parameter",
      PDict [ (py "Diameter", PStr (py "6 mm"));
              (py "CuttingEdgeAngle", PStr (py "60.0000 " ++ degree_sign)) ]) ].

(* ================================================================== *)
(** * The words of the specification *)

(** A number rendered with exactly two decimal digits: an optional minus
    sign, one digit or more, a point, two digits. *)
Definition is_two_decimal (s : str) : bool :=
  let s := match s with c :: r => if N.eqb c 45 then r else s | [] => s end in
  match rev s with
  | d2 :: d1 :: dot :: d0 :: int_part =>
      is_digit d2 && is_digit d1 && N.eqb dot 46
      && forallb is_digit (d0 :: int_part)
  | _ => false
  end.

(** [v[k]] where [v] is a mapping that has [k], [None] otherwise. *)
Definition field (v : pyval) (k : str) : pyval :=
  match v with
  | PDict d => get_or d k PNone
  | _ => PNone
  end.




(** The local names [metadata] and [shape_data] of [smooth_to_fctb]. *)
Definition metadata_of (smooth_tool : dict) : pyval :=
  py_or (get_or smooth_tool (py "freecad_metadata") PNone) (PDict []).
Definition shape_data_of (smooth_tool : dict) : pyval :=
  py_or (get_or smooth_tool (py "shape_data") PNone) (PDict []).



(** ["_"] before every capital letter that is not the first character. *)
Fixpoint underscore_capitals (at_start : bool) (s : str) : str :=
  match s with
  | [] => []
  | c :: rest =>
      (if is_upper c && negb at_start then py "_" else [])
        ++ c :: underscore_capitals false rest
  end.





(** Exchange items of the test suite and around it: a diameter without
    unit that is a number, and one that is a text. *)
Definition item_missing_unit : dict :=
  [ (py "type", PStr (py "cutting_tool"));
    (py "description", PStr (py "Tool with missing unit"));
    (py "geometry", PDict [(py "diameter", PFloat (F64.of_str (py "5.0")))]) ].

Definition item_text_diameter : dict :=
  [ (py "type", PStr (py "cutting_tool"));
    (py "description", PStr (py "Tool with a text diameter"));
    (py "geometry", PDict [(py "diameter", PStr (py "6.00 mm"))]) ].

(** ** The round trip of a tool bit document *)

(** Tool bit document to exchange item and back, as the test
    [test_endmill_round_trip] runs it. *)
Definition round_trip (doc : dict) (default_shape : str) : result dict :=
  tool <- parse_fctb_dict doc ;;
  smooth_tool <- fctb_to_smooth tool ;;
  smooth_to_fctb smooth_tool default_shape.

(** What [format_parameter_value] puts between the number and the unit. *)
Definition unit_separator (unit : str) : str :=
  if str_eqb unit degree_sign then [] else py " ".

(** The text FreeCAD expects for [n] hundredths of [unit]: the sign, the
    number with two decimals, the separator, the unit. *)
Definition canonical_text (neg : bool) (n : Z) (unit : str) : str :=
  F64.sign_str neg ++ F64.fixed2 n ++ unit_separator unit ++ unit.

(** A unit as [parse_parameter_value] keeps it: no white space at either
    end, no newline, and one of the unit indicators in it. *)
Definition clean_unit (unit : str) : bool :=
  match unit, rev unit with
  | c :: _, d :: _ => negb (is_space c) && negb (is_space d)
  | _, _ => false
  end
  && forallb not_newline unit && looks_like_unit unit.

(** A parameter name in PascalCase: ASCII letters, the first one a capital,
    and not ending in "Unit". *)
Definition pascal_key (key : str) : bool :=
  match key with
  | c :: rest => is_upper c && forallb is_cased rest
  | [] => false
  end
  && negb (endswith key (py "Unit")).

(** The geometry key of a parameter name. *)
Definition snake (key : str) : str := lower (underscore_capitals true key).

(** A parameter value of a tool bit document that converts both ways: a
    text, a number that is not under a dimensional name, or anything else
    but a mapping. *)
Definition plain_parameter (kv : str * pyval) : bool :=
  pascal_key (fst kv)
  && negb (is_dict (snd kv))
  && negb (is_number (snd kv) && is_dimensional (snake (fst kv))).

(** [snake_to_camel] one code point at a time: an underscore is dropped
    and starts a new word. *)
Fixpoint camel_from (prev_cased : bool) (s : str) : str :=
  match s with
  | [] => []
  | c :: rest =>
      if N.eqb c 95 then camel_from false rest
      else (if prev_cased then lower_char c else upper_char c)
             :: camel_from (is_cased c) rest
  end.

(** What the loop of [fctb_to_smooth] writes for one parameter, when the
    name is in PascalCase. *)
Definition emitted (kv : str * pyval) : dict :=
  let '(key, value) := kv in
  if str_eqb key (py "Material") then []
  else
    match value with
    | PDict d =>
        match dict_get d (py "value"), dict_get d (py "unit") with
        | Some v, Some u => [(snake key, v); (snake key ++ py "_unit", u)]
        | _, _ => [(snake key, value)]
        end
    | _ => [(snake key, value)]
    end.

(** A parsed parameter that converts: a PascalCase name with a value with
    a unit, or with a value that is not a mapping and, when it is a number,
    is not under a dimensional name. *)
Definition parsed_ok (kv : str * pyval) : Prop :=
  pascal_key (fst kv) = true
  /\ ((exists x u, snd kv = unit_value x u)
      \/ (is_dict (snd kv) = false
          /\ is_number (snd kv) && is_dimensional (snake (fst kv)) = false)).

(** The parameters as [parse_fctb_dict] leaves them. *)
Definition parsed (params : dict) : dict :=
  map (fun kv => (fst kv, parse_parameter_value (snd kv))) params.
(* ================================================================== *)
(** * Names and shape types, both ways *)

(** What may follow a lower-case letter in a snake_case key: more
    lower-case letters, or one underscore and then a lower-case letter. *)
Fixpoint snake_tail (s : str) : bool :=
  match s with
  | [] => true
  | c :: rest =>
      if N.eqb c 95
      then match rest with d :: _ => is_lower d | [] => false end && snake_tail rest
      else is_lower c && snake_tail rest
  end.

(** A key in snake_case: words of ASCII lower-case letters, joined by single
    underscores. *)
Definition snake_case (key : str) : bool :=
  match key with
  | c :: rest => is_lower c && snake_tail rest
  | [] => false
  end.


(** The document of [test_preserve_original_data]: a custom parameter and
    an attribute. *)
Definition custom_bit : dict :=
  [ (py "version", PInt 2); (py "id", PStr (py "test_tool"));
    (py "name", PStr (py "Test Tool"));
    (py "shape", PStr (py "test.fcstd")); (py "shape-type", PStr (py "Drill"));
    (py "parameter",
      PDict [ (py "Diameter", PStr (py "5.00 mm"));
              (py "CustomParam", PStr (py "CustomValue")) ]);
    (py "attribute", PDict [(py "custom", PStr (py "data"))]) ].

(** A tool bit without id, with a chip load that is [null] and a material
    that is the empty text. *)
Definition bit_with_null_chipload : dict :=
  [ (py "version", PInt 2);
    (py "name", PStr (py "Test Tool"));
    (py "shape", PStr (py "test.fcstd")); (py "shape-type", PStr (py "Drill"));
    (py "parameter",
      PDict [ (py "Flutes", PInt 2);
              (py "Chipload", PNone);
              (py "Material", PStr []) ]) ].

(** A parsed parameter the loop of [fctb_to_smooth] gets through: Material,
    which is skipped, or a name that is not empty with a value that has a
    "unit" whenever it is a mapping with a "value". *)
Definition convertible_parameter (kv : str * pyval) : bool :=
  let '(key, value) := kv in
  str_eqb key (py "Material")
  || (match key with [] => false | _ :: _ => true end
      && match value with
         | PDict d => negb (dict_in (py "value") d) || dict_in (py "unit") d
         | _ => true
         end).

(** A tool bit whose diameter has a value and no unit. *)
Definition tool_without_unit : dict :=
  [ (py "version", PInt 2); (py "id", PNone); (py "name", PStr (py "Test Tool"));
    (py "shape", PStr (py "test.fcstd")); (py "shape_type", PStr (py "Drill"));
    (py "parameters",
      PDict [(py "Diameter", PDict [(py "value", PFloat (F64.of_Z 5))])]);
    (py "attribute", PDict []) ].

(** The tool [parse_fctb_dict] makes of a drill with a diameter of 5 mm and
    a tip angle. *)
Definition drill_tool : dict :=
  [ (py "version", PInt 2); (py "id", PStr (py "drill_5.0mm"));
    (py "name", PStr (py "Drill 5.0mm"));
    (py "shape", PStr (py "drill.fcstd")); (py "shape_type", PStr (py "Drill"));
    (py "parameters",
      PDict [ (py "Diameter", unit_value (F64.of_Z 5) (py "mm"));
              (py "TipAngle", unit_value (F64.of_Z 119) degree_sign);
              (py "Material", PStr (py "HSS")) ]);
    (py "attribute", PDict []) ].
From Stdlib Require Import Sorted Permutation.

(* ================================================================== *)
(** * fctl_parser.py: the tools of a library *)

(** [for x in v]: the elements of a list, the one-character strings of a
    string, the keys of a dict; nothing else in a JSON document can be
    iterated. *)
Definition py_iter (v : pyval) : result (list pyval) :=
  match v with
  | PList l => Ok l
  | PStr s => Ok (map (fun c => PStr [c]) s)
  | PDict d => Ok (map (fun kv => PStr (fst kv)) d)
  | _ => Raise TypeError
  end.

(** [[tool["nr"] for tool in library["tools"]]] *)
Definition tool_numbers (library : dict) : result (list pyval) :=
  tools <- dict_item library (py "tools") ;;
  entries <- py_iter tools ;;
  for_each entries
           (fun numbers tool => nr <- py_item tool (py "nr") ;; Ok (numbers ++ [nr]))
           [].

(** One more occurrence of [elem] in a [Counter]: the count of the key that
    is equal to it goes up, a new key goes to the end with count 1. *)
Fixpoint count_element (counter : list (pyval * Z)) (elem : pyval)
  : list (pyval * Z) :=
  match counter with
  | [] => [(elem, 1%Z)]
  | (key, count) :: rest =>
      if key_eqb key elem then (key, (count + 1)%Z) :: rest
      else (key, count) :: count_element rest elem
  end.

(** [Counter(elems)]: every element is hashed.  Each value of a document is
    an object of its own, so a NaN is equal to no other key. *)
Definition Counter (elems : list pyval) : result (list (pyval * Z)) :=
  for_each elems
           (fun counter elem =>
              if is_hashable elem then Ok (count_element counter elem)
              else Raise TypeError)
           [].

(** [check_tool_number_uniqueness] (fctl_parser.py, lines 223-235) *)
Definition check_tool_number_uniqueness (library : dict) : result (list pyval) :=
  numbers <- tool_numbers library ;;
  counter <- Counter numbers ;;
  Ok (map fst (filter (fun kc => (1 <? snd kc)%Z) counter)).

(** [v == n] for an [int] [n]: only a number can be equal to it. *)
Definition eq_int (v : pyval) (n : Z) : bool :=
  match v with
  | PBool b => ((if b then 1 else 0) =? n)%Z
  | PInt m => (m =? n)%Z
  | PFloat x => F64.eqb_Z x n
  | _ => false
  end.

(** The loop of [get_tool_by_number]: the first tool whose number is
    [tool_number]. *)
Fixpoint first_with_number (tools : list pyval) (tool_number : Z) : result pyval :=
  match tools with
  | [] => Ok PNone
  | tool :: rest =>
      nr <- py_item tool (py "nr") ;;
      if eq_int nr tool_number then Ok tool else first_with_number rest tool_number
  end.

(** [get_tool_by_number] (fctl_parser.py, lines 238-251); the tool number
    is an [int]. *)
Definition get_tool_by_number (library : dict) (tool_number : Z) : result pyval :=
  tools <- dict_item library (py "tools") ;;
  entries <- py_iter tools ;;
  first_with_number entries tool_number.

(** The entry of the library for one member of a tool set: its number, and
    its path or "tool_<number>.fctb" (fctl_parser.py, lines 281-284 and
    289-292). *)
Definition member_entry (member : pyval) : result pyval :=
  nr <- py_get member (py "tool_number") PNone ;;
  tool_path <- py_get member (py "tool_path") PNone ;;
  nr' <- py_get member (py "tool_number") PNone ;;
  Ok (PDict [ (py "nr", nr);
              (py "path",
                py_or tool_path (PStr (py "tool_" ++ py_str nr' ++ py ".fctb"))) ]).

Definition member_entries (members : pyval) : result (list pyval) :=
  entries <- py_iter members ;;
  for_each entries (fun tools member => e <- member_entry member ;; Ok (tools ++ [e])) [].

(** [sorted] on the items of a dict whose keys are [int]s: by key, since
    no two keys are equal. *)
Fixpoint insert_by_number (item : Z * pyval) (sorted : list (Z * pyval))
  : list (Z * pyval) :=
  match sorted with
  | [] => [item]
  | x :: rest =>
      if (fst item <? fst x)%Z then item :: sorted
      else x :: insert_by_number item rest
  end.

Definition sorted_items (tools_dict : list (Z * pyval)) : list (Z * pyval) :=
  fold_left (fun sorted item => insert_by_number item sorted) tools_dict [].

(** The entry for a tool number of [tools_dict] (fctl_parser.py, lines
    297-300). *)
Definition numbered_entry (item : Z * pyval) : pyval :=
  PDict [ (py "nr", PInt (fst item));
          (py "path", PStr (py "tool_" ++ int_str (fst item) ++ py ".fctb")) ].

(** [smooth_to_fctl] (fctl_parser.py, lines 254-310).  [tools_dict] maps
    tool numbers to tools, [None] when it is not given. *)
Definition smooth_to_fctl (tool_set : dict) (tools_dict : option (list (Z * pyval)))
  : result dict :=
  let metadata := py_or (get_or tool_set (py "freecad_metadata") PNone) (PDict []) in
  tools <-
    (if dict_in (py "members") tool_set then
       members <- dict_item tool_set (py "members") ;;
       member_entries members
     else if dict_in (py "tools") tool_set then
       tools <- dict_item tool_set (py "tools") ;;
       member_entries tools
     else
       match tools_dict with
       | Some (item :: items) => Ok (map numbered_entry (sorted_items (item :: items)))
       | _ => Ok []
       end) ;;
  version <- py_get metadata (py "version") (PInt 1) ;;
  Ok [ (py "version", version);
       (py "label",
         py_or (get_or tool_set (py "name") PNone) (PStr (py "Unnamed Library")));
       (py "tools", PList tools) ].

(** A library as the test suite has them: tools with the numbers 1, 2, 2
    and 3. *)
Definition library_with_duplicates : dict :=
  [ (py "version", PInt 1); (py "label", PStr (py "Default"));
    (py "tools",
      PList [ PDict [(py "nr", PInt 1); (py "path", PStr (py "drill_5.0mm.fctb"))];
              PDict [(py "nr", PInt 2); (py "path", PStr (py "end_mill_6.0mm_2f.fctb"))];
              PDict [(py "nr", PInt 2); (py "path", PStr (py "60degree_Vbit.fctb"))];
              PDict [(py "nr", PInt 3); (py "path", PStr (py "thread_mill_6.0mm.fctb"))] ]) ].

(** A tool entry with the number [n]. *)
Definition has_number (tool : pyval) (n : Z) : Prop :=
  exists entry, tool = PDict entry /\ dict_get entry (py "nr") = Some (PInt n).

(** [count_element] on a counter whose keys are [int]s, and the counter as
    values. *)
Fixpoint count_number (counter : list (Z * Z)) (n : Z) : list (Z * Z) :=
  match counter with
  | [] => [(n, 1%Z)]
  | (key, count) :: rest =>
      if (key =? n)%Z then (key, (count + 1)%Z) :: rest
      else (key, count) :: count_number rest n
  end.

Definition int_counter (counter : list (Z * Z)) : list (pyval * Z) :=
  map (fun kc => (PInt (fst kc), snd kc)) counter.

(** The count of [n] in a counter. *)
Fixpoint number_count (counter : list (Z * Z)) (n : Z) : Z :=
  match counter with
  | [] => 0
  | (key, count) :: rest => if (key =? n)%Z then count else number_count rest n
  end.

(** An entry of a tool library: a number and a path that is not empty, and
    nothing else. *)
Definition library_entry (entry : pyval) : Prop :=
  exists nr path,
    entry = PDict [(py "nr", nr); (py "path", path)] /\ truthy path = true.

(** A tool set as the server returns it, with one member that has no path. *)
Definition tool_set_with_members : dict :=
  [ (py "name", PStr (py "Default"));
    (py "members",
      PList [ PDict [ (py "tool_number", PInt 1);
                      (py "tool_path", PStr (py "drill_5.0mm.fctb")) ];
              PDict [ (py "tool_number", PInt 7) ] ]) ].

(* ================================================================== *)
(** * pathlib: paths of the POSIX flavour *)

(** A path is kept as its text, [str(path)].  [Path(base) / other] puts the
    parts of [other] after those of [base], or takes [other] alone when it
    is absolute; empty parts and "." parts are dropped, ".." is kept; the
    root is "/", or "//" when the text starts with exactly two slashes; the
    path without root and parts is ".". *)
Definition path_parts (s : str) : list str :=
  filter (fun part => match part with [] => false | _ => negb (str_eqb part (py ".")) end)
         (split_on 47%N s).

Definition path_root (s : str) : str :=
  if startswith (py "//") s && negb (startswith (py "///") s) then py "//"
  else if startswith (py "/") s then py "/"
  else [].

Definition path_text (root : str) (parts : list str) : str :=
  match root, parts with
  | [], [] => py "."
  | _, _ => root ++ join (py "/") parts
  end.

Definition path_join (base other : str) : str :=
  if startswith (py "/") other
  then path_text (path_root other) (path_parts other)
  else path_text (path_root base) (path_parts base ++ path_parts other).

(* ================================================================== *)
(** * fctl_parser.py: libraries and their tool bit files *)

(** What [open] and [json.load] make of a file: a document, the message of
    a JSONDecodeError, or the message of any other exception. *)
Inductive loaded :=
| Json (data : pyval)
| JsonError (message : str)
| ReadError (message : str).

(** The tool bit files: whether there is something at a path, and what
    reading it as JSON gives. *)
Record tool_files := {
  tool_exists : str -> bool;
  tool_load : str -> loaded
}.

(** [parse_fctb_dict] on what [json.load] returned, which need not be a
    dict: [field not in data] looks into a list or a text too, and fails on
    anything else; [data["parameter"]] fails on a list and on a text. *)
Definition parse_fctb_data (data : pyval) : result dict :=
  match data with
  | PDict d => parse_fctb_dict d
  | _ =>
      missing <- for_each fctb_required_fields
                          (fun missing field =>
                             has <- py_in field data ;;
                             Ok (if has then missing else missing ++ [field]))
                          [] ;;
      match missing with
      | _ :: _ =>
          Raise (FctbParseError (py "Missing required fields: "
                                   ++ join (py ", ") missing))
      | [] => parameter <- py_item data (py "parameter") ;; Raise TypeError
      end
  end.

(** [parse_fctb] (fctb_parser.py, lines 104-124) *)
Definition parse_fctb (files : tool_files) (file_path : str) : result dict :=
  match tool_load files file_path with
  | Json data => parse_fctb_data data
  | JsonError e =>
      Raise (FctbParseError (py "Invalid JSON in " ++ file_path ++ py ": " ++ e))
  | ReadError e =>
      Raise (FctbParseError (py "Error reading " ++ file_path ++ py ": " ++ e))
  end.

(** [resolve_tool_path] (fctl_parser.py, lines 92-102) *)
Definition resolve_tool_path (tool_path : str) (bits_dir : str) : str :=
  path_join bits_dir tool_path.

(** One turn of the loop of [load_library_with_tools] (fctl_parser.py,
    lines 121-138): the entry with what was loaded.  Only a dict and a list
    have [copy()], and a list has no ["path"]; a path that is not a text
    cannot be joined to the directory. *)
Definition load_entry (files : tool_files) (bits_dir : str) (tool_entry : pyval)
  : result pyval :=
  match tool_entry with
  | PDict entry =>
      path <- dict_item entry (py "path") ;;
      match path with
      | PStr tool_path =>
          let file := resolve_tool_path tool_path bits_dir in
          if tool_exists files file then
            match parse_fctb files file with
            | Ok tool_data =>
                Ok (PDict (dict_set (dict_set entry (py "tool_data") (PDict tool_data))
                                    (py "resolved") (PBool true)))
            | Raise (FctbParseError message) =>
                Ok (PDict (dict_set (dict_set entry (py "error") (PStr message))
                                    (py "resolved") (PBool false)))
            | Raise e => Raise e
            end
          else Ok (PDict (dict_set entry (py "resolved") (PBool false)))
      | _ => Raise TypeError
      end
  | PList _ => Raise TypeError
  | _ => Raise AttributeError
  end.

(** A loop that appends what [f] returns for each element. *)
Definition collect {A B} (f : A -> result B) (xs : list A) : result (list B) :=
  for_each xs (fun acc x => y <- f x ;; Ok (acc ++ [y])) [].

(** [load_library_with_tools] (fctl_parser.py, lines 105-141) *)
Definition load_library_with_tools (files : tool_files) (library : dict) (bits_dir : str)
  : result dict :=
  tools <- dict_item library (py "tools") ;;
  entries <- py_iter tools ;;
  loaded_tools <- collect (load_entry files bits_dir) entries ;;
  Ok (dict_set library (py "tools") (PList loaded_tools)).

(** One turn of the loop of [library_to_smooth_tool_set] (fctl_parser.py,
    lines 160-169). *)
Definition tool_set_item (tool_entry : pyval) : result pyval :=
  nr <- py_item tool_entry (py "nr") ;;
  path <- py_item tool_entry (py "path") ;;
  let tool_item := [ (py "tool_number", nr); (py "tool_path", path) ] in
  resolved <- py_get tool_entry (py "resolved") PNone ;;
  has_data <- (if truthy resolved then py_in (py "tool_data") tool_entry
               else Ok false) ;;
  if has_data then
    tool_data <- py_item tool_entry (py "tool_data") ;;
    Ok (PDict (dict_set tool_item (py "tool_data") tool_data))
  else Ok (PDict tool_item).

(** [library_to_smooth_tool_set] (fctl_parser.py, lines 144-181) *)
Definition library_to_smooth_tool_set (files : tool_files) (library : dict)
           (bits_dir : str) : result dict :=
  loaded <- load_library_with_tools files library bits_dir ;;
  loaded_tools <- dict_item loaded (py "tools") ;;
  entries <- py_iter loaded_tools ;;
  tools <- collect tool_set_item entries ;;
  name <- dict_item library (py "label") ;;
  label <- dict_item library (py "label") ;;
  version <- dict_item library (py "version") ;;
  original_label <- dict_item library (py "label") ;;
  Ok [ (py "name", name);
       (py "description", PStr (py "FreeCAD tool library: " ++ py_str label));
       (py "tools", PList tools);
       (py "freecad_metadata",
         PDict [ (py "version", version); (py "original_label", original_label) ]) ].

(** One turn of the loop of [library_to_smooth_presets] (fctl_parser.py,
    lines 205-218): the preset of a resolved tool, nothing for another. *)
Definition preset_of (machine_id : str) (tool_entry : pyval) : result (list pyval) :=
  resolved <- py_get tool_entry (py "resolved") PNone ;;
  skip <- (if negb (truthy resolved) then Ok true
           else has_data <- py_in (py "tool_data") tool_entry ;; Ok (negb has_data)) ;;
  if skip then Ok []
  else
    nr <- py_item tool_entry (py "nr") ;;
    tool_data <- py_item tool_entry (py "tool_data") ;;
    path <- py_item tool_entry (py "path") ;;
    Ok [ PDict [ (py "machine_id", PStr machine_id);
                 (py "tool_number", nr);
                 (py "tool_data", tool_data);
                 (py "source", PStr (py "freecad"));
                 (py "source_path", path) ] ].

(** [library_to_smooth_presets] (fctl_parser.py, lines 184-220) *)
Definition library_to_smooth_presets (files : tool_files) (library : dict)
           (bits_dir : str) (machine_id : str) : result (list pyval) :=
  loaded <- load_library_with_tools files library bits_dir ;;
  loaded_tools <- dict_item loaded (py "tools") ;;
  entries <- py_iter loaded_tools ;;
  for_each entries
           (fun presets tool_entry =>
              preset <- preset_of machine_id tool_entry ;; Ok (presets ++ preset))
           [].

(** Tool bit files for the examples: a drill that parses, a file that is
    not JSON, a document whose parameter is [null], and nothing else. *)
Definition example_files : tool_files :=
  {| tool_exists := fun path =>
       str_eqb path (py "Bit/drill_5.0mm.fctb")
       || str_eqb path (py "Bit/broken.fctb")
       || str_eqb path (py "Bit/null_parameter.fctb");
     tool_load := fun path =>
       if str_eqb path (py "Bit/drill_5.0mm.fctb") then Json (PDict minimal_bit)
       else if str_eqb path (py "Bit/null_parameter.fctb")
            then Json (PDict bit_with_null_parameter)
       else if str_eqb path (py "Bit/broken.fctb")
            then JsonError (py "Expecting value: line 1 column 1 (char 0)")
       else ReadError (py "[Errno 2] No such file or directory") |}.

(** A library with a drill, a file that is not JSON and a missing file. *)
Definition library_of_three : dict :=
  [ (py "version", PInt 1); (py "label", PStr (py "Default"));
    (py "tools",
      PList [ PDict [(py "nr", PInt 1); (py "path", PStr (py "drill_5.0mm.fctb"))];
              PDict [(py "nr", PInt 2); (py "path", PStr (py "broken.fctb"))];
              PDict [(py "nr", PInt 3); (py "path", PStr (py "missing.fctb"))] ]);
    (py "_original", PDict []) ].

(** A library with a tool bit whose parameter is [null]. *)
Definition library_with_null_parameter : dict :=
  [ (py "version", PInt 1); (py "label", PStr (py "Default"));
    (py "tools",
      PList [ PDict [(py "nr", PInt 1); (py "path", PStr (py "drill_5.0mm.fctb"))];
              PDict [(py "nr", PInt 2); (py "path", PStr (py "null_parameter.fctb"))] ]) ].

(** An entry after [load_library_with_tools]: the keys the loading may
    write. *)
Definition loading_key (k : str) : bool :=
  str_eqb k (py "tool_data") || str_eqb k (py "error") || str_eqb k (py "resolved").

(** Whether [parse_fctb] returned. *)
Definition returned {A} (r : result A) : bool :=
  match r with Ok _ => true | Raise _ => false end.

(** The preset [library_to_smooth_presets] makes of a tool of the tool set
    that carries its data. *)
Definition item_preset (machine_id : str) (item : pyval) : list pyval :=
  match item with
  | PDict fields =>
      match dict_get fields (py "tool_data") with
      | Some tool_data =>
          [ PDict [ (py "machine_id", PStr machine_id);
                    (py "tool_number", get_or fields (py "tool_number") PNone);
                    (py "tool_data", tool_data);
                    (py "source", PStr (py "freecad"));
                    (py "source_path", get_or fields (py "tool_path") PNone) ] ]
      | None => []
      end
  | _ => []
  end.

(* ================================================================== *)
(** * shape_storage.py: finding and describing shape files *)

(** The loop of [resolve_shape_file_path] over the search directories. *)
Fixpoint first_existing (fs : filesystem) (shape_reference : str) (search_dirs : list str)
  : option str :=
  match search_dirs with
  | [] => None
  | search_dir :: rest =>
      let candidate := path_join search_dir shape_reference in
      if exists_ fs candidate then Some candidate
      else first_existing fs shape_reference rest
  end.

(** [resolve_shape_file_path] (shape_storage.py, lines 177-204); the
    search directories are [None] when they are not given. *)
Definition resolve_shape_file_path (fs : filesystem) (shape_reference : str)
           (base_dir : str) (search_dirs : option (list str)) : option str :=
  let candidate := path_join base_dir shape_reference in
  if exists_ fs candidate then Some candidate
  else
    match search_dirs with
    | Some (dir :: dirs) => first_existing fs shape_reference (dir :: dirs)
    | _ => None
    end.

(** [path.name]: the last part of the path, empty when it has none. *)
Definition path_name (path : str) : str := last (path_parts path) [].

(** [name.rfind('.')]: the position of the last point. *)
Fixpoint rfind_dot (name : str) (i : nat) (found : option nat) : option nat :=
  match name with
  | [] => found
  | c :: rest => rfind_dot rest (S i) (if N.eqb c 46 then Some i else found)
  end.

(** [path.suffix], as pathlib has it up to Python 3.13: the name from its
    last point on, when that point is neither the first nor the last
    character of the name. *)
Definition path_suffix (path : str) : str :=
  let name := path_name path in
  match rfind_dot name 0 None with
  | Some i => if (0 <? i)%nat && (i <? length name - 1)%nat then skipn i name else []
  | None => []
  end.

(** [s.lstrip('.')] *)
Fixpoint lstrip_dots (s : str) : str :=
  match s with
  | c :: rest => if N.eqb c 46 then lstrip_dots rest else s
  | [] => []
  end.

(** [path.suffix.lstrip('.').lower()] *)
Definition file_format (path : str) : str := lower (lstrip_dots (path_suffix path)).

(** [path.stat().st_size] of a file that can be read: the number of its
    bytes. *)
Definition st_size (fs : filesystem) (path : str) : result Z :=
  content <- open_rb fs path ;; Ok (Z.of_nat (length content)).

(** [create_shape_data_reference] (shape_storage.py, lines 72-125); the
    path is [None] when there is no shape file. *)
Definition create_shape_data_reference (fs : filesystem) (shape_file_path : option str)
           (shape_type upload_url : pyval) : result pyval :=
  match shape_file_path with
  | None => Ok PNone
  | Some path =>
      if negb (exists_ fs path) then
        Ok (PDict
              [ (py "format", PStr (file_format path));
                (py "source_system", PStr (py "freecad"));
                (py "reference",
                  PDict [ (py "type", PStr (py "local_path"));
                          (py "value", PStr path) ]);
                (py "metadata",
                  PDict [ (py "shape_type", shape_type);
                          (py "original_reference", PStr path) ]) ])
      else
        file_hash <- calculate_file_hash fs path ;;
        file_size <- st_size fs path ;;
        let reference_data :=
          [ (py "type", PStr (if truthy upload_url then py "url" else py "local_path"));
            (py "value", if truthy upload_url then upload_url else PStr path);
            (py "hash", PStr (py "sha256:" ++ file_hash));
            (py "size_bytes", PInt file_size) ] in
        Ok (PDict
              [ (py "format", PStr (file_format path));
                (py "source_system", PStr (py "freecad"));
                (py "reference", PDict reference_data);
                (py "metadata",
                  PDict [ (py "shape_type", shape_type);
                          (py "original_reference", PStr path);
                          (py "filename", PStr (path_name path)) ]) ])
  end.

(** The base64 alphabet. *)
Definition b64_char (n : Z) : char :=
  Z.to_N (if n <? 26 then 65 + n
          else if n <? 52 then 97 + (n - 26)
          else if n <? 62 then 48 + (n - 52)
          else if n =? 62 then 43 else 47)%Z.

(** [base64.b64encode(content).decode('utf-8')] *)
Fixpoint b64encode (content : list Z) : str :=
  match content with
  | a :: b :: c :: rest =>
      [ b64_char (a / 4); b64_char ((a mod 4) * 16 + b / 16);
        b64_char ((b mod 16) * 4 + c / 64); b64_char (c mod 64) ] ++ b64encode rest
  | [a; b] =>
      [ b64_char (a / 4); b64_char ((a mod 4) * 16 + b / 16);
        b64_char ((b mod 16) * 4); 61%N ]
  | [a] => [ b64_char (a / 4); b64_char ((a mod 4) * 16); 61%N; 61%N ]
  | [] => []
  end.

(** [prepare_shape_upload] (shape_storage.py, lines 34-69) *)
Definition prepare_shape_upload (fs : filesystem) (shape_file_path : str) : result dict :=
  if negb (exists_ fs shape_file_path) then Raise FileNotFoundError
  else
    file_content <- open_rb fs shape_file_path ;;
    file_hash <- calculate_file_hash fs shape_file_path ;;
    file_size <- st_size fs shape_file_path ;;
    let file_format := file_format shape_file_path in
    let content_b64 := b64encode file_content in
    Ok [ (py "filename", PStr (path_name shape_file_path));
         (py "format", PStr file_format);
         (py "content", PStr content_b64);
         (py "hash", PStr (py "sha256:" ++ file_hash));
         (py "size_bytes", PInt file_size) ].

(* ================================================================== *)
(** * SmoothDialog.py: the base URL *)

(** [s.rstrip('/')] *)
Definition rstrip_slash (s : str) : str :=
  rev ((fix drop (r : str) : str :=
          match r with
          | c :: rest => if N.eqb c 47 then drop rest else r
          | [] => []
          end) (rev s)).

(** [SmoothConfig._normalize_url] (SmoothDialog.py, lines 32-40) *)
Definition normalize_url (url : str) : str :=
  match url with
  | [] => url
  | _ :: _ =>
      let url := rstrip_slash (strip url) in
      if endswith url (py "/api") then firstn (length url - 4) url else url
  end.

(** A file system with a shape file of five bytes. *)
Definition fs_with_shape : filesystem :=
  fun path =>
    if str_eqb path (py "Shape/endmill.FCStd") then Some (File [104; 101; 108; 108; 111]%Z)
    else if str_eqb path (py "Shape") then Some Dir
    else None.

(** A base URL as it is meant: not empty, no white space at either end, no
    slash at the end. *)
Definition bare_url (url : str) : bool :=
  match url, rev url with
  | c :: _, d :: _ => negb (is_space c) && negb (is_space d) && negb (N.eqb d 47)
  | _, _ => false
  end.

(** The description and the diameter the duplicate check reads in an
    item: a description that is not empty, a diameter that is not [None]. *)
Definition has_signature (item : dict) (desc diam : pyval) : Prop :=
  dict_get item (py "description") = Some desc /\ truthy desc = true
  /\ exists geometry,
       dict_get item (py "geometry") = Some (PDict geometry)
       /\ dict_get geometry (py "diameter") = Some diam /\ is_none diam = false.

(** An item of the server and a tool to export with the same description
    and diameter. *)
Definition stored_endmill : dict :=
  [ (py "id", PStr (py "a1b2")); (py "description", PStr (py "6mm Endmill"));
    (py "geometry", PDict [(py "diameter", PFloat (F64.of_Z 6))]) ].

Definition endmill_to_export : dict :=
  [ (py "type", PStr (py "cutting_tool")); (py "description", PStr (py "6mm Endmill"));
    (py "geometry",
      PDict [(py "diameter", PFloat (F64.of_Z 6)); (py "diameter_unit", PStr (py "mm"))]);
    (py "freecad_metadata", PDict [(py "id", PStr (py "endmill-6mm"))]) ].

(** An item of the server that came from FreeCAD, and the same tool as the
    server returns it to the dialog, with its id at the top. *)
Definition stored_with_metadata : dict :=
  [ (py "description", PStr (py "Drill 5.0mm"));
    (py "freecad_metadata", PDict [(py "id", PStr (py "drill_5.0mm"))]) ].

Definition tool_with_id : dict :=
  [ (py "id", PStr (py "drill_5.0mm")); (py "description", PStr (py "Renamed drill")) ].

(** Tool bit files that hold JSON that is no object. *)
Definition files_without_objects : tool_files :=
  {| tool_exists := fun _ => true;
     tool_load := fun path =>
       if str_eqb path (py "number.fctb") then Json (PInt 5)
       else if str_eqb path (py "list.fctb") then Json (PList [])
       else Json PNone |}.

(* ================================================================== *)
(** * Facts about text *)

Lemma str_eqb_refl (a : str) : str_eqb a a = true.
Proof.
  induction a as [|c a IH]; simpl; [reflexivity|].
  now rewrite N.eqb_refl.
Qed.

Lemma str_eqb_eq (a b : str) : str_eqb a b = true <-> a = b.
Proof.
  split.
  - revert b; induction a as [|c a IH]; intros [|d b]; simpl; try discriminate; auto.
    intros H. apply andb_true_iff in H as [H1 H2].
    apply N.eqb_eq in H1. apply IH in H2. congruence.
  - intros ->. apply str_eqb_refl.
Qed.

Lemma str_eqb_neq (a b : str) : str_eqb a b = false <-> a <> b.
Proof.
  split.
  - intros H E. apply str_eqb_eq in E. congruence.
  - intros H. destruct (str_eqb a b) eqn:E; [|reflexivity].
    apply str_eqb_eq in E. contradiction.
Qed.

Lemma str_eqb_sym (a b : str) : str_eqb a b = str_eqb b a.
Proof.
  destruct (str_eqb a b) eqn:E.
  - apply str_eqb_eq in E. subst. symmetry. apply str_eqb_refl.
  - symmetry. apply str_eqb_neq. apply str_eqb_neq in E. congruence.
Qed.

Lemma startswith_app (p s : str) : startswith p (p ++ s) = true.
Proof.
  induction p as [|c p IH]; simpl; [reflexivity|].
  now rewrite N.eqb_refl.
Qed.

Lemma startswith_spec (p s : str) :
  startswith p s = true <-> exists r, s = p ++ r.
Proof.
  split.
  - revert s; induction p as [|c p IH]; intros s H; simpl in *.
    + now exists s.
    + destruct s as [|d s]; [discriminate|].
      apply andb_true_iff in H as [H1 H2]. apply N.eqb_eq in H1. subst d.
      destruct (IH _ H2) as [r ->]. now exists r.
  - intros [r ->]. apply startswith_app.
Qed.

Lemma contains_spec (p s : str) :
  contains p s = true <-> exists a b, s = a ++ p ++ b.
Proof.
  split.
  - induction s as [|c s IH]; simpl; intros H.
    + rewrite orb_false_r in H. apply startswith_spec in H as [r Hr].
      exists [], r. exact Hr.
    + apply orb_true_iff in H as [H|H].
      * apply startswith_spec in H as [r Hr]. exists [], r. exact Hr.
      * destruct (IH H) as (a & b & ->). now exists (c :: a), b.
  - intros (a & b & ->). induction a as [|c a IH]; simpl.
    + assert (startswith p (p ++ b) = true) as H by apply startswith_app.
      destruct (p ++ b); simpl; now rewrite H.
    + rewrite IH. apply orb_true_r.
Qed.


Lemma contains_app_l (p a b : str) : contains p a = true -> contains p (a ++ b) = true.
Proof.
  intros H. apply contains_spec in H as (x & y & ->).
  apply contains_spec. exists x, (y ++ b). now rewrite <- !app_assoc.
Qed.

Lemma endswith_app (s p : str) : endswith (s ++ p) p = true.
Proof.
  unfold endswith. rewrite rev_app_distr. apply startswith_app.
Qed.

Lemma endswith_spec (s p : str) :
  endswith s p = true <-> exists r, s = r ++ p.
Proof.
  unfold endswith. rewrite startswith_spec. split.
  - intros [r H]. exists (rev r).
    apply (f_equal (@rev _)) in H. rewrite rev_involutive, rev_app_distr, rev_involutive in H.
    exact H.
  - intros [r ->]. exists (rev r). apply rev_app_distr.
Qed.

(* ================================================================== *)
(** * Facts about dictionaries and loops *)

Lemma dict_get_set_same (d : dict) (k : str) (v : pyval) :
  dict_get (dict_set d k v) k = Some v.
Proof.
  induction d as [|[k' v'] d IH]; simpl.
  - now rewrite str_eqb_refl.
  - destruct (str_eqb k' k) eqn:E; simpl; rewrite E; auto.
Qed.

Lemma dict_get_set_other (d : dict) (k k' : str) (v : pyval) :
  k <> k' -> dict_get (dict_set d k v) k' = dict_get d k'.
Proof.
  intros N. induction d as [|[k0 v0] d IH]; simpl.
  - apply str_eqb_neq in N. now rewrite N.
  - destruct (str_eqb k0 k) eqn:E; simpl.
    + apply str_eqb_eq in E. subst k0.
      apply str_eqb_neq in N. now rewrite N.
    + destruct (str_eqb k0 k'); auto.
Qed.



Lemma dict_get_In (d : dict) (k : str) (v : pyval) :
  dict_get d k = Some v -> In (k, v) d.
Proof.
  induction d as [|[k' v'] d IH]; simpl; [discriminate|].
  destruct (str_eqb k' k) eqn:E.
  - apply str_eqb_eq in E. intros [= ->]. left. now subst.
  - auto.
Qed.

Lemma dict_get_None (d : dict) (k : str) :
  dict_get d k = None <-> ~ In k (dict_keys d).
Proof.
  induction d as [|[k' v'] d IH]; simpl.
  - tauto.
  - destruct (str_eqb k' k) eqn:E.
    + apply str_eqb_eq in E. split; [discriminate|]. intros H. exfalso. auto.
    + apply str_eqb_neq in E. rewrite IH. tauto.
Qed.

Lemma dict_in_keys (d : dict) (k : str) :
  dict_in k d = true <-> In k (dict_keys d).
Proof.
  unfold dict_in. destruct (dict_get d k) eqn:E.
  - split; [intros _|reflexivity].
    apply dict_get_In in E. apply (in_map fst) in E. exact E.
  - split; [discriminate|]. intros H. apply dict_get_None in E. contradiction.
Qed.

Lemma In_dict_get (d : dict) (k : str) (v : pyval) :
  NoDup (dict_keys d) -> In (k, v) d -> dict_get d k = Some v.
Proof.
  induction d as [|[k' v'] d IH]; simpl; [tauto|].
  intros ND [H|H].
  - injection H as -> ->. now rewrite str_eqb_refl.
  - inversion ND as [|? ? Hn ND']; subst.
    destruct (str_eqb k' k) eqn:E.
    + apply str_eqb_eq in E. subst k'.
      exfalso. apply Hn. apply (in_map fst) in H. exact H.
    + auto.
Qed.

(** A key that is not there yet goes last. *)
Lemma dict_set_fresh (d : dict) (k : str) (v : pyval) :
  dict_in k d = false -> dict_set d k v = d ++ [(k, v)].
Proof.
  unfold dict_in. induction d as [|[k' v'] d IH]; simpl; [reflexivity|].
  destruct (str_eqb k' k); [discriminate|].
  intros H. now rewrite IH.
Qed.

Lemma dict_keys_set (d : dict) (k : str) (v : pyval) :
  dict_keys (dict_set d k v) = if dict_in k d then dict_keys d else dict_keys d ++ [k].
Proof.
  unfold dict_in. induction d as [|[k' v'] d IH]; simpl; [reflexivity|].
  destruct (str_eqb k' k) eqn:E; simpl.
  - apply str_eqb_eq in E. now subst.
  - rewrite IH. now destruct (dict_get d k).
Qed.

Lemma missing_fields_spec (required : list str) (data : dict) (f : str) :
  In f (missing_fields required data) <-> In f required /\ dict_in f data = false.
Proof.
  unfold missing_fields. rewrite filter_In.
  now rewrite negb_true_iff.
Qed.

Lemma missing_fields_nil (required : list str) (data : dict) :
  missing_fields required data = [] <-> forall f, In f required -> dict_in f data = true.
Proof.
  split.
  - intros H f Hf. destruct (dict_in f data) eqn:E; [reflexivity|].
    assert (In f (missing_fields required data)) as Hin by now apply missing_fields_spec.
    rewrite H in Hin. destruct Hin.
  - intros H. destruct (missing_fields required data) as [|f l] eqn:E; [reflexivity|].
    assert (In f (missing_fields required data)) as Hin by (rewrite E; now left).
    apply missing_fields_spec in Hin as [Hr Hd]. rewrite (H _ Hr) in Hd. discriminate.
Qed.


(** With distinct keys, the loop of [parse_fctb_dict] maps every entry. *)
Lemma parse_parameters_from (items acc : dict) :
  NoDup (dict_keys acc ++ dict_keys items) ->
  fold_left (fun parsed kv => dict_set parsed (fst kv) (parse_parameter_value (snd kv)))
            items acc
  = acc ++ map (fun kv => (fst kv, parse_parameter_value (snd kv))) items.
Proof.
  revert acc; induction items as [|[k v] items IH]; intros acc ND; simpl.
  - now rewrite app_nil_r.
  - rewrite dict_set_fresh.
    + rewrite IH.
      * now rewrite <- app_assoc.
      * unfold dict_keys in *. rewrite map_app, <- app_assoc. exact ND.
    + destruct (dict_in k acc) eqn:E; [|reflexivity].
      apply dict_in_keys in E. simpl in ND.
      apply NoDup_remove_2 in ND. exfalso. apply ND. apply in_or_app. now left.
Qed.

Lemma parse_parameters_map (items : dict) :
  NoDup (dict_keys items) ->
  parse_parameters items
  = map (fun kv => (fst kv, parse_parameter_value (snd kv))) items.
Proof.
  intros ND. unfold parse_parameters. now rewrite parse_parameters_from.
Qed.

(* ================================================================== *)
(** * C9: [parse_fctl_dict] *)

(** C9, the claim as stated fails: a library whose [label] field is present
    but empty gets its label from the [name] field. *)
Lemma parse_fctl_dict_empty_label :
  dict_get library_with_empty_label (py "label") = Some (PStr [])
  /\ (lib <- parse_fctl_dict library_with_empty_label ;; dict_item lib (py "label"))
     = Ok (PStr (py "Lib")).
Proof. split; reflexivity. Qed.

(** C9 (amended): [parse_fctl_dict] fails exactly when [version] or [tools]
    is absent or [tools] is not a list; on success the label is the [label]
    field when it is present and truthy (non-empty), else the [name] field,
    else [None], and the document is kept under [_original]. *)
Theorem parse_fctl_dict_spec (data : dict) :
  ((exists e, parse_fctl_dict data = Raise e) <->
   (dict_in (py "version") data = false \/ dict_in (py "tools") data = false \/
    exists t, dict_get data (py "tools") = Some t /\ is_list t = false))
  /\
  (forall version tools,
     dict_get data (py "version") = Some version ->
     dict_get data (py "tools") = Some (PList tools) ->
     parse_fctl_dict data
     = Ok [ (py "version", version);
            (py "label",
              match dict_get data (py "label") with
              | Some l => if truthy l then l else get_or data (py "name") PNone
              | None => get_or data (py "name") PNone
              end);
            (py "tools", PList tools);
            (py "_original", PDict data) ]).
Proof.
  unfold parse_fctl_dict, missing_fields, fctl_required_fields, dict_item, get_or, py_or.
  cbn [filter]. unfold dict_in.
  destruct (dict_get data (py "version")) as [version|] eqn:Ev;
    destruct (dict_get data (py "tools")) as [tools|] eqn:Et; cbn.
  - destruct tools; cbn;
      try (split; [split; [intros _; right; right; eexists; split; [reflexivity|reflexivity]
                          | intros _; eexists; reflexivity]
                  | intros ? ? _ [=]]).
    split.
    + split; [intros [e He]; discriminate|].
      intros [H|[H|(t & Ht & Hl)]]; try discriminate.
      injection Ht as <-. discriminate.
    + intros ? ? [= <-] [= <-].
      destruct (dict_get data (py "label")); reflexivity.
  - split; [|intros ? ? _ [=]].
    split; [intros _; right; now left | intros _; eexists; reflexivity].
  - split; [|intros ? ? [=]].
    split; [intros _; now left | intros _; eexists; reflexivity].
  - split; [|intros ? ? [=]].
    split; [intros _; now left | intros _; eexists; reflexivity].
Qed.

(** C9, an instance: a library with a label and one tool is parsed. *)
Lemma parse_fctl_dict_spec_witness :
  parse_fctl_dict library_doc
  = Ok [ (py "version", PInt 1);
         (py "label", PStr (py "Default"));
         (py "tools",
           PList [PDict [(py "nr", PInt 1); (py "path", PStr (py "drill_5.0mm.fctb"))]]);
         (py "_original", PDict library_doc) ].
Proof.
  exact (proj2 (parse_fctl_dict_spec library_doc) _ _ eq_refl eq_refl).
Defined.

(* ================================================================== *)
(** * C6: [parse_fctb_dict] *)





(* ================================================================== *)
(** * C8: [check_duplicates] *)

(** C8: the check reads the candidate's top-level [id], which an exported
    tool does not have: [fctb_to_smooth] stores the FreeCAD id under
    [freecad_metadata], and that is where the index takes it from.  So a
    candidate whose [freecad_metadata] id is indexed is not reported as a
    duplicate when its description differs, and is reported under
    "description+diameter" when the whole tool is the same. *)
Theorem check_duplicates_misses_metadata_id :
  (* the index built from the stored drill has its FreeCAD id *)
  (item <- stored_drill ;; index <- index_existing [item] ;;
   pydict_in (PStr (py "drill_5.0mm")) (fst index)) = Ok true
  (* the candidate carries the same id under freecad_metadata ... *)
  /\ (tool <- exported (drill_bit "Renamed drill") ;;
      metadata <- dict_item tool (py "freecad_metadata") ;;
      py_item metadata (py "id")) = Ok (PStr (py "drill_5.0mm"))
  (* ... and none at the top level *)
  /\ (tool <- exported (drill_bit "Renamed drill") ;; Ok (dict_in (py "id") tool))
     = Ok false
  (* same id, other description: not a duplicate *)
  /\ check_against stored_drill (exported (drill_bit "Renamed drill")) = Ok (false, [])
  (* same id, same description and diameter: reported under the signature *)
  /\ check_against stored_drill (exported (drill_bit "Drill 5.0mm"))
     = Ok (true, py "description+diameter").
Proof. repeat split; vm_compute; reflexivity. Qed.

(* ================================================================== *)
(** * C10: [verify_shape_file_integrity] *)

Lemma firstn_nil_inv {A} (n : nat) (l : list A) :
  firstn n l = [] -> n = 0%nat \/ l = [].
Proof. destruct n, l; simpl; auto; discriminate. Qed.

(** Reading block after block feeds the hash every byte of the file, in
    order. *)
Lemma update_blocks_all (fuel : nat) (f h : list Z) :
  (length f < fuel)%nat -> update_blocks fuel f h = h ++ f.
Proof.
  revert f h; induction fuel as [|fuel IH]; intros f h L; [lia|].
  cbn [update_blocks read].
  destruct (firstn block_size f) as [|b bs] eqn:E.
  - apply firstn_nil_inv in E as [E|E]; [discriminate E|].
    subst f. now rewrite app_nil_r.
  - rewrite <- E. rewrite IH.
    + now rewrite <- app_assoc, firstn_skipn.
    + destruct f as [|c f]; [destruct block_size; discriminate E|].
      rewrite length_skipn. unfold block_size. simpl length in *. lia.
Qed.

Lemma calculate_file_hash_file (fs : filesystem) (path : str) (content : list Z) :
  fs path = Some (File content) ->
  calculate_file_hash fs path = Ok (SHA256.hexdigest content).
Proof.
  intros H. unfold calculate_file_hash, open_rb. rewrite H. cbn [bind].
  rewrite update_blocks_all by lia. reflexivity.
Qed.

Lemma split_once_colon (algo d : str) :
  existsb (N.eqb 58) algo = false ->
  split_once 58%N (algo ++ py ":" ++ d) = [algo; d].
Proof.
  induction algo as [|c algo IH]; intros H.
  - reflexivity.
  - cbn [existsb] in H. apply orb_false_iff in H as [H1 H2].
    cbn [app split_once]. rewrite (N.eqb_sym c 58), H1. now rewrite IH.
Qed.

(** C10, the claim as stated fails: for a path that names a directory the
    function raises. *)
Lemma verify_shape_file_integrity_directory :
  verify_shape_file_integrity fs_with_directory (py "/tmp/shapes") (py "sha256:00")
  = Raise IsADirectoryError.
Proof. reflexivity. Qed.

(** C10 (amended): for a path that names nothing the result is [False]; for
    a regular file it is the comparison of the file's SHA-256 digest with
    the expected hash, taken whole when it has no [":"] and from after the
    first [":"] otherwise, whatever the prefix is; for a directory the
    function raises. *)
Theorem verify_shape_file_integrity_spec (fs : filesystem) (path expected : str) :
  match fs path with
  | None => verify_shape_file_integrity fs path expected = Ok false
  | Some Dir => verify_shape_file_integrity fs path expected = Raise IsADirectoryError
  | Some (File content) =>
      (contains (py ":") expected = false ->
       verify_shape_file_integrity fs path expected
       = Ok (str_eqb (SHA256.hexdigest content) expected))
      /\ (forall algo digest,
            expected = algo ++ py ":" ++ digest ->
            existsb (N.eqb 58) algo = false ->
            verify_shape_file_integrity fs path expected
            = Ok (str_eqb (SHA256.hexdigest content) digest))
  end.
Proof.
  unfold verify_shape_file_integrity, exists_.
  destruct (fs path) as [[content|]|] eqn:E; cbn [negb].
  - rewrite (calculate_file_hash_file _ _ E). cbn [bind]. split.
    + intros ->. reflexivity.
    + intros algo digest -> Ha.
      rewrite split_once_colon by assumption.
      replace (contains (py ":") (algo ++ py ":" ++ digest)) with true; [reflexivity|].
      symmetry. apply contains_spec. now exists algo, digest.
  - unfold calculate_file_hash, open_rb. rewrite E. cbn [bind].
    destruct (contains (py ":") expected); reflexivity.
  - reflexivity.
Qed.

(** C10, an instance: the empty file has the digest of the empty message,
    under any prefix. *)
Lemma verify_shape_file_integrity_spec_witness :
  verify_shape_file_integrity fs_with_empty_file (py "endmill.fcstd")
    (py "md5:e3b0c44298fc1c149afbf4c8996fb92427ae41e4649b934ca495991b7852b855")
  = Ok true.
Proof.
  exact (proj2 (verify_shape_file_integrity_spec fs_with_empty_file (py "endmill.fcstd")
                  (py "md5:e3b0c44298fc1c149afbf4c8996fb92427ae41e4649b934ca495991b7852b855"))
               (py "md5")
               (py "e3b0c44298fc1c149afbf4c8996fb92427ae41e4649b934ca495991b7852b855")
               eq_refl eq_refl).
Defined.

(* ================================================================== *)
(** * The error monad *)

Lemma bind_ok {A B} (r : result A) (f : A -> result B) (b : B) :
  bind r f = Ok b -> exists a, r = Ok a /\ f a = Ok b.
Proof. destruct r; simpl; intros H; [eauto|discriminate]. Qed.

Lemma bind_raise {A B} (r : result A) (f : A -> result B) (e : exn) :
  bind r f = Raise e -> r = Raise e \/ exists a, r = Ok a /\ f a = Raise e.
Proof. destruct r; simpl; intros H; [right; eauto|left; congruence]. Qed.

(** Two literals of the source are different keys. *)
Ltac py_neq := let H := fresh in intros H; vm_compute in H; discriminate H.

(* ================================================================== *)
(** * C7: the shape file of [smooth_to_fctb] *)






(* ================================================================== *)
(** * Facts about decimal digits *)

Lemma is_digit_digit_char (d : Z) :
  (0 <= d < 10)%Z -> is_digit (digit_char d) = true.
Proof.
  intros H. unfold is_digit, digit_char.
  apply andb_true_iff. split; apply N.leb_le; lia.
Qed.

Lemma digits_fuel_all_digits (fuel : nat) (n : Z) (acc : str) :
  forallb is_digit acc = true -> forallb is_digit (digits_fuel fuel n acc) = true.
Proof.
  revert n acc; induction fuel as [|fuel IH]; intros n acc H; [exact H|].
  cbn [digits_fuel].
  assert (forallb is_digit (digit_char (n mod 10) :: acc) = true) as H'.
  { cbn [forallb]. rewrite H, is_digit_digit_char; [reflexivity|].
    apply Z.mod_pos_bound. lia. }
  destruct (n <? 10)%Z; auto.
Qed.

Lemma digits_all_digits (n : Z) : forallb is_digit (digits n) = true.
Proof. apply digits_fuel_all_digits. reflexivity. Qed.

Lemma digits_fuel_suffix (fuel : nat) (n : Z) (acc : str) :
  exists pre, digits_fuel fuel n acc = pre ++ acc /\ (fuel <> O -> pre <> []).
Proof.
  revert n acc; induction fuel as [|fuel IH]; intros n acc.
  - exists []. split; [reflexivity|]. intros H; contradiction.
  - cbn [digits_fuel]. destruct (n <? 10)%Z.
    + exists [digit_char (n mod 10)]. split; [reflexivity|]. discriminate.
    + destruct (IH (n / 10)%Z (digit_char (n mod 10) :: acc)) as (pre & E & _).
      exists (pre ++ [digit_char (n mod 10)]). split.
      * rewrite E, <- app_assoc. reflexivity.
      * intros _ Hn. apply app_eq_nil in Hn as [_ Hn]. discriminate.
Qed.

Lemma digits_nonempty (n : Z) : exists c r, digits n = c :: r.
Proof.
  unfold digits.
  destruct (digits_fuel_suffix (S (Z.to_nat (Z.log2 n))) n []) as (pre & E & N).
  rewrite E, app_nil_r. destruct pre as [|c r]; [exfalso; now apply N|].
  now exists c, r.
Qed.

(** A check over the first [n] natural numbers covers the interval. *)
Lemma Z_range_check (P : Z -> bool) (n : nat) :
  forallb P (map Z.of_nat (seq 0 n)) = true ->
  forall k, (0 <= k < Z.of_nat n)%Z -> P k = true.
Proof.
  intros H k Hk. rewrite forallb_forall in H. apply H.
  apply in_map_iff. exists (Z.to_nat k). split; [lia|].
  apply in_seq. lia.
Qed.

Lemma two_digits (k : Z) :
  (0 <= k < 100)%Z ->
  zero_pad 2 (digits k) = [digit_char (k / 10); digit_char (k mod 10)].
Proof.
  intros H.
  apply str_eqb_eq.
  apply (Z_range_check
           (fun k => str_eqb (zero_pad 2 (digits k))
                             [digit_char (k / 10); digit_char (k mod 10)]) 100);
    [vm_compute; reflexivity | exact H].
Qed.

Lemma round_half_even_nonneg (a b : Z) :
  (0 <= a)%Z -> (0 < b)%Z -> (0 <= F64.round_half_even a b)%Z.
Proof.
  intros Ha Hb. unfold F64.round_half_even.
  assert (0 <= a / b)%Z by (apply Z.div_pos; lia).
  destruct (2 * (a mod b) <? b)%Z; [lia|].
  destruct (b <? 2 * (a mod b))%Z; [lia|].
  destruct (Z.even (a / b)); lia.
Qed.

Lemma scaled_round_nonneg (m e k : Z) :
  (0 <= m)%Z -> (0 <= k)%Z -> (0 <= F64.scaled_round m e k)%Z.
Proof.
  intros Hm Hk. unfold F64.scaled_round. destruct (0 <=? e)%Z eqn:E.
  - apply Z.leb_le in E.
    apply Z.mul_nonneg_nonneg; [apply Z.mul_nonneg_nonneg|]; try lia;
      apply Z.pow_nonneg; lia.
  - apply round_half_even_nonneg.
    + apply Z.mul_nonneg_nonneg; [lia|apply Z.pow_nonneg; lia].
    + apply Z.pow_pos_nonneg; [lia|]. apply Z.leb_gt in E. lia.
Qed.

Lemma forallb_rev {A} (p : A -> bool) (l : list A) :
  forallb p (rev l) = forallb p l.
Proof.
  induction l as [|x l IH]; [reflexivity|].
  cbn [rev forallb]. rewrite forallb_app, IH. cbn [forallb].
  rewrite andb_true_r. apply andb_comm.
Qed.

(** The shape of a two-decimal rendering. *)
Lemma is_two_decimal_shape (neg : bool) (int_part : str) (d1 d2 : char) :
  int_part <> [] -> forallb is_digit int_part = true ->
  is_digit d1 = true -> is_digit d2 = true ->
  is_two_decimal (F64.sign_str neg ++ int_part ++ [46%N] ++ [d1; d2]) = true.
Proof.
  intros Hne Hd H1 H2.
  assert (is_two_decimal (int_part ++ [46%N] ++ [d1; d2])
          = match rev (int_part ++ [46%N] ++ [d1; d2]) with
            | d2 :: d1 :: dot :: d0 :: ip =>
                is_digit d2 && is_digit d1 && N.eqb dot 46
                && forallb is_digit (d0 :: ip)
            | _ => false
            end) as E.
  { unfold is_two_decimal. destruct int_part as [|c r]; [contradiction|].
    cbn [app]. cbn [forallb] in Hd. apply andb_true_iff in Hd as [Hc _].
    destruct (N.eqb_spec c 45) as [->|_]; [discriminate Hc|reflexivity]. }
  assert (match rev (int_part ++ [46%N] ++ [d1; d2]) with
          | d2 :: d1 :: dot :: d0 :: ip =>
              is_digit d2 && is_digit d1 && N.eqb dot 46
              && forallb is_digit (d0 :: ip)
          | _ => false
          end = true) as R.
  { rewrite !rev_app_distr. cbn [rev app].
    destruct (rev int_part) as [|c r] eqn:Er.
    - apply (f_equal (@rev _)) in Er. rewrite rev_involutive in Er. contradiction.
    - rewrite <- Er, forallb_rev, H1, H2, Hd. reflexivity. }
  destruct neg.
  - exact R.
  - change (is_two_decimal (int_part ++ [46%N] ++ [d1; d2]) = true).
    rewrite E. exact R.
Qed.

Lemma fixed2_two_decimal (neg : bool) (n : Z) :
  (0 <= n)%Z -> is_two_decimal (F64.sign_str neg ++ F64.fixed2 n) = true.
Proof.
  intros Hn. unfold F64.fixed2.
  rewrite two_digits by (apply Z.mod_pos_bound; lia).
  apply is_two_decimal_shape.
  - destruct (digits_nonempty (n / 100)) as (c & r & ->). discriminate.
  - apply digits_all_digits.
  - apply is_digit_digit_char.
    split; [apply Z.div_pos; [apply Z.mod_pos_bound|]; lia|].
    apply Z.div_lt_upper_bound; [lia|]. pose proof (Z.mod_pos_bound n 100). lia.
  - apply is_digit_digit_char. apply Z.mod_pos_bound. lia.
Qed.

Lemma format_2f_two_decimal (x : F64.t) :
  F64.is_finite x = true -> is_two_decimal (F64.format_2f x) = true.
Proof.
  destruct x as [s|s| |s m e]; try discriminate; intros _.
  - destruct s; reflexivity.
  - cbn [F64.format_2f]. apply fixed2_two_decimal.
    apply scaled_round_nonneg; lia.
Qed.

(* ================================================================== *)
(** * C5: [format_parameter_value] *)

(** C5, the claim as stated fails: a float that is not finite is a numeric
    value and is not rendered with two decimals, and an [int] beyond the
    range of a float makes the formatting raise.  The parser of this
    repository produces such a float from a long enough run of digits. *)
Lemma format_parameter_value_not_finite :
  is_number (PFloat (F64.Inf false)) = true
  /\ format_parameter_value (PFloat (F64.Inf false)) (PStr (py "mm")) = Ok (py "inf mm")
  /\ is_two_decimal (py "inf") = false
  /\ parse_parameter_value (PStr (repeat 57%N 400 ++ py " mm"))
     = unit_value (F64.Inf false) (py "mm")
  /\ format_parameter_value (PInt (10 ^ 400)) (PStr (py "mm")) = Raise OverflowError.
Proof. repeat split; vm_compute; reflexivity. Qed.

(** C5 (amended): without a unit the result is [str(value)]; a finite
    number (a [bool], an [int] in the range of a float, a finite [float])
    with a unit is rendered with exactly two decimals, followed by the
    degree sign without a space when that is the unit and by one space and
    the unit otherwise, so zero gives "0.00 mm"; a value that is not a
    number is rendered as [str(value)], the unit dropped. *)
Theorem format_parameter_value_spec :
  (forall value, format_parameter_value value PNone = Ok (py_str value))
  /\ (forall value unit x,
        is_number value = true -> is_none unit = false ->
        as_float value = Ok x -> F64.is_finite x = true ->
        is_two_decimal (F64.format_2f x) = true
        /\ format_parameter_value value unit
           = Ok (F64.format_2f x
                 ++ if eq_str unit degree_sign then degree_sign
                    else py " " ++ py_str unit))
  /\ (forall value unit,
        is_number value = false -> format_parameter_value value unit = Ok (py_str value))
  /\ format_parameter_value (PFloat (F64.Zero false)) (PStr (py "mm")) = Ok (py "0.00 mm").
Proof.
  split; [reflexivity|]. split; [|split; [|reflexivity]].
  - intros value unit x Hn Hu Hx Hf. split; [now apply format_2f_two_decimal|].
    unfold format_parameter_value. rewrite Hn, Hx. cbn [bind].
    destruct unit; try discriminate Hu; try reflexivity.
    cbn [eq_str]. destruct (str_eqb s degree_sign); reflexivity.
  - intros value unit Hn. unfold format_parameter_value. rewrite Hn.
    destruct unit; reflexivity.
Qed.

(** C5, an instance: [format_parameter_value(5.0, "mm")] is ["5.00 mm"]. *)
Lemma format_parameter_value_spec_witness :
  is_two_decimal (py "5.00") = true
  /\ format_parameter_value (PFloat (F64.of_str (py "5.0"))) (PStr (py "mm"))
     = Ok (py "5.00 mm").
Proof.
  exact (proj1 (proj2 format_parameter_value_spec)
               (PFloat (F64.of_str (py "5.0"))) (PStr (py "mm")) (F64.of_str (py "5.0"))
               eq_refl eq_refl eq_refl eq_refl).
Defined.

(* ================================================================== *)
(** * Facts about the matcher *)

Lemma run_chr {R} (p : char -> bool) (i : nat) (c : char) (s : str) (g : Re.groups)
      (k : nat -> str -> Re.groups -> option R) :
  Re.run (Re.Chr p) i (c :: s) g k = if p c then k (S i) s g else None.
Proof. reflexivity. Qed.

(** One turn of a greedy star over a class: take a code point and go on,
    and fall back on stopping here. *)
Lemma run_star_chr {R} (p : char -> bool) (i : nat) (s : str) (g : Re.groups)
      (k : nat -> str -> Re.groups -> option R) :
  Re.run (Re.Star (Re.Chr p)) i s g k
  = match s with
    | c :: s' =>
        if p c then
          match Re.run (Re.Star (Re.Chr p)) (S i) s' g k with
          | Some x => Some x
          | None => k i s g
          end
        else k i s g
    | [] => k i s g
    end.
Proof.
  destruct s as [|c s']; [reflexivity|].
  cbn [Re.run length]. destruct (p c); [|reflexivity].
  replace (Nat.eqb (S i) i) with false; [reflexivity|].
  symmetry. apply Nat.eqb_neq. lia.
Qed.

(** A greedy star takes the whole run when what follows then succeeds. *)
Lemma run_star_greedy {R} (p : char -> bool) (xs rest : str) (i : nat) (g : Re.groups)
      (k : nat -> str -> Re.groups -> option R) (x : R) :
  forallb p xs = true ->
  k (i + length xs)%nat rest g = Some x ->
  match rest with c :: _ => p c = false | [] => True end ->
  Re.run (Re.Star (Re.Chr p)) i (xs ++ rest) g k = Some x.
Proof.
  revert i; induction xs as [|c xs IH]; intros i Hp Hk Hstop.
  - cbn [app length] in *. rewrite Nat.add_0_r in Hk.
    rewrite run_star_chr. destruct rest as [|c r]; [exact Hk|].
    now rewrite Hstop.
  - cbn [forallb] in Hp. apply andb_true_iff in Hp as [Hc Hp].
    cbn [app]. rewrite run_star_chr, Hc.
    rewrite (IH (S i)); [reflexivity|exact Hp| |exact Hstop].
    cbn [length] in Hk. now rewrite Nat.add_succ_r in Hk.
Qed.



Lemma run_plus_greedy {R} (p : char -> bool) (c : char) (xs rest : str) (i : nat)
      (g : Re.groups) (k : nat -> str -> Re.groups -> option R) (x : R) :
  p c = true -> forallb p xs = true ->
  k (i + length (c :: xs))%nat rest g = Some x ->
  match rest with c :: _ => p c = false | [] => True end ->
  Re.run (Re.Plus (Re.Chr p)) i ((c :: xs) ++ rest) g k = Some x.
Proof.
  intros Hc Hp Hk Hstop. unfold Re.Plus. cbn [Re.run app]. rewrite Hc.
  apply run_star_greedy; auto.
  cbn [length] in Hk. now rewrite Nat.add_succ_r in Hk.
Qed.


(** ** The pattern of the capitals *)

Lemma try_at_capital (i : nat) (s : str) (must_advance : bool) :
  Re.try_at capital_re i s must_advance
  = match s with
    | c :: _ =>
        if negb (Nat.eqb i 0) && is_upper c && negb must_advance
        then Some (i, s) else None
    | [] => None
    end.
Proof.
  unfold Re.try_at, capital_re. cbn [Re.run].
  destruct (Nat.eqb i 0) eqn:E0.
  - rewrite Nat.eqb_refl. now destruct s.
  - cbn [negb andb]. destruct s as [|c s']; [reflexivity|].
    destruct (is_upper c); [|reflexivity].
    rewrite Nat.eqb_refl. now destruct must_advance.
Qed.

Lemma sub_loop_step (fuel : nat) (r : Re.regex) (repl : str) (i : nat) (s : str)
      (must_advance : bool) :
  Re.sub_loop (S fuel) r repl i s must_advance
  = match Re.try_at r i s must_advance with
    | Some (j, s') => repl ++ Re.sub_loop fuel r repl j s' (Nat.eqb j i)
    | None =>
        match s with
        | [] => []
        | c :: s' => c :: Re.sub_loop fuel r repl (S i) s' false
        end
    end.
Proof. reflexivity. Qed.

Lemma sub_loop_capital (s : str) :
  forall fuel i,
    (2 * length s + 1 <= fuel)%nat ->
    Re.sub_loop fuel capital_re (py "_") i s false
    = underscore_capitals (Nat.eqb i 0) s.
Proof.
  induction s as [|c s IH]; intros fuel i Hf.
  - destruct fuel; [cbn in Hf; lia|]. rewrite sub_loop_step, try_at_capital. reflexivity.
  - cbn [length] in Hf.
    destruct fuel as [|f1]; [lia|].
    rewrite sub_loop_step, try_at_capital. cbn [underscore_capitals].
    rewrite andb_true_r, (andb_comm (is_upper c)).
    destruct (negb (Nat.eqb i 0) && is_upper c) eqn:E.
    + destruct f1 as [|f2]; [lia|].
      rewrite Nat.eqb_refl, sub_loop_step, try_at_capital.
      cbn [negb]. rewrite andb_false_r.
      rewrite (IH f2 (S i)) by lia. reflexivity.
    + rewrite (IH f1 (S i)) by lia. reflexivity.
Qed.

(** [re.sub] with the pattern of [snake_key] puts ["_"] before every
    capital letter but one at the start. *)
Lemma sub_capital (s : str) :
  Re.sub capital_re (py "_") s = underscore_capitals true s.
Proof. unfold Re.sub. now rewrite sub_loop_capital by lia. Qed.
(* ================================================================== *)
(** * C3: the geometry keys of [fctb_to_smooth] *)

Lemma lower_char_idem (c : char) : lower_char (lower_char c) = lower_char c.
Proof.
  unfold lower_char. destruct (is_upper c) eqn:E; [|now rewrite E].
  replace (is_upper (c + 32)%N) with false; [reflexivity|].
  unfold is_upper in *. apply andb_true_iff in E as [E1 E2].
  apply N.leb_le in E1, E2. symmetry. apply andb_false_iff. right.
  apply N.leb_gt. lia.
Qed.

Lemma is_upper_lower_char (c : char) : is_upper (lower_char c) = false.
Proof.
  unfold lower_char. destruct (is_upper c) eqn:E; [|exact E].
  unfold is_upper in *. apply andb_true_iff in E as [E1 E2].
  apply N.leb_le in E1, E2. apply andb_false_iff. right. apply N.leb_gt. lia.
Qed.

(** The geometry key, without the pattern: ["_"] before every capital letter
    that is not the first character, then lower case. *)
Lemma snake_key_eq (c : char) (rest : str) :
  snake_key (c :: rest) = Ok (lower (underscore_capitals true (c :: rest))).
Proof.
  unfold snake_key. rewrite sub_capital.
  cbn [lower map app underscore_capitals negb].
  rewrite !andb_false_r. cbn [app lower map].
  now rewrite lower_char_idem.
Qed.





(* ================================================================== *)
(** * C2: a dimensional key without its unit *)

Lemma for_each_app {A S} (xs ys : list A) (body : S -> A -> result S) (acc : S) :
  for_each (xs ++ ys) body acc = (acc' <- for_each xs body acc ;; for_each ys body acc').
Proof.
  revert acc; induction xs as [|x xs IH]; intros acc; [reflexivity|].
  cbn [app for_each]. destruct (body acc x); [apply IH|reflexivity].
Qed.













(** The test [test_missing_unit_raises_error]: the message of the error. *)
Lemma smooth_to_fctb_missing_unit_message :
  smooth_to_fctb item_missing_unit (py "endmill")
  = Raise (ValueError
             (py "Dimensional parameter 'diameter' missing required unit field 'diameter_unit'")).
Proof. vm_compute. reflexivity. Qed.

(* ================================================================== *)
(** * The number pattern of [parse_parameter_value] *)

Lemma firstn_exact {A} (a b : list A) (n : nat) :
  n = length a -> firstn n (a ++ b) = a.
Proof.
  intros ->. rewrite firstn_app, Nat.sub_diag, firstn_all. cbn. apply app_nil_r.
Qed.



Lemma run_opt_take {R} (p : char -> bool) (c : char) (s : str) (i : nat) (g : Re.groups)
      (k : nat -> str -> Re.groups -> option R) (x : R) :
  p c = true -> k (S i) s g = Some x ->
  Re.run (Re.Opt (Re.Chr p)) i (c :: s) g k = Some x.
Proof. intros Hc Hk. cbn [Re.run]. now rewrite Hc, Hk. Qed.

Lemma run_opt_skip {R} (p : char -> bool) (s : str) (i : nat) (g : Re.groups)
      (k : nat -> str -> Re.groups -> option R) :
  match s with c :: _ => p c = false | [] => True end ->
  Re.run (Re.Opt (Re.Chr p)) i s g k = k i s g.
Proof. intros H. cbn [Re.run]. destruct s as [|c s]; [reflexivity|]. now rewrite H. Qed.

Lemma is_space_not_digit (c : char) : is_space c = true -> is_digit c = false.
Proof.
  unfold is_space, is_digit. intros H.
  apply andb_false_iff.
  destruct (N.leb_spec 48 c) as [L|L]; [right|now left].
  apply N.leb_gt.
  repeat (apply orb_true_iff in H as [H|H]);
    repeat match goal with
           | H : (_ && _)%bool = true |- _ => apply andb_true_iff in H as [? ?]
           | H : (_ <=? _)%N = true |- _ => apply N.leb_le in H
           | H : (_ =? _)%N = true |- _ => apply N.eqb_eq in H
           end; lia.
Qed.

Lemma match_after_sign (t : str) :
  Re.match_ number_re t = Re.run (Re.Opt (Re.Chr is_sign)) 0 t [] (after_sign t).
Proof. reflexivity. Qed.

Lemma after_sign_greedy (sign int_part frac_part sep rest : str) :
  forallb is_digit int_part = true ->
  forallb is_digit frac_part = true -> frac_part <> [] ->
  forallb is_space sep = true ->
  forallb not_newline rest = true -> rest <> [] ->
  match rest with c :: _ => is_space c = false | [] => True end ->
  match sep ++ rest with c :: _ => is_digit c = false | [] => True end ->
  after_sign (sign ++ int_part ++ py "." ++ frac_part ++ sep ++ rest)
             (length sign) (int_part ++ py "." ++ frac_part ++ sep ++ rest) []
  = Some [(2%nat, rest); (1%nat, sign ++ int_part ++ py "." ++ frac_part)].
Proof.
  intros Hip Hfp Hfpne Hsep Hrest Hrestne Hstop1 Hstop2.
  destruct frac_part as [|f0 fp]; [contradiction|].
  destruct rest as [|r0 rest]; [contradiction|].
  cbn [forallb] in Hfp, Hrest.
  apply andb_true_iff in Hfp as [Hf0 Hfp].
  apply andb_true_iff in Hrest as [Hr0 Hrest].
  unfold after_sign.
  apply run_star_greedy; [exact Hip| |reflexivity].
  apply run_opt_take; [reflexivity|].
  apply run_plus_greedy; [exact Hf0|exact Hfp| |exact Hstop2].
  apply run_star_greedy; [exact Hsep| |cbn; exact Hstop1].
  replace (r0 :: rest) with ((r0 :: rest) ++ []) by apply app_nil_r.
  apply run_plus_greedy; [exact Hr0|exact Hrest| |exact I].
  f_equal. f_equal.
  - f_equal. rewrite ?app_nil_r. apply firstn_all2. cbn [length]. lia.
  - f_equal. f_equal.
    match goal with
    | |- firstn ?n _ = ?a => transitivity (firstn n (a ++ sep ++ r0 :: rest))
    end.
    + f_equal. rewrite <- !app_assoc, ?app_nil_r. reflexivity.
    + apply firstn_exact. rewrite !length_app.
      change (length (py ".")) with 1%nat. cbn [length]. lia.
Qed.

(** The match of a number with a point, written greedily: then the groups
    are the number and the rest. *)
Lemma number_re_greedy (sign int_part frac_part sep rest : str) :
  (sign = [] \/ sign = py "-" \/ sign = py "+") ->
  forallb is_digit int_part = true -> int_part <> [] ->
  forallb is_digit frac_part = true -> frac_part <> [] ->
  forallb is_space sep = true ->
  forallb not_newline rest = true -> rest <> [] ->
  match rest with c :: _ => is_space c = false | [] => True end ->
  match sep ++ rest with c :: _ => is_digit c = false | [] => True end ->
  Re.match_ number_re (sign ++ int_part ++ py "." ++ frac_part ++ sep ++ rest)
  = Some [(2%nat, rest); (1%nat, sign ++ int_part ++ py "." ++ frac_part)].
Proof.
  intros Hsign Hip Hipne Hfp Hfpne Hsep Hrest Hrestne Hstop1 Hstop2.
  rewrite match_after_sign.
  pose proof (@after_sign_greedy sign int_part frac_part sep rest
                Hip Hfp Hfpne Hsep Hrest Hrestne Hstop1 Hstop2) as H.
  destruct Hsign as [->|[->| ->]].
  - rewrite run_opt_skip; [exact H|].
    destruct int_part as [|d0 ip]; [contradiction|]. cbn [app].
    cbn [forallb] in Hip. apply andb_true_iff in Hip as [Hd0 _].
    unfold is_sign. unfold is_digit in Hd0. apply andb_true_iff in Hd0 as [L1 L2].
    apply N.leb_le in L1, L2. apply orb_false_iff.
    split; apply N.eqb_neq; lia.
  - apply run_opt_take; [reflexivity|exact H].
  - apply run_opt_take; [reflexivity|exact H].
Qed.
(** ** Every text of the shape is matched *)






(** ** [strip] *)


Lemma lstrip_id (s : str) :
  match s with c :: _ => is_space c = false | [] => True end -> lstrip s = s.
Proof. destruct s as [|c s]; [reflexivity|]. cbn [lstrip]. now intros ->. Qed.


(** A text with neither leading nor trailing white space is its own
    [strip]. *)
Lemma strip_id (s : str) :
  match s with c :: _ => is_space c = false | [] => True end ->
  match rev s with c :: _ => is_space c = false | [] => True end ->
  strip s = s.
Proof.
  intros H1 H2. unfold strip, rstrip.
  rewrite (lstrip_id s H1), (lstrip_id (rev s) H2). apply rev_involutive.
Qed.

(* ================================================================== *)
(** * C4: [parse_parameter_value] *)



(* ================================================================== *)
(** * Reading back what was written with two decimals *)

Lemma digit_val_digit_char (d : Z) : (0 <= d)%Z -> digit_val (digit_char d) = d.
Proof. intros H. unfold digit_val, digit_char. lia. Qed.

Lemma digits_value_from (s : str) (acc : Z) :
  fold_left (fun acc c => (10 * acc + digit_val c)%Z) s acc
  = (acc * 10 ^ Z.of_nat (length s) + digits_value s)%Z.
Proof.
  unfold digits_value. revert acc; induction s as [|c s IH]; intros acc.
  - cbn. lia.
  - cbn [fold_left length]. rewrite IH, (IH (10 * 0 + digit_val c)%Z).
    rewrite Nat2Z.inj_succ, Z.pow_succ_r by lia. lia.
Qed.

Lemma digits_value_app (a b : str) :
  digits_value (a ++ b)
  = (digits_value a * 10 ^ Z.of_nat (length b) + digits_value b)%Z.
Proof.
  unfold digits_value at 1. rewrite fold_left_app.
  fold (digits_value a). apply digits_value_from.
Qed.

Lemma digits_fuel_value (fuel : nat) (n : Z) (acc : str) :
  (0 <= n < 2 ^ Z.of_nat fuel)%Z ->
  digits_value (digits_fuel fuel n acc)
  = (n * 10 ^ Z.of_nat (length acc) + digits_value acc)%Z.
Proof.
  revert n acc; induction fuel as [|fuel IH]; intros n acc H.
  - cbn in H. assert (n = 0)%Z as -> by lia. cbn [digits_fuel]. lia.
  - cbn [digits_fuel].
    assert (digits_value (digit_char (n mod 10) :: acc)
            = (n mod 10 * 10 ^ Z.of_nat (length acc) + digits_value acc)%Z) as E.
    { change (digit_char (n mod 10) :: acc) with ([digit_char (n mod 10)] ++ acc).
      rewrite digits_value_app. f_equal. f_equal.
      unfold digits_value. cbn [fold_left].
      rewrite digit_val_digit_char by (apply Z.mod_pos_bound; lia). lia. }
    destruct (Z.ltb_spec n 10) as [L|L].
    + rewrite E. rewrite Z.mod_small by lia. reflexivity.
    + rewrite IH.
      * rewrite E. cbn [length]. rewrite Nat2Z.inj_succ, Z.pow_succ_r by lia.
        pose proof (Z.div_mod n 10 ltac:(lia)) as Hd.
        set (p := (10 ^ Z.of_nat (length acc))%Z). lia.
      * rewrite Nat2Z.inj_succ, Z.pow_succ_r in H by lia.
        split; [apply Z.div_pos; lia|].
        apply Z.div_lt_upper_bound; lia.
Qed.

(** Reading the digits of a number gives the number. *)
Lemma digits_value_digits (n : Z) : (0 <= n)%Z -> digits_value (digits n) = n.
Proof.
  intros H. unfold digits. rewrite digits_fuel_value.
  - cbn. lia.
  - split; [exact H|].
    destruct (Z.eq_dec n 0) as [->|N]; [cbn; lia|].
    rewrite Nat2Z.inj_succ, Z2Nat.id by apply Z.log2_nonneg.
    apply Z.log2_spec. lia.
Qed.

Lemma fixed2_value (n : Z) :
  (0 <= n)%Z ->
  digits_value (digits (n / 100) ++ zero_pad 2 (digits (n mod 100))) = n.
Proof.
  intros H.
  assert (0 <= n mod 100 < 100)%Z as Hm by (apply Z.mod_pos_bound; lia).
  rewrite two_digits by exact Hm.
  rewrite digits_value_app, digits_value_digits by (apply Z.div_pos; lia).
  unfold digits_value. cbn [fold_left length].
  rewrite !digit_val_digit_char.
  - pose proof (Z.div_mod n 100 ltac:(lia)).
    pose proof (Z.div_mod (n mod 100) 10 ltac:(lia)).
    change (10 ^ Z.of_nat 2)%Z with 100%Z. lia.
  - apply Z.mod_pos_bound. lia.
  - apply Z.div_pos; lia.
Qed.

(** ** Rounding *)

Lemma round_half_even_near (a b n d : Z) :
  (0 < b)%Z -> (a = n * b + d)%Z -> (2 * Z.abs d < b)%Z ->
  F64.round_half_even a b = n.
Proof.
  intros Hb Ha Hd. unfold F64.round_half_even.
  destruct (Z_le_gt_dec 0 d) as [L|L].
  - assert (a / b = n /\ a mod b = d)%Z as [-> ->].
    { destruct (Z.div_mod_unique b n (a / b) d (a mod b)) as [E1 E2].
      - left. lia.
      - left. apply Z.mod_pos_bound. lia.
      - rewrite <- Z.div_mod by lia. lia.
      - split; congruence. }
    destruct (Z.ltb_spec (2 * d) b); [reflexivity|lia].
  - assert (a / b = n - 1 /\ a mod b = b + d)%Z as [-> ->].
    { destruct (Z.div_mod_unique b (n - 1) (a / b) (b + d) (a mod b)) as [E1 E2].
      - left. lia.
      - left. apply Z.mod_pos_bound. lia.
      - rewrite <- Z.div_mod by lia. lia.
      - split; congruence. }
    destruct (Z.ltb_spec (2 * (b + d)) b); [lia|].
    destruct (Z.ltb_spec b (2 * (b + d))); lia.
Qed.

Lemma round_half_even_bound (a b : Z) :
  (0 < b)%Z -> (2 * Z.abs (F64.round_half_even a b * b - a) <= b)%Z.
Proof.
  intros Hb. unfold F64.round_half_even.
  pose proof (Z.div_mod a b ltac:(lia)) as E.
  pose proof (Z.mod_pos_bound a b Hb) as M.
  destruct (Z.ltb_spec (2 * (a mod b)) b); [lia|].
  destruct (Z.ltb_spec b (2 * (a mod b))); [lia|].
  destruct (Z.even (a / b)); lia.
Qed.

Lemma ilog2_bounds (p q : Z) :
  (Z.log2 p - Z.log2 q - 1 <= F64.ilog2 p q <= Z.log2 p - Z.log2 q)%Z.
Proof.
  unfold F64.ilog2. destruct (F64.scale p q (Z.log2 p - Z.log2 q)) as [n d].
  destruct (n <? d)%Z; lia.
Qed.

(** A number of hundredths below 10^15, converted to a float and rendered
    with two decimals, is rendered as itself. *)
Lemma of_ratio_hundredths (neg : bool) (n : Z) :
  (0 < n < 10 ^ 15)%Z ->
  exists m e,
    F64.of_ratio neg n 100 = F64.Fin neg m e
    /\ F64.scaled_round (Z.pos m) e 2 = n.
Proof.
  intros Hn. unfold F64.of_ratio.
  pose proof (ilog2_bounds n 100) as Hl.
  change (Z.log2 100) with 6%Z in Hl.
  assert (0 <= Z.log2 n < 50)%Z as Hlog.
  { split; [apply Z.log2_nonneg|]. apply Z.log2_lt_pow2; lia. }
  set (ex := F64.ilog2 n 100) in *.
  replace (Z.max (ex - 52) F64.emin) with (ex - 52)%Z by (unfold F64.emin; lia).
  set (e := (ex - 52)%Z).
  assert (-59 <= e <= -9)%Z as He by (unfold e; lia).
  unfold F64.scale. destruct (Z.leb_spec 0 e) as [L|_]; [lia|].
  set (D := (2 ^ (- e))%Z).
  assert (512 <= D)%Z as HD.
  { change 512%Z with (2 ^ 9)%Z. apply Z.pow_le_mono_r; lia. }
  pose proof (@round_half_even_bound (n * D) 100 ltac:(lia)) as Hb.
  set (m0 := F64.round_half_even (n * D) 100) in *.
  assert (0 < m0)%Z as Hm0 by nia.
  destruct (Z.eqb_spec m0 (2 ^ 53)) as [E53|N53].
  - (* the mantissa rounded up to 2^53 *)
    destruct (Z.eqb_spec (2 ^ 52) 0) as [F|_]; [discriminate F|].
    destruct (Z.ltb_spec F64.emax (e + 1)) as [F|_]; [unfold F64.emax in F; lia|].
    exists (Z.to_pos (2 ^ 52)), (e + 1)%Z. split; [reflexivity|].
    rewrite Z2Pos.id by lia.
    unfold F64.scaled_round. destruct (Z.leb_spec 0 (e + 1)) as [L|_]; [lia|].
    assert (D = 2 * 2 ^ (- (e + 1)))%Z as ED.
    { unfold D. rewrite <- Z.pow_succ_r by lia. f_equal. lia. }
    set (D' := (2 ^ (- (e + 1)))%Z) in *.
    apply round_half_even_near with (d := (2 ^ 52 * 10 ^ 2 - n * D')%Z); lia.
  - destruct (Z.eqb_spec m0 0) as [F|_]; [lia|].
    destruct (Z.ltb_spec F64.emax e) as [F|_]; [unfold F64.emax in F; lia|].
    exists (Z.to_pos m0), e. split; [reflexivity|].
    rewrite Z2Pos.id by lia.
    unfold F64.scaled_round. destruct (Z.leb_spec 0 e) as [L|_]; [lia|].
    fold D.
    apply round_half_even_near with (d := (m0 * 10 ^ 2 - n * D)%Z); lia.
Qed.
Lemma split_once_sep (sep : char) (a d : str) :
  existsb (N.eqb sep) a = false ->
  split_once sep (a ++ [sep] ++ d) = [a; d].
Proof.
  induction a as [|c a IH]; intros H.
  - cbn [app split_once]. now rewrite N.eqb_refl.
  - cbn [existsb] in H. apply orb_false_iff in H as [H1 H2].
    cbn [app split_once]. rewrite (N.eqb_sym c sep), H1.
    rewrite <- app_comm_cons in IH. cbn [app] in IH. now rewrite IH.
Qed.

Lemma digits_no_char (xs : str) (c : char) :
  forallb is_digit xs = true -> is_digit c = false -> existsb (N.eqb c) xs = false.
Proof.
  intros H Hc. induction xs as [|x xs IH]; [reflexivity|].
  cbn [forallb] in H. apply andb_true_iff in H as [Hx H].
  cbn [existsb]. rewrite (IH H), orb_false_r.
  apply N.eqb_neq. intros ->. congruence.
Qed.

Lemma of_str_minus (s : str) :
  F64.of_str (45%N :: s)
  = match split_once 46%N s with
    | [i; f] => F64.of_decimal true i f
    | _ => F64.of_decimal true s []
    end.
Proof. reflexivity. Qed.

Lemma of_str_unsigned (c : char) (s : str) :
  is_digit c = true ->
  F64.of_str (c :: s)
  = match split_once 46%N (c :: s) with
    | [i; f] => F64.of_decimal false i f
    | _ => F64.of_decimal false (c :: s) []
    end.
Proof.
  intros Hc. unfold F64.of_str.
  replace (N.eqb c 45) with false; [replace (N.eqb c 43) with false|]; [reflexivity| |].
  - symmetry. apply N.eqb_neq. intros ->. discriminate Hc.
  - symmetry. apply N.eqb_neq. intros ->. discriminate Hc.
Qed.

Lemma of_str_fixed2 (neg : bool) (n : Z) :
  (0 <= n)%Z ->
  F64.of_str (F64.sign_str neg ++ F64.fixed2 n)
  = if (n =? 0)%Z then F64.Zero neg else F64.of_ratio neg n 100.
Proof.
  intros Hn. unfold F64.fixed2.
  assert (forall neg,
             F64.of_decimal neg (digits (n / 100)) (zero_pad 2 (digits (n mod 100)))
             = if (n =? 0)%Z then F64.Zero neg else F64.of_ratio neg n 100) as E.
  { intros b. unfold F64.of_decimal. rewrite fixed2_value by exact Hn.
    rewrite two_digits by (apply Z.mod_pos_bound; lia). reflexivity. }
  assert (split_once 46%N (digits (n / 100) ++ [46%N] ++ zero_pad 2 (digits (n mod 100)))
          = [digits (n / 100); zero_pad 2 (digits (n mod 100))]) as S.
  { apply split_once_sep. apply digits_no_char; [apply digits_all_digits|reflexivity]. }
  destruct neg.
  - change (F64.sign_str true ++ ?x) with (45%N :: x).
    rewrite of_str_minus, S. apply E.
  - change (F64.sign_str false ++ ?x) with x.
    destruct (digits_nonempty (n / 100)) as (c & r & Ed).
    pose proof (digits_all_digits (n / 100)) as Hd. rewrite Ed in Hd.
    cbn [forallb] in Hd. apply andb_true_iff in Hd as [Hc _].
    rewrite Ed in S |- *. rewrite <- app_comm_cons in S |- *.
    rewrite of_str_unsigned by exact Hc. rewrite S, <- Ed. apply E.
Qed.

(** The float read from a two-decimal text is rendered as that text. *)
Lemma format_2f_of_str (neg : bool) (n : Z) :
  (0 <= n < 10 ^ 15)%Z ->
  F64.format_2f (F64.of_str (F64.sign_str neg ++ F64.fixed2 n))
  = F64.sign_str neg ++ F64.fixed2 n.
Proof.
  intros Hn. rewrite of_str_fixed2 by lia.
  destruct (Z.eqb_spec n 0) as [->|N].
  - reflexivity.
  - destruct (@of_ratio_hundredths neg n ltac:(lia)) as (m & e & -> & Hs).
    cbn [F64.format_2f]. now rewrite Hs.
Qed.

(** ** A canonical text through [parse_parameter_value] and back *)

Lemma clean_unit_inv (unit : str) :
  clean_unit unit = true ->
  exists c r d r',
    unit = c :: r /\ rev unit = d :: r'
    /\ is_space c = false /\ is_space d = false
    /\ forallb not_newline unit = true /\ looks_like_unit unit = true.
Proof.
  unfold clean_unit. intros H.
  apply andb_true_iff in H as [H Hl]. apply andb_true_iff in H as [H Hn].
  destruct unit as [|c r]; [discriminate|].
  destruct (rev (c :: r)) as [|d r'] eqn:Er; [discriminate|].
  apply andb_true_iff in H as [H1 H2]. apply negb_true_iff in H1, H2.
  exists c, r, d, r'. repeat split; auto.
Qed.

Lemma unit_separator_spaces (unit : str) : forallb is_space (unit_separator unit) = true.
Proof. unfold unit_separator. now destruct (str_eqb unit degree_sign). Qed.

Lemma canonical_text_strip (neg : bool) (n : Z) (unit : str) :
  clean_unit unit = true -> strip (canonical_text neg n unit) = canonical_text neg n unit.
Proof.
  intros Hu. apply clean_unit_inv in Hu as (c & r & d & r' & Eu & Er & Hc & Hd & _ & _).
  apply strip_id.
  - unfold canonical_text, F64.fixed2.
    destruct neg; cbn [F64.sign_str app]; [reflexivity|].
    destruct (digits_nonempty (n / 100)) as (c0 & r0 & Ed).
    pose proof (digits_all_digits (n / 100)) as H. rewrite Ed in H |- *.
    cbn [forallb] in H. apply andb_true_iff in H as [H0 _]. cbn [app].
    destruct (is_space c0) eqn:Es; [|reflexivity].
    apply is_space_not_digit in Es. congruence.
  - unfold canonical_text. rewrite !rev_app_distr, Er. cbn [app]. exact Hd.
Qed.

Lemma parse_canonical_text (neg : bool) (n : Z) (unit : str) :
  (0 <= n)%Z -> clean_unit unit = true ->
  parse_parameter_value (PStr (canonical_text neg n unit))
  = unit_value (F64.of_str (F64.sign_str neg ++ F64.fixed2 n)) unit.
Proof.
  intros Hn Hu. unfold parse_parameter_value.
  rewrite canonical_text_strip by exact Hu.
  pose proof (clean_unit_inv _ Hu) as (c & r & d & r' & Eu & Er & Hc & Hd & Hnl & Hl).
  assert (Re.match_ number_re (canonical_text neg n unit)
          = Some [(2%nat, unit); (1%nat, F64.sign_str neg ++ F64.fixed2 n)]) as M.
  { assert (canonical_text neg n unit
            = F64.sign_str neg ++ digits (n / 100) ++ py "."
              ++ zero_pad 2 (digits (n mod 100)) ++ unit_separator unit ++ unit) as ->.
    { unfold canonical_text, F64.fixed2. now rewrite <- !app_assoc. }
    assert (F64.sign_str neg ++ F64.fixed2 n
            = F64.sign_str neg ++ digits (n / 100) ++ py "."
              ++ zero_pad 2 (digits (n mod 100))) as ->.
    { unfold F64.fixed2. reflexivity. }
    rewrite two_digits by (apply Z.mod_pos_bound; lia).
    apply number_re_greedy.
    - destruct neg; auto.
    - apply digits_all_digits.
    - destruct (digits_nonempty (n / 100)) as (c0 & r0 & ->). discriminate.
    - assert (0 <= n mod 100 < 100)%Z as Hm by (apply Z.mod_pos_bound; lia).
      cbn [forallb]. rewrite !is_digit_digit_char; [reflexivity| |].
      + apply Z.mod_pos_bound. lia.
      + split; [apply Z.div_pos; lia|]. apply Z.div_lt_upper_bound; lia.
    - discriminate.
    - apply unit_separator_spaces.
    - exact Hnl.
    - rewrite Eu. discriminate.
    - rewrite Eu. exact Hc.
    - unfold unit_separator. destruct (str_eqb unit degree_sign) eqn:E.
      + apply str_eqb_eq in E. rewrite E. reflexivity.
      + reflexivity. }
  rewrite M. cbn [Re.group Nat.eqb].
  rewrite Hl. rewrite Eu at 1. cbn [truthy andb]. f_equal.
  apply strip_id; [rewrite Eu; exact Hc|rewrite Er; exact Hd].
Qed.

(** Formatting what was parsed from a canonical text gives the text. *)
Lemma format_parsed_canonical (neg : bool) (n : Z) (unit : str) :
  (0 <= n < 10 ^ 15)%Z ->
  format_parameter_value (PFloat (F64.of_str (F64.sign_str neg ++ F64.fixed2 n)))
                         (PStr unit)
  = Ok (canonical_text neg n unit).
Proof.
  intros Hn. unfold format_parameter_value, canonical_text, unit_separator.
  cbn [is_number as_float bind eq_str py_str].
  rewrite format_2f_of_str by exact Hn.
  destruct (str_eqb unit degree_sign) eqn:E.
  - apply str_eqb_eq in E. subst. now rewrite <- app_assoc.
  - now rewrite <- !app_assoc.
Qed.
(* ================================================================== *)
(** * Parameter names there and back *)

(** A check over the code points from [lo] on covers the interval. *)
Lemma N_range_check (P : char -> bool) (lo len : nat) :
  forallb P (map N.of_nat (seq lo len)) = true ->
  forall c, (N.of_nat lo <= c < N.of_nat (lo + len))%N -> P c = true.
Proof.
  intros H c Hc. rewrite forallb_forall in H. apply H.
  apply in_map_iff. exists (N.to_nat c). split; [lia|].
  apply in_seq. lia.
Qed.

Lemma is_upper_range (c : char) : is_upper c = true -> (65 <= c < 91)%N.
Proof.
  unfold is_upper. intros H. apply andb_true_iff in H as [H1 H2].
  apply N.leb_le in H1, H2. lia.
Qed.

Lemma is_lower_range (c : char) :
  is_cased c = true -> is_upper c = false -> (97 <= c < 123)%N.
Proof.
  unfold is_cased. intros H Hu. rewrite Hu in H. cbn [orb] in H.
  unfold is_lower in H. apply andb_true_iff in H as [H1 H2].
  apply N.leb_le in H1, H2. lia.
Qed.

Lemma upper_char_facts (c : char) :
  is_upper c = true ->
  upper_char (lower_char c) = c
  /\ N.eqb (lower_char c) 95 = false /\ is_cased (lower_char c) = true.
Proof.
  intros H. apply is_upper_range in H.
  pose proof (@N_range_check
                (fun c => N.eqb (upper_char (lower_char c)) c
                          && negb (N.eqb (lower_char c) 95)
                          && is_cased (lower_char c)) 65 26 eq_refl c H) as P.
  cbv beta in P. apply andb_true_iff in P as [P P3]. apply andb_true_iff in P as [P1 P2].
  apply N.eqb_eq in P1. apply negb_true_iff in P2. auto.
Qed.

Lemma upper_lower_char (c : char) : is_upper c = true -> upper_char (lower_char c) = c.
Proof. intros H. now apply upper_char_facts. Qed.

Lemma lower_char_upper_facts (c : char) :
  is_upper c = true -> N.eqb (lower_char c) 95 = false /\ is_cased (lower_char c) = true.
Proof. intros H. now apply upper_char_facts. Qed.

Lemma lower_char_lower_facts (c : char) :
  is_cased c = true -> is_upper c = false ->
  lower_char c = c /\ N.eqb c 95 = false.
Proof.
  intros H1 H2. pose proof (is_lower_range c H1 H2) as H.
  pose proof (@N_range_check
                (fun c => N.eqb (lower_char c) c && negb (N.eqb c 95))
                97 26 eq_refl c H) as P.
  cbv beta in P. apply andb_true_iff in P as [P1 P2].
  apply N.eqb_eq in P1. apply negb_true_iff in P2. auto.
Qed.

Lemma split_on_cons (sep : char) (s : str) : exists w ws, split_on sep s = w :: ws.
Proof.
  induction s as [|c s (w & ws & IH)]; cbn [split_on]; [eauto|].
  destruct (N.eqb c sep); [eauto|]. rewrite IH. eauto.
Qed.

Lemma join_nil_cons (p : str) (ps : list str) : join [] (p :: ps) = p ++ join [] ps.
Proof. destruct ps; cbn [join app]; [now rewrite app_nil_r|reflexivity]. Qed.

Lemma camel_from_split (s : str) (p : bool) :
  match split_on 95%N s with
  | w :: ws => title_from p w ++ join [] (map title ws)
  | [] => []
  end = camel_from p s.
Proof.
  revert p; induction s as [|c s IH]; intros p; [reflexivity|].
  cbn [split_on camel_from].
  destruct (split_on_cons 95%N s) as (w & ws & E). rewrite E in *.
  destruct (N.eqb c 95).
  - cbn [title_from app map]. rewrite join_nil_cons. apply (IH false).
  - cbn [title_from app]. f_equal. apply IH.
Qed.

(** [snake_to_camel] without [split], [title] and [join]. *)
Lemma snake_to_camel_eq (s : str) : snake_to_camel s = camel_from false s.
Proof.
  unfold snake_to_camel. rewrite <- camel_from_split.
  destruct (split_on 95%N s) as [|w ws]; [reflexivity|].
  cbn [map]. now rewrite join_nil_cons.
Qed.

Lemma camel_from_app (x y : str) (p : bool) :
  camel_from p (x ++ 95%N :: y) = camel_from p x ++ camel_from false y.
Proof.
  revert p; induction x as [|c x IH]; intros p; [reflexivity|].
  cbn [app camel_from]. destruct (N.eqb c 95); [apply IH|].
  cbn [app]. now rewrite IH.
Qed.

Lemma snake_to_camel_unit (x : str) :
  snake_to_camel (x ++ py "_unit") = snake_to_camel x ++ py "Unit".
Proof.
  rewrite !snake_to_camel_eq.
  change (py "_unit") with (95%N :: py "unit").
  now rewrite camel_from_app.
Qed.

Lemma camel_from_snake (s : str) :
  forallb is_cased s = true ->
  camel_from true (lower (underscore_capitals false s)) = s.
Proof.
  induction s as [|c s IH]; intros H; [reflexivity|].
  cbn [forallb] in H. apply andb_true_iff in H as [Hc H].
  cbn [underscore_capitals negb]. rewrite andb_true_r.
  destruct (is_upper c) eqn:Eu.
  - change (py "_" ++ ?x) with (95%N :: x).
    cbn [lower map camel_from]. change (lower_char 95%N) with 95%N.
    cbn [N.eqb Pos.eqb].
    destruct (lower_char_upper_facts _ Eu) as [E1 E2]. rewrite E1, E2.
    rewrite upper_lower_char by exact Eu.
    f_equal. now apply IH.
  - destruct (lower_char_lower_facts c Hc Eu) as [E1 E2].
    cbn [app lower map camel_from]. rewrite !E1, E2, Hc.
    f_equal. now apply IH.
Qed.

Lemma pascal_key_inv (key : str) :
  pascal_key key = true ->
  exists c rest,
    key = c :: rest /\ is_upper c = true /\ forallb is_cased rest = true
    /\ endswith key (py "Unit") = false.
Proof.
  unfold pascal_key. intros H. apply andb_true_iff in H as [H He].
  destruct key as [|c rest]; [discriminate|].
  apply andb_true_iff in H as [Hc Hr]. apply negb_true_iff in He.
  exists c, rest. auto.
Qed.

(** A PascalCase name comes back from its geometry key. *)
Lemma snake_to_camel_snake (key : str) :
  pascal_key key = true -> snake_to_camel (snake key) = key.
Proof.
  intros H. apply pascal_key_inv in H as (c & rest & -> & Hc & Hr & _).
  rewrite snake_to_camel_eq. unfold snake.
  cbn [underscore_capitals negb]. rewrite andb_false_r.
  cbn [app lower map camel_from].
  destruct (lower_char_upper_facts _ Hc) as [E1 E2]. rewrite E1, E2.
  rewrite upper_lower_char by exact Hc.
  f_equal. now apply camel_from_snake.
Qed.

Lemma snake_key_snake (key : str) :
  pascal_key key = true -> snake_key key = Ok (snake key).
Proof.
  intros H. apply pascal_key_inv in H as (c & rest & -> & _).
  apply snake_key_eq.
Qed.

Lemma snake_inj (k1 k2 : str) :
  pascal_key k1 = true -> pascal_key k2 = true -> snake k1 = snake k2 -> k1 = k2.
Proof.
  intros H1 H2 E. apply (f_equal snake_to_camel) in E.
  now rewrite !snake_to_camel_snake in E.
Qed.

(** The geometry key of a PascalCase name does not look like a unit key. *)
Lemma snake_not_unit (key : str) :
  pascal_key key = true -> endswith (snake key) (py "_unit") = false.
Proof.
  intros H. destruct (endswith (snake key) (py "_unit")) eqn:E; [|reflexivity].
  apply endswith_spec in E as [z E].
  apply (f_equal snake_to_camel) in E.
  rewrite snake_to_camel_snake, snake_to_camel_unit in E by exact H.
  apply pascal_key_inv in H as (_ & _ & _ & _ & _ & Hn).
  rewrite E, endswith_app in Hn. discriminate.
Qed.

Lemma snake_unit_neq (k1 k2 : str) :
  pascal_key k1 = true -> snake k1 <> snake k2 ++ py "_unit".
Proof.
  intros H E. apply snake_not_unit in H. rewrite E, endswith_app in H. discriminate.
Qed.
(* ================================================================== *)
(** * The loop of [fctb_to_smooth] on PascalCase names *)

Lemma parse_plain_parameter (k : str) (v : pyval) :
  plain_parameter (k, v) = true -> parsed_ok (k, parse_parameter_value v).
Proof.
  unfold plain_parameter, parsed_ok. cbn [fst snd]. intros H.
  apply andb_true_iff in H as [H Hn]. apply andb_true_iff in H as [Hp Hd].
  apply negb_true_iff in Hn, Hd. split; [exact Hp|].
  destruct v; try (right; split; [reflexivity|exact Hn]).
  - unfold parse_parameter_value.
    destruct (Re.match_ number_re (strip s)) as [g|]; [|right; auto].
    destruct (Re.group g 1) as [num|]; [|right; auto].
    destruct (Re.group g 2) as [rest|]; [|right; auto].
    destruct (truthy (PStr rest) && looks_like_unit rest); [|right; auto].
    left. eauto.
  - discriminate Hd.
Qed.

Lemma parsed_ok_all (params : dict) :
  forallb plain_parameter params = true -> Forall parsed_ok (parsed params).
Proof.
  intros H. unfold parsed. apply Forall_forall. intros [k v'] Hin.
  apply in_map_iff in Hin as ([k0 v] & E & Hin). cbn [fst snd] in E.
  injection E as <- <-.
  rewrite forallb_forall in H. apply parse_plain_parameter. now apply H.
Qed.

Lemma parsed_keys (params : dict) : dict_keys (parsed params) = dict_keys params.
Proof. unfold parsed, dict_keys. rewrite map_map. reflexivity. Qed.

(** The keys a parameter writes. *)
Lemma emitted_keys (k : str) (v : pyval) (key : str) :
  In key (dict_keys (emitted (k, v))) ->
  key = snake k \/ key = snake k ++ py "_unit".
Proof.
  unfold emitted. destruct (str_eqb k (py "Material")); [intros []|].
  destruct v as [| | | | | |d]; try (cbn; intuition (subst; auto); fail).
  destruct (dict_get d (py "value")); [|cbn; intuition (subst; auto)].
  destruct (dict_get d (py "unit")); cbn; intuition (subst; auto).
Qed.

Lemma flat_map_emitted_keys (items : dict) (key : str) :
  In key (dict_keys (flat_map emitted items)) ->
  exists k v, In (k, v) items
              /\ In key (dict_keys (emitted (k, v))).
Proof.
  unfold dict_keys. intros H. apply in_map_iff in H as ([key' value] & E & H).
  cbn in E. subst key'. apply in_flat_map in H as ([k v] & Hin & He).
  exists k, v. split; [exact Hin|]. apply (in_map fst) in He. exact He.
Qed.

Lemma emitted_nodup (k : str) (v : pyval) : NoDup (dict_keys (emitted (k, v))).
Proof.
  assert (NoDup [snake k; snake k ++ py "_unit"]) as H2.
  { constructor; [|constructor; [intros []|constructor]].
    intros [E|[]]. apply (f_equal (@length _)) in E. rewrite length_app in E.
    change (length (py "_unit")) with 5%nat in E. lia. }
  assert (NoDup [snake k]) as H1 by (constructor; [intros []|constructor]).
  unfold emitted. destruct (str_eqb k (py "Material")); [constructor|].
  destruct v as [| | | | | |d]; try exact H1.
  destruct (dict_get d (py "value")); [|exact H1].
  destruct (dict_get d (py "unit")); [exact H2|exact H1].
Qed.

(** Distinct PascalCase names write distinct geometry keys. *)
Lemma flat_map_emitted_nodup (items : dict) :
  NoDup (dict_keys items) ->
  Forall (fun kv => pascal_key (fst kv) = true) items ->
  NoDup (dict_keys (flat_map emitted items)).
Proof.
  induction items as [|[k v] items IH]; intros ND HP; [constructor|].
  cbn [flat_map]. unfold dict_keys in *. rewrite map_app.
  cbn [map fst] in ND. inversion ND as [|? ? Hk ND']; subst.
  inversion HP as [|? ? Hpk HP']; subst. cbn [fst] in Hpk.
  apply NoDup_app; [apply emitted_nodup|now apply IH|].
  intros key H1 H2.
  apply emitted_keys in H1.
  apply flat_map_emitted_keys in H2 as (k' & v' & Hin & H2).
  apply emitted_keys in H2.
  assert (pascal_key k' = true) as Hpk'.
  { rewrite Forall_forall in HP'. apply (HP' _ Hin). }
  assert (k <> k') as Hne.
  { intros ->. apply Hk. apply (in_map fst) in Hin. exact Hin. }
  destruct H1 as [-> | ->], H2 as [E|E].
  - apply Hne. now apply snake_inj.
  - now apply (snake_unit_neq k k').
  - symmetry in E. now apply (snake_unit_neq k' k).
  - apply app_inv_tail in E. apply Hne. now apply snake_inj.
Qed.

Lemma NoDup_app_disjoint {A} (a b : list A) (x : A) :
  NoDup (a ++ b) -> In x a -> In x b -> False.
Proof.
  induction a as [|y a IH]; intros ND Ha Hb; [destruct Ha|].
  cbn [app] in ND. inversion ND as [|? ? Hy ND']; subst.
  destruct Ha as [->|Ha].
  - apply Hy. apply in_or_app. now right.
  - now apply IH.
Qed.

Lemma dict_in_app_fresh (g rest : dict) (k : str) :
  NoDup (dict_keys (g ++ rest)) -> In k (dict_keys rest) -> dict_in k g = false.
Proof.
  intros ND Hin. destruct (dict_in k g) eqn:E; [|reflexivity].
  apply dict_in_keys in E. exfalso.
  unfold dict_keys in ND. rewrite map_app in ND.
  exact (NoDup_app_disjoint _ _ k ND E Hin).
Qed.

Lemma geometry_step_emitted (g : dict) (k : str) (v : pyval) (rest : dict) :
  parsed_ok (k, v) ->
  NoDup (dict_keys (g ++ emitted (k, v) ++ rest)) ->
  geometry_step g (k, v) = Ok (g ++ emitted (k, v)).
Proof.
  intros [Hp Hv] ND. cbn [fst snd] in Hp, Hv.
  unfold geometry_step, emitted in *.
  destruct (str_eqb k (py "Material")); [now rewrite app_nil_r|].
  rewrite (snake_key_snake _ Hp). cbn [bind].
  assert (forall value rest', NoDup (dict_keys (g ++ [(snake k, value)] ++ rest')) ->
                              dict_set g (snake k) value = g ++ [(snake k, value)]) as Fresh.
  { intros value rest' ND'. apply dict_set_fresh.
    apply (dict_in_app_fresh g ([(snake k, value)] ++ rest')); [exact ND'|].
    cbn. now left. }
  destruct Hv as [(x & u & ->)|[Hd Hn]].
  - unfold unit_value in *.
    change (dict_in (py "value") [(py "value", PFloat x); (py "unit", PStr u)]) with true.
    change (dict_item [(py "value", PFloat x); (py "unit", PStr u)] (py "value"))
      with (Ok (PFloat x)).
    change (dict_item [(py "value", PFloat x); (py "unit", PStr u)] (py "unit"))
      with (Ok (PStr u)).
    change (dict_get [(py "value", PFloat x); (py "unit", PStr u)] (py "value"))
      with (Some (PFloat x)) in ND.
    change (dict_get [(py "value", PFloat x); (py "unit", PStr u)] (py "unit"))
      with (Some (PStr u)) in ND.
    cbn [bind].
    rewrite (Fresh (PFloat x) ((snake k ++ py "_unit", PStr u) :: rest)) by exact ND.
    rewrite dict_set_fresh.
    + now rewrite <- app_assoc.
    + apply (dict_in_app_fresh (g ++ [(snake k, PFloat x)])
                               ((snake k ++ py "_unit", PStr u) :: rest)).
      * now rewrite <- app_assoc.
      * cbn. now left.
  - destruct v; try discriminate Hd; rewrite (Fresh _ rest ND); reflexivity.
Qed.

(** With distinct PascalCase names the geometry is what the parameters
    write, in their order. *)
Lemma geometry_loop (items : dict) :
  forall g,
    Forall parsed_ok items ->
    NoDup (dict_keys (g ++ flat_map emitted items)) ->
    for_each items geometry_step g = Ok (g ++ flat_map emitted items).
Proof.
  induction items as [|[k v] items IH]; intros g HP ND.
  - cbn. now rewrite app_nil_r.
  - inversion HP as [|? ? Hkv HP']; subst.
    cbn [for_each flat_map] in *.
    rewrite (geometry_step_emitted g (flat_map emitted items) Hkv ND). cbn [bind].
    rewrite IH; [now rewrite <- app_assoc|exact HP'|now rewrite <- app_assoc].
Qed.
(* ================================================================== *)
(** * The loop of [smooth_to_fctb] when no turn raises *)

Lemma existsb_str_eqb_false (key : str) (l : list str) :
  ~ In key l -> existsb (str_eqb key) l = false.
Proof.
  intros H. apply not_true_is_false. intros E.
  apply existsb_exists in E as (k & Hk & E). apply str_eqb_eq in E. now subst.
Qed.

(** A turn on a key that is a base key, not yet processed. *)
Lemma parameter_step_base (G : dict) (ps : dict) (pr : list str) (key : str)
      (value : pyval) :
  endswith key (py "_unit") = false -> ~ In key pr ->
  parameter_step G (ps, pr) (key, value)
  = if dict_in (key ++ py "_unit") G then
      unit <- dict_item G (key ++ py "_unit") ;;
      formatted <- format_parameter_value value unit ;;
      Ok (dict_set ps (snake_to_camel key) (PStr formatted),
          (key ++ py "_unit") :: key :: pr)
    else if is_number value then
      if is_dimensional key
      then Raise (ValueError (missing_unit_message key (key ++ py "_unit")))
      else Ok (dict_set ps (snake_to_camel key) value, key :: pr)
    else Ok (dict_set ps (snake_to_camel key) (PStr (py_str value)), key :: pr).
Proof.
  intros He Hp. unfold parameter_step.
  now rewrite He, (existsb_str_eqb_false _ _ Hp).
Qed.

Lemma In_key_unique (d : dict) (k : str) (v v' : pyval) :
  NoDup (dict_keys d) -> In (k, v) d -> In (k, v') d -> v = v'.
Proof.
  intros ND H1 H2. apply (In_dict_get _ _ _ ND) in H1, H2. congruence.
Qed.

(** The loop over the geometry: when every base key either has its unit and
    a value that formats, or has no unit and is not a number under a
    dimensional key, the loop ends; a parameter name no base key maps to is
    left as it was, and a base key with a unit, whose name no other base
    key maps to, ends up formatted under its name. *)
Lemma parameter_loop (G : dict) (todo : dict) :
  forall (ps : dict) (pr : list str),
    NoDup (dict_keys todo) ->
    (forall k, In k pr -> In k (dict_keys todo) -> endswith k (py "_unit") = true) ->
    (forall key value,
        In (key, value) todo -> endswith key (py "_unit") = false ->
        if dict_in (key ++ py "_unit") G
        then exists u t, dict_get G (key ++ py "_unit") = Some u
                         /\ format_parameter_value value u = Ok t
        else is_number value && is_dimensional key = false) ->
    exists ps' pr',
      for_each todo (parameter_step G) (ps, pr) = Ok (ps', pr')
      /\ (forall name,
             (forall key value, In (key, value) todo ->
                                endswith key (py "_unit") = false ->
                                snake_to_camel key <> name) ->
             dict_get ps' name = dict_get ps name)
      /\ (forall key value u t,
             In (key, value) todo -> endswith key (py "_unit") = false ->
             dict_get G (key ++ py "_unit") = Some u ->
             format_parameter_value value u = Ok t ->
             (forall key' value', In (key', value') todo ->
                                  endswith key' (py "_unit") = false ->
                                  key' <> key ->
                                  snake_to_camel key' <> snake_to_camel key) ->
             dict_get ps' (snake_to_camel key) = Some (PStr t)).
Proof.
  induction todo as [|[k0 v0] todo IH]; intros ps pr ND Hpr Hok.
  - exists ps, pr. split; [reflexivity|]. split; [reflexivity|].
    intros key value u t [].
  - cbn [dict_keys map fst] in ND. inversion ND as [|? ? Hk0 ND']; subst.
    fold (dict_keys todo) in Hk0, ND'.
    cbn [for_each].
    destruct (endswith k0 (py "_unit")) eqn:E0.
    + (* a unit key: skipped *)
      assert (parameter_step G (ps, pr) (k0, v0) = Ok (ps, pr)) as ->.
      { unfold parameter_step. now rewrite E0. }
      cbn [bind].
      destruct (IH ps pr ND') as (ps' & pr' & Hrun & Hkeep & Hset).
      * intros k Hk Hin. apply Hpr; [exact Hk|]. cbn. now right.
      * intros key value Hin. apply Hok. now right.
      * exists ps', pr'. split; [exact Hrun|]. split.
        -- intros name Hname. apply Hkeep.
           intros key value Hin. apply (Hname key value). now right.
        -- intros key value u t [Hin|Hin] He Hu Hf Hother.
           ++ injection Hin as -> ->. congruence.
           ++ apply (Hset key value u t Hin He Hu Hf).
              intros key' value' Hin'. apply (Hother key' value'). now right.
    + (* a base key *)
      assert (~ In k0 pr) as Hnp.
      { intros Hin. specialize (Hpr k0 Hin). cbn in Hpr.
        rewrite Hpr in E0; [discriminate|now left]. }
      rewrite (@parameter_step_base G ps pr k0 v0 E0 Hnp).
      pose proof (Hok k0 v0 (or_introl eq_refl) E0) as Hv.
      destruct (dict_in (k0 ++ py "_unit") G) eqn:Eu.
      * (* with its unit *)
        destruct Hv as (u0 & t0 & Hu0 & Hf0).
        unfold dict_item. rewrite Hu0. cbn [bind]. rewrite Hf0. cbn [bind].
        destruct (IH (dict_set ps (snake_to_camel k0) (PStr t0))
                     ((k0 ++ py "_unit") :: k0 :: pr) ND')
          as (ps' & pr' & Hrun & Hkeep & Hset).
        -- intros k [<-|[<-|Hk]] Hin.
           ++ apply endswith_app.
           ++ contradiction.
           ++ apply Hpr; [exact Hk|]. cbn. now right.
        -- intros key value Hin. apply Hok. now right.
        -- exists ps', pr'. split; [exact Hrun|]. split.
           ++ intros name Hname. rewrite Hkeep.
              ** apply dict_get_set_other. apply (Hname k0 v0); [now left|exact E0].
              ** intros key value Hin. apply (Hname key value). now right.
           ++ intros key value u t [Hin|Hin] He Hu Hf Hother.
              ** injection Hin as -> ->.
                 rewrite Hkeep.
                 --- rewrite dict_get_set_same. congruence.
                 --- intros key' value' Hin' He'. apply (Hother key' value'); auto.
                     +++ now right.
                     +++ intros ->. apply Hk0. apply (in_map fst) in Hin'. exact Hin'.
              ** apply (Hset key value u t Hin He Hu Hf).
                 intros key' value' Hin'. apply (Hother key' value'). now right.
      * (* without unit *)
        assert (exists w,
                   (if is_number v0
                    then if is_dimensional k0
                         then Raise (ValueError
                                       (missing_unit_message k0 (k0 ++ py "_unit")))
                         else Ok (dict_set ps (snake_to_camel k0) v0, k0 :: pr)
                    else Ok (dict_set ps (snake_to_camel k0) (PStr (py_str v0)),
                             k0 :: pr))
                   = Ok (dict_set ps (snake_to_camel k0) w, k0 :: pr)) as [w ->].
        { destruct (is_number v0); [|eauto].
          cbn [andb] in Hv. rewrite Hv. eauto. }
        cbn [bind].
        destruct (IH (dict_set ps (snake_to_camel k0) w) (k0 :: pr) ND')
          as (ps' & pr' & Hrun & Hkeep & Hset).
        -- intros k [<-|Hk] Hin.
           ++ contradiction.
           ++ apply Hpr; [exact Hk|]. cbn. now right.
        -- intros key value Hin. apply Hok. now right.
        -- exists ps', pr'. split; [exact Hrun|]. split.
           ++ intros name Hname. rewrite Hkeep.
              ** apply dict_get_set_other. apply (Hname k0 v0); [now left|exact E0].
              ** intros key value Hin. apply (Hname key value). now right.
           ++ intros key value u t [Hin|Hin] He Hu Hf Hother.
              ** injection Hin as -> ->. unfold dict_in in Eu. rewrite Hu in Eu.
                 discriminate.
              ** apply (Hset key value u t Hin He Hu Hf).
                 intros key' value' Hin'. apply (Hother key' value'). now right.
Qed.
(* ================================================================== *)
(** * The geometry of distinct PascalCase parameters *)

Lemma emitted_cases (k : str) (v : pyval) (key : str) (value : pyval) :
  parsed_ok (k, v) -> In (key, value) (emitted (k, v)) ->
  pascal_key k = true
  /\ ((exists x u, v = unit_value x u
                   /\ ((key = snake k /\ value = PFloat x)
                       \/ (key = snake k ++ py "_unit" /\ value = PStr u)))
      \/ (is_dict v = false /\ is_number v && is_dimensional (snake k) = false
          /\ key = snake k /\ value = v)).
Proof.
  intros [Hp Hv] Hin. cbn [fst snd] in Hp, Hv. split; [exact Hp|].
  unfold emitted in Hin. destruct (str_eqb k (py "Material")); [destruct Hin|].
  destruct Hv as [(x & u & ->)|[Hd Hn]].
  - left. exists x, u. split; [reflexivity|].
    unfold unit_value in Hin.
    change (dict_get [(py "value", PFloat x); (py "unit", PStr u)] (py "value"))
      with (Some (PFloat x)) in Hin.
    change (dict_get [(py "value", PFloat x); (py "unit", PStr u)] (py "unit"))
      with (Some (PStr u)) in Hin.
    destruct Hin as [E|[E|[]]]; injection E as <- <-; auto.
  - right. destruct v; try discriminate Hd;
      (destruct Hin as [E|[]]; injection E as <- <-; auto).
Qed.

Lemma emitted_unit_value (k : str) (x : F64.t) (u : str) :
  str_eqb k (py "Material") = false ->
  emitted (k, unit_value x u)
  = [(snake k, PFloat x); (snake k ++ py "_unit", PStr u)].
Proof. intros H. unfold emitted. now rewrite H. Qed.

Section Geometry.

Variable items : dict.
Hypothesis items_nodup : NoDup (dict_keys items).
Hypothesis items_ok : Forall parsed_ok items.

Local Abbreviation G := (flat_map emitted items).

Lemma geometry_nodup : NoDup (dict_keys G).
Proof.
  apply flat_map_emitted_nodup; [exact items_nodup|].
  eapply Forall_impl; [|exact items_ok]. intros kv H. apply H.
Qed.

Lemma geometry_entry (key : str) (value : pyval) :
  In (key, value) G ->
  exists k v, In (k, v) items /\ In (key, value) (emitted (k, v)) /\ parsed_ok (k, v).
Proof.
  intros H. apply in_flat_map in H as ([k v] & Hin & He).
  exists k, v. split; [exact Hin|]. split; [exact He|].
  rewrite Forall_forall in items_ok. now apply items_ok.
Qed.

(** No turn of the loop of [smooth_to_fctb] raises on this geometry. *)
Lemma geometry_formats (key : str) (value : pyval) :
  In (key, value) G -> endswith key (py "_unit") = false ->
  if dict_in (key ++ py "_unit") G
  then exists u t, dict_get G (key ++ py "_unit") = Some u
                   /\ format_parameter_value value u = Ok t
  else is_number value && is_dimensional key = false.
Proof.
  intros Hin He.
  destruct (geometry_entry _ _ Hin) as (k & v & Hkv & Hem & Hok).
  destruct (emitted_cases _ _ Hok Hem)
    as [Hp [(x & u & -> & [[-> ->]|[-> ->]])|(Hd & Hn & -> & ->)]].
  - (* the value of a parameter with a unit *)
    assert (dict_get G (snake k ++ py "_unit") = Some (PStr u)) as Hu.
    { apply In_dict_get; [exact geometry_nodup|].
      apply in_flat_map. exists (k, unit_value x u). split; [exact Hkv|].
      destruct (str_eqb k (py "Material")) eqn:Em.
      { unfold emitted in Hem. rewrite Em in Hem. destruct Hem. }
      rewrite emitted_unit_value by exact Em. right. now left. }
    unfold dict_in. rewrite Hu. exists (PStr u). 
    unfold format_parameter_value. cbn [is_number as_float bind eq_str].
    destruct (str_eqb u degree_sign); eauto.
  - (* its unit key *)
    rewrite endswith_app in He. discriminate.
  - (* a parameter without unit *)
    destruct (dict_in (snake k ++ py "_unit") G) eqn:Eu; [|exact Hn].
    exfalso. apply dict_in_keys in Eu.
    apply flat_map_emitted_keys in Eu as (k' & v' & Hin' & Hk').
    assert (parsed_ok (k', v')) as Hok'.
    { rewrite Forall_forall in items_ok. now apply items_ok. }
    pose proof Hk' as Hk''. apply emitted_keys in Hk'' as [E|E].
    + symmetry in E. apply (snake_unit_neq k' k (proj1 Hok') E).
    + apply app_inv_tail in E. apply snake_inj in E; [|exact Hp|exact (proj1 Hok')].
      subst k'. assert (v' = v) as -> by (eapply In_key_unique; eauto).
      unfold emitted in Hk'. destruct (str_eqb k (py "Material")); [destruct Hk'|].
      assert (In (snake k ++ py "_unit") [snake k]) as [F|[]].
      { destruct v; try discriminate Hd; exact Hk'. }
      apply (f_equal (@length _)) in F. rewrite length_app in F.
      change (length (py "_unit")) with 5%nat in F. lia.
Qed.

(** A base key of the geometry is the key of a PascalCase name. *)
Lemma geometry_base_key (key : str) (value : pyval) :
  In (key, value) G -> endswith key (py "_unit") = false ->
  exists k, pascal_key k = true /\ key = snake k.
Proof.
  intros Hin He.
  destruct (geometry_entry _ _ Hin) as (k & v & Hkv & Hem & Hok).
  destruct (emitted_cases _ _ Hok Hem)
    as [Hp [(x & u & -> & [[-> ->]|[-> ->]])|(Hd & Hn & -> & ->)]]; eauto.
  rewrite endswith_app in He. discriminate.
Qed.

(** Where a parameter with a unit is in the geometry. *)
Lemma geometry_unit_value (k : str) (x : F64.t) (u : str) :
  In (k, unit_value x u) items -> str_eqb k (py "Material") = false ->
  In (snake k, PFloat x) G
  /\ dict_get G (snake k ++ py "_unit") = Some (PStr u)
  /\ endswith (snake k) (py "_unit") = false.
Proof.
  intros Hin Hm.
  assert (parsed_ok (k, unit_value x u)) as Hok.
  { rewrite Forall_forall in items_ok. now apply items_ok. }
  split; [|split].
  - apply in_flat_map. exists (k, unit_value x u). split; [exact Hin|].
    rewrite emitted_unit_value by exact Hm. now left.
  - apply In_dict_get; [exact geometry_nodup|].
    apply in_flat_map. exists (k, unit_value x u). split; [exact Hin|].
    rewrite emitted_unit_value by exact Hm. right. now left.
  - apply snake_not_unit. apply Hok.
Qed.

End Geometry.
(* ================================================================== *)
(** * The three conversions on a complete document *)

Lemma parse_fctb_dict_record (doc : dict) (version name shape shape_type : pyval)
      (params : dict) :
  dict_get doc (py "version") = Some version ->
  dict_get doc (py "name") = Some name ->
  dict_get doc (py "shape") = Some shape ->
  dict_get doc (py "shape-type") = Some shape_type ->
  dict_get doc (py "parameter") = Some (PDict params) ->
  parse_fctb_dict doc
  = Ok [ (py "version", version);
         (py "id", get_or doc (py "id") PNone);
         (py "name", name);
         (py "shape", shape);
         (py "shape_type", shape_type);
         (py "parameters", PDict (parse_parameters params));
         (py "attribute", get_or doc (py "attribute") (PDict []));
         (py "_original", PDict doc) ].
Proof.
  intros Hv Hn Hs Ht Hp. unfold parse_fctb_dict.
  assert (missing_fields fctb_required_fields doc = []) as ->.
  { apply missing_fields_nil. intros f Hf. unfold dict_in.
    destruct Hf as [<-|[<-|[<-|[<-|[<-|[]]]]]];
      [rewrite Hv|rewrite Hn|rewrite Hs|rewrite Ht|rewrite Hp]; reflexivity. }
  unfold dict_item. rewrite Hv, Hn, Hs, Ht, Hp. reflexivity.
Qed.

Lemma fctb_to_smooth_record (tool items geometry : dict)
      (version name shape shape_type : pyval) :
  dict_get tool (py "parameters") = Some (PDict items) ->
  for_each items geometry_step [] = Ok geometry ->
  dict_get tool (py "version") = Some version ->
  dict_get tool (py "name") = Some name ->
  dict_get tool (py "shape") = Some shape ->
  dict_get tool (py "shape_type") = Some shape_type ->
  is_hashable shape_type = true ->
  exists type material shape_data,
    fctb_to_smooth tool
    = Ok [ (py "type", type);
           (py "description", name);
           (py "geometry", PDict geometry);
           (py "material", material);
           (py "shape_data", shape_data);
           (py "freecad_metadata",
             PDict [ (py "shape", shape);
                     (py "shape_type", shape_type);
                     (py "id", get_or tool (py "id") PNone);
                     (py "version", version) ]) ]
    /\ (is_dict material = true \/ material = PNone)
    /\ (truthy shape = false -> shape_data = PNone).
Proof.
  intros Hp Hloop Hv Hn Hs Ht Hh.
  unfold fctb_to_smooth, dict_item. rewrite Hp, Hv, Hn, Hs, Ht.
  cbn [bind py_items]. rewrite Hloop. cbn [bind].
  unfold map_shape_type, table_get. rewrite Hh.
  destruct (truthy shape) eqn:Es; cbn [bind];
    (do 3 eexists; split; [reflexivity|]; split;
     [destruct (dict_get items (py "Material")); cbn; auto|]);
    [discriminate|reflexivity].
Qed.

(** The parameters after the loop: only the material is written after it. *)
Lemma build_parameters_get (geometry parameters : dict) (processed : list str)
      (material : pyval) :
  for_each geometry (parameter_step geometry) ([], []) = Ok (parameters, processed) ->
  is_dict material = true ->
  exists ps, build_parameters (PDict geometry) material = Ok ps
             /\ forall key, str_eqb key (py "Material") = false ->
                            dict_get ps key = dict_get parameters key.
Proof.
  intros Hloop Hm. unfold build_parameters. cbn [py_items bind].
  rewrite Hloop. cbn [bind fst].
  destruct material as [| | | | | |d]; try discriminate Hm.
  cbn [py_get bind py_item]. unfold dict_item.
  destruct (dict_get d (py "type")) as [x|] eqn:Ed.
  - destruct (truthy x).
    + cbn [bind]. eexists. split; [reflexivity|]. intros key Hk.
      apply dict_get_set_other. intros E. subst key.
      rewrite str_eqb_refl in Hk. discriminate.
    + eexists. split; [reflexivity|]. reflexivity.
  - cbn [truthy]. eexists. split; [reflexivity|]. reflexivity.
Qed.

Lemma resolve_shape_file_metadata (md : dict) (shape_data shape : pyval)
      (default_shape : str) :
  dict_get md (py "shape") = Some shape ->
  (truthy shape = false -> truthy shape_data = false) ->
  resolve_shape_file (PDict md) shape_data default_shape
  = Ok (if truthy shape then shape else PStr (default_shape ++ py ".fcstd")).
Proof.
  intros Hs Hd. unfold resolve_shape_file. cbn [py_get]. rewrite Hs. cbn [bind].
  destruct (truthy shape) eqn:Es.
  - cbn [negb andb bind]. rewrite Es. reflexivity.
  - rewrite (Hd eq_refl). cbn [negb andb bind]. rewrite Es. reflexivity.
Qed.

Lemma smooth_to_fctb_record (type name material shape_data shape shape_type id version
                             : pyval)
      (geometry parameters : dict) (default_shape : str) :
  build_parameters (PDict geometry) (py_or material (PDict [])) = Ok parameters ->
  (truthy shape = false -> shape_data = PNone) ->
  smooth_to_fctb
    [ (py "type", type);
      (py "description", name);
      (py "geometry", PDict geometry);
      (py "material", material);
      (py "shape_data", shape_data);
      (py "freecad_metadata",
        PDict [ (py "shape", shape);
                (py "shape_type", shape_type);
                (py "id", id);
                (py "version", version) ]) ]
    default_shape
  = Ok [ (py "version", version);
         (py "name", name);
         (py "shape",
           if truthy shape then shape else PStr (default_shape ++ py ".fcstd"));
         (py "shape-type", shape_type);
         (py "parameter", PDict parameters);
         (py "attribute", PDict []);
         (py "id", id) ].
Proof.
  intros Hb Hd.
  set (md := [ (py "shape", shape); (py "shape_type", shape_type);
               (py "id", id); (py "version", version) ]).
  set (tool := [ (py "type", type); (py "description", name);
                 (py "geometry", PDict geometry); (py "material", material);
                 (py "shape_data", shape_data); (py "freecad_metadata", PDict md) ]).
  unfold smooth_to_fctb. cbv zeta.
  change (get_or tool (py "geometry") (PDict [])) with (PDict geometry).
  change (get_or tool (py "material") PNone) with material.
  change (py_or (get_or tool (py "freecad_metadata") PNone) (PDict []))
    with (PDict md).
  change (get_or tool (py "shape_data") PNone) with shape_data.
  change (get_or tool (py "description") (PStr (py "Unnamed Tool"))) with name.
  rewrite Hb. cbn [bind].
  change (resolve_shape_type tool (PDict md)) with (Ok shape_type). cbn [bind].
  rewrite (@resolve_shape_file_metadata md (py_or shape_data (PDict [])) shape
             default_shape eq_refl).
  2:{ intros Es. rewrite (Hd Es). reflexivity. }
  cbn [bind]. reflexivity.
Qed.
(* ================================================================== *)
(** * C1: the round trip of a tool bit document *)

(** C1, the claim as stated fails: a dimensional parameter comes back in
    the format of the exporter, two decimals and no space before the degree
    sign, whatever the document had; an empty shape comes back as the
    default shape file. *)
Lemma round_trip_reformats :
  dict_get vbit_as_written (py "shape") = Some (PStr [])
  /\ dict_get vbit_as_written (py "parameter")
     = Some (PDict [ (py "Diameter", PStr (py "6 mm"));
                     (py "CuttingEdgeAngle", PStr (py "60.0000 " ++ degree_sign)) ])
  /\ round_trip vbit_as_written (py "endmill")
     = Ok [ (py "version", PInt 2);
            (py "name", PStr (py "60 degree V-Bit"));
            (py "shape", PStr (py "endmill.fcstd"));
            (py "shape-type", PStr (py "VBit"));
            (py "parameter",
              PDict [ (py "Diameter", PStr (py "6.00 mm"));
                      (py "CuttingEdgeAngle", PStr (py "60.00" ++ degree_sign)) ]);
            (py "attribute", PDict []);
            (py "id", PNone) ].
Proof. repeat split; vm_compute; reflexivity. Qed.

(** C1 (amended): for a tool bit document with the five required keys, a
    hashable shape-type and a [parameter] mapping whose names are distinct
    PascalCase words not ending in "Unit", with no mapping as a value and no
    bare number under a dimensional name, the round trip through
    [parse_fctb_dict], [fctb_to_smooth] and [smooth_to_fctb] returns a tool
    bit with the version, the name and the shape-type of the document, with
    its shape when that is not empty (the default shape file otherwise), and
    in which every parameter other than Material that the document wrote as
    the exporter writes it (two decimals, one space and the unit, or the
    degree sign with no space) has that very string. *)
Theorem round_trip_preserves (doc : dict) (default_shape : str)
        (version name shape shape_type : pyval) (params : dict) :
  dict_get doc (py "version") = Some version ->
  dict_get doc (py "name") = Some name ->
  dict_get doc (py "shape") = Some shape ->
  dict_get doc (py "shape-type") = Some shape_type ->
  dict_get doc (py "parameter") = Some (PDict params) ->
  is_hashable shape_type = true ->
  NoDup (dict_keys params) ->
  forallb plain_parameter params = true ->
  exists fctb parameter,
    round_trip doc default_shape = Ok fctb
    /\ dict_get fctb (py "version") = Some version
    /\ dict_get fctb (py "name") = Some name
    /\ dict_get fctb (py "shape-type") = Some shape_type
    /\ dict_get fctb (py "shape")
       = Some (if truthy shape then shape else PStr (default_shape ++ py ".fcstd"))
    /\ dict_get fctb (py "parameter") = Some (PDict parameter)
    /\ forall key neg n unit,
         dict_get params key = Some (PStr (canonical_text neg n unit)) ->
         (0 <= n < 10 ^ 15)%Z -> clean_unit unit = true ->
         str_eqb key (py "Material") = false ->
         dict_get parameter key = Some (PStr (canonical_text neg n unit)).
Proof.
  intros Hv Hn Hs Ht Hp Hh Hnd Hpl.
  pose proof (@parsed_ok_all params Hpl) as Hok.
  assert (NoDup (dict_keys (parsed params))) as Hnd'
    by (rewrite parsed_keys; exact Hnd).
  pose proof (@geometry_nodup (parsed params) Hnd' Hok) as HG.
  pose proof (@geometry_loop (parsed params) [] Hok HG) as Hloop1.
  cbn [app] in Hloop1.
  set (G := flat_map emitted (parsed params)) in *.
  (* the parsed record *)
  pose proof (@parse_fctb_dict_record doc version name shape shape_type params
                Hv Hn Hs Ht Hp) as Hparse.
  rewrite (@parse_parameters_map params Hnd) in Hparse. fold (parsed params) in Hparse.
  (* the exchange item *)
  match type of Hparse with _ = Ok ?t => set (tool := t) in * end.
  destruct (@fctb_to_smooth_record tool (parsed params) G version name shape shape_type
              eq_refl Hloop1 eq_refl eq_refl eq_refl eq_refl Hh)
    as (type & material & shape_data & Hsmooth & Hmat & Hsd).
  (* the parameters of the tool bit *)
  destruct (@parameter_loop G G [] [] HG) as (ps' & pr' & Hfor & _ & Hset).
  { intros k []. }
  { intros key value. apply (@geometry_formats (parsed params) Hnd' Hok). }
  destruct (@build_parameters_get G ps' pr' (py_or material (PDict [])) Hfor)
    as (ps & Hb & Hget).
  { destruct Hmat as [Hm| ->]; [|reflexivity].
    unfold py_or. destruct (truthy material); [exact Hm|reflexivity]. }
  pose proof (@smooth_to_fctb_record type name material shape_data shape shape_type
                (get_or tool (py "id") PNone) version G ps default_shape Hb Hsd)
    as Hback.
  eexists. exists ps. split.
  { unfold round_trip. rewrite Hparse. cbn [bind]. rewrite Hsmooth. cbn [bind].
    exact Hback. }
  do 5 (split; [reflexivity|]).
  intros key neg n unit Hk Hrange Hclean Hmaterial.
  rewrite (Hget key Hmaterial).
  apply dict_get_In in Hk.
  assert (pascal_key key = true) as Hpk.
  { rewrite forallb_forall in Hpl. specialize (Hpl _ Hk).
    unfold plain_parameter in Hpl. cbn [fst] in Hpl.
    apply andb_true_iff in Hpl as [Hpl _]. apply andb_true_iff in Hpl as [Hpl _].
    exact Hpl. }
  assert (In (key, parse_parameter_value (PStr (canonical_text neg n unit)))
             (parsed params)) as Hin.
  { unfold parsed.
    apply (in_map (fun kv : str * pyval => (fst kv, parse_parameter_value (snd kv)))
                  _ _ Hk). }
  rewrite parse_canonical_text in Hin by (lia || exact Hclean).
  destruct (@geometry_unit_value (parsed params) Hnd' Hok _ _ _ Hin Hmaterial) as (Hbase & Hunit & He).
  fold G in Hbase, Hunit.
  rewrite <- (@snake_to_camel_snake key Hpk) at 1.
  apply (Hset (snake key) _ (PStr unit) _ Hbase He Hunit).
  - apply format_parsed_canonical. exact Hrange.
  - intros key' value' Hin' He' Hne.
    destruct (@geometry_base_key (parsed params) Hok _ _ Hin' He') as (k' & Hpk' & ->).
    rewrite !snake_to_camel_snake by assumption.
    intros ->. now apply Hne.
Qed.

Lemma round_trip_preserves_witness :
  exists fctb parameter,
    round_trip endmill_bit (py "endmill") = Ok fctb
    /\ dict_get fctb (py "version") = Some (PInt 2)
    /\ dict_get fctb (py "name") = Some (PStr (py "6mm 4-Flute Endmill"))
    /\ dict_get fctb (py "shape-type") = Some (PStr (py "Endmill"))
    /\ dict_get fctb (py "shape") = Some (PStr (py "endmill.fcstd"))
    /\ dict_get fctb (py "parameter") = Some (PDict parameter)
    /\ dict_get parameter (py "Diameter") = Some (PStr (py "6.00 mm"))
    /\ dict_get parameter (py "Length") = Some (PStr (py "50.00 mm"))
    /\ dict_get parameter (py "ShankDiameter") = Some (PStr (py "6.00 mm")).
Proof.
  destruct (@round_trip_preserves endmill_bit (py "endmill")
              (PInt 2) (PStr (py "6mm 4-Flute Endmill")) (PStr (py "endmill.fcstd"))
              (PStr (py "Endmill"))
              [ (py "Diameter", PStr (py "6.00 mm"));
                (py "Length", PStr (py "50.00 mm"));
                (py "Flutes", PInt 4);
                (py "Material", PStr (py "HSS"));
                (py "ShankDiameter", PStr (py "6.00 mm")) ]
              eq_refl eq_refl eq_refl eq_refl eq_refl eq_refl)
    as (fctb & parameter & Hrun & Hv & Hn & Ht & Hs & Hp & Hkeep).
  - repeat (apply NoDup_cons; [vm_compute; intuition discriminate|]). apply NoDup_nil.
  - reflexivity.
  - exists fctb, parameter.
    repeat (split; [assumption|]). split; [|split].
    + apply (Hkeep (py "Diameter") false 600%Z (py "mm")); [reflexivity|lia|reflexivity..].
    + apply (Hkeep (py "Length") false 5000%Z (py "mm")); [reflexivity|lia|reflexivity..].
    + apply (Hkeep (py "ShankDiameter") false 600%Z (py "mm"));
        [reflexivity|lia|reflexivity..].
Defined.
(* ================================================================== *)
(** * Names and shape types, both ways *)

(** A parameter name made of ASCII letters, the first one a capital, comes
    back from its geometry key: [snake_to_camel] undoes the transliteration
    of [fctb_to_smooth]. *)
Theorem parameter_name_round_trip (c : char) (rest : str) :
  is_upper c = true -> forallb is_cased rest = true ->
  exists key, snake_key (c :: rest) = Ok key /\ snake_to_camel key = c :: rest.
Proof.
  intros Hc Hr. exists (lower (underscore_capitals true (c :: rest))).
  split; [apply snake_key_eq|].
  rewrite snake_to_camel_eq.
  cbn [underscore_capitals negb]. rewrite andb_false_r.
  cbn [app lower map camel_from].
  destruct (lower_char_upper_facts _ Hc) as [E1 E2]. rewrite E1, E2.
  rewrite upper_lower_char by exact Hc.
  f_equal. now apply camel_from_snake.
Qed.

Lemma parameter_name_round_trip_witness :
  exists key, snake_key (py "CuttingEdgeHeight") = Ok key
              /\ snake_to_camel key = py "CuttingEdgeHeight".
Proof.
  apply (@parameter_name_round_trip 67%N (py "uttingEdgeHeight")); reflexivity.
Defined.

Lemma is_lower_facts (c : char) :
  is_lower c = true ->
  N.eqb c 95 = false /\ is_upper c = false /\ is_cased c = true
  /\ lower_char c = c /\ is_upper (upper_char c) = true
  /\ lower_char (upper_char c) = c.
Proof.
  intros H.
  assert (97 <= c < 97 + 26)%N as R.
  { unfold is_lower in H. apply andb_true_iff in H as [H1 H2].
    apply N.leb_le in H1, H2. lia. }
  pose proof (@N_range_check
                (fun c => negb (N.eqb c 95) && negb (is_upper c) && is_cased c
                          && N.eqb (lower_char c) c && is_upper (upper_char c)
                          && N.eqb (lower_char (upper_char c)) c)
                97 26 eq_refl c R) as P.
  cbv beta in P.
  repeat (apply andb_true_iff in P as [P ?]).
  repeat match goal with
         | H : negb _ = true |- _ => apply negb_true_iff in H
         | H : N.eqb _ _ = true |- _ => apply N.eqb_eq in H
         end.
  auto 10.
Qed.

Lemma snake_tail_camel (s : str) :
  snake_tail s = true ->
  lower (underscore_capitals false (camel_from true s)) = s.
Proof.
  induction s as [|c s IH]; intros H; [reflexivity|].
  cbn [snake_tail] in H.
  destruct (N.eqb c 95) eqn:Ec.
  - apply N.eqb_eq in Ec. subst c.
    apply andb_true_iff in H as [Hd H].
    destruct s as [|d s]; [discriminate|].
    specialize (IH H).
    destruct (is_lower_facts d Hd) as (E1 & E2 & E3 & E4 & E5 & E6).
    change (camel_from true (95%N :: d :: s)) with (camel_from false (d :: s)).
    cbn [camel_from] in IH |- *. rewrite E1, E3 in *.
    cbn [underscore_capitals negb] in IH |- *.
    rewrite E4, E2 in IH. rewrite E5.
    cbn [andb app lower map] in IH |- *.
    change (py "_") with [95%N]. cbn [app map].
    rewrite E6. change (lower_char 95%N) with 95%N.
    injection IH as _ IH. now rewrite IH.
  - apply andb_true_iff in H as [Hc H].
    destruct (is_lower_facts c Hc) as (E1 & E2 & E3 & E4 & E5 & E6).
    cbn [camel_from]. rewrite E1, E3. cbn [underscore_capitals]. rewrite E4, E2.
    cbn [andb app lower map]. rewrite E4. f_equal. now apply IH.
Qed.

(** The other way round: a geometry key in snake_case (words of ASCII
    lower-case letters joined by single underscores) comes back from the
    parameter name [snake_to_camel] gives it. *)
Theorem geometry_key_round_trip (key : str) :
  snake_case key = true -> snake_key (snake_to_camel key) = Ok key.
Proof.
  destruct key as [|c rest]; [discriminate|]. cbn [snake_case].
  intros H. apply andb_true_iff in H as [Hc Hr].
  destruct (is_lower_facts c Hc) as (E1 & E2 & E3 & E4 & E5 & E6).
  rewrite snake_to_camel_eq. cbn [camel_from]. rewrite E1, E3.
  rewrite snake_key_eq. cbn [underscore_capitals negb]. rewrite andb_false_r.
  cbn [app lower map]. rewrite E6. do 2 f_equal. now apply snake_tail_camel.
Qed.

Lemma geometry_key_round_trip_witness :
  snake_key (snake_to_camel (py "cutting_edge_height")) = Ok (py "cutting_edge_height").
Proof. apply geometry_key_round_trip. reflexivity. Defined.

(** A shape type that goes to the exchange type and back comes back as
    "Probe" when it was "Probe" and as "Endmill" in every other case: of
    the eleven shape types of the table only these two survive. *)
Theorem shape_type_survivors (shape_type : pyval) :
  is_hashable shape_type = true ->
  (type <- map_shape_type shape_type ;; reverse_map_shape_type type)
  = Ok (PStr (if eq_str shape_type (py "Probe") then py "Probe" else py "Endmill")).
Proof.
  intros Hh. unfold map_shape_type, table_get.
  rewrite Hh. cbn [bind].
  destruct shape_type as [| | | |s| |]; try discriminate Hh; try reflexivity.
  cbn [eq_str]. unfold shape_type_map. cbn [find fst snd eq_str].
  repeat match goal with
         | |- context [if str_eqb s ?k then _ else _] =>
             let E := fresh "E" in
             destruct (str_eqb s k) eqn:E;
             [apply str_eqb_eq in E; subst s; reflexivity|]
         end.
  reflexivity.
Qed.

Lemma shape_type_survivors_witness :
  (type <- map_shape_type (PStr (py "Drill")) ;; reverse_map_shape_type type)
  = Ok (PStr (py "Endmill")).
Proof. apply (@shape_type_survivors (PStr (py "Drill"))). reflexivity. Defined.
(* ================================================================== *)
(** * Export and import of one value *)

Lemma format_2f_finite (x : F64.t) :
  F64.is_finite x = true ->
  exists neg n, (0 <= n)%Z /\ F64.format_2f x = F64.sign_str neg ++ F64.fixed2 n.
Proof.
  destruct x as [s|s| |s m e]; try discriminate; intros _.
  - exists s, 0%Z. split; [lia|reflexivity].
  - exists s, (F64.scaled_round (Z.pos m) e 2). split; [|reflexivity].
    apply scaled_round_nonneg; lia.
Qed.

Lemma format_float_canonical (x : F64.t) (unit : str) (neg : bool) (n : Z) :
  F64.format_2f x = F64.sign_str neg ++ F64.fixed2 n ->
  format_parameter_value (PFloat x) (PStr unit) = Ok (canonical_text neg n unit).
Proof.
  intros E. unfold format_parameter_value, canonical_text, unit_separator.
  cbn [is_number as_float bind eq_str py_str]. rewrite E.
  destruct (str_eqb unit degree_sign) eqn:Eu.
  - apply str_eqb_eq in Eu. subst. now rewrite <- app_assoc.
  - now rewrite <- !app_assoc.
Qed.

(** What [format_parameter_value] writes for a finite float and a unit,
    [parse_parameter_value] reads as a value with that unit: the unit comes
    back as it was, the value is the float of the two-decimal text.  The
    unit is one the parser keeps: no white space at its ends, no newline,
    and an "m", a degree sign, "in" or "deg" in it. *)
Theorem parse_formatted_value (x : F64.t) (unit : str) :
  F64.is_finite x = true -> clean_unit unit = true ->
  exists text,
    format_parameter_value (PFloat x) (PStr unit) = Ok text
    /\ parse_parameter_value (PStr text)
       = unit_value (F64.of_str (F64.format_2f x)) unit.
Proof.
  intros Hx Hu. destruct (format_2f_finite x Hx) as (neg & n & Hn & E).
  exists (canonical_text neg n unit). split.
  - now apply format_float_canonical.
  - rewrite E. now apply parse_canonical_text.
Qed.

Lemma parse_formatted_value_witness :
  exists text,
    format_parameter_value (PFloat (F64.of_str (py "0.125"))) (PStr (py "mm")) = Ok text
    /\ parse_parameter_value (PStr text)
       = unit_value (F64.of_str (F64.format_2f (F64.of_str (py "0.125")))) (py "mm").
Proof.
  apply (@parse_formatted_value (F64.of_str (py "0.125")) (py "mm")); reflexivity.
Defined.



(* ================================================================== *)
(** * The round trip of the other parameters *)

(** The loop of [smooth_to_fctb] on a base key without unit: the value as
    it is when it is a number, its text otherwise. *)
Lemma parameter_loop_plain (G : dict) (todo : dict) :
  forall (ps : dict) (pr : list str),
    NoDup (dict_keys todo) ->
    (forall k, In k pr -> In k (dict_keys todo) -> endswith k (py "_unit") = true) ->
    (forall key value,
        In (key, value) todo -> endswith key (py "_unit") = false ->
        if dict_in (key ++ py "_unit") G
        then exists u t, dict_get G (key ++ py "_unit") = Some u
                         /\ format_parameter_value value u = Ok t
        else is_number value && is_dimensional key = false) ->
    exists ps' pr',
      for_each todo (parameter_step G) (ps, pr) = Ok (ps', pr')
      /\ (forall key value,
             In (key, value) todo -> endswith key (py "_unit") = false ->
             dict_in (key ++ py "_unit") G = false ->
             (forall key' value', In (key', value') todo ->
                                  endswith key' (py "_unit") = false ->
                                  key' <> key ->
                                  snake_to_camel key' <> snake_to_camel key) ->
             dict_get ps' (snake_to_camel key)
             = Some (if is_number value then value else PStr (py_str value))).
Proof.
  induction todo as [|[k0 v0] todo IH]; intros ps pr ND Hpr Hok.
  - exists ps, pr. split; [reflexivity|]. intros key value [].
  - cbn [dict_keys map fst] in ND. inversion ND as [|? ? Hk0 ND']; subst.
    fold (dict_keys todo) in Hk0, ND'.
    cbn [for_each].
    assert (forall key value, In (key, value) todo ->
              endswith key (py "_unit") = false ->
              if dict_in (key ++ py "_unit") G
              then exists u t, dict_get G (key ++ py "_unit") = Some u
                               /\ format_parameter_value value u = Ok t
              else is_number value && is_dimensional key = false) as Hok'.
    { intros key value Hin. apply Hok. now right. }
    destruct (endswith k0 (py "_unit")) eqn:E0.
    + assert (parameter_step G (ps, pr) (k0, v0) = Ok (ps, pr)) as ->.
      { unfold parameter_step. now rewrite E0. }
      cbn [bind].
      destruct (IH ps pr ND') as (ps' & pr' & Hrun & Hset); [|exact Hok'|].
      * intros k Hk Hin. apply Hpr; [exact Hk|]. cbn. now right.
      * exists ps', pr'. split; [exact Hrun|].
        intros key value [Hin|Hin] He Hu Hother.
        -- injection Hin as -> ->. congruence.
        -- apply (Hset key value Hin He Hu).
           intros key' value' Hin'. apply (Hother key' value'). now right.
    + assert (~ In k0 pr) as Hnp.
      { intros Hin. specialize (Hpr k0 Hin). cbn in Hpr.
        rewrite Hpr in E0; [discriminate|now left]. }
      rewrite (@parameter_step_base G ps pr k0 v0 E0 Hnp).
      pose proof (Hok k0 v0 (or_introl eq_refl) E0) as Hv.
      destruct (dict_in (k0 ++ py "_unit") G) eqn:Eu.
      * destruct Hv as (u0 & t0 & Hu0 & Hf0).
        unfold dict_item. rewrite Hu0. cbn [bind]. rewrite Hf0. cbn [bind].
        destruct (IH (dict_set ps (snake_to_camel k0) (PStr t0))
                     ((k0 ++ py "_unit") :: k0 :: pr) ND')
          as (ps' & pr' & Hrun & Hset); [|exact Hok'|].
        -- intros k [<-|[<-|Hk]] Hin.
           ++ apply endswith_app.
           ++ contradiction.
           ++ apply Hpr; [exact Hk|]. cbn. now right.
        -- exists ps', pr'. split; [exact Hrun|].
           intros key value [Hin|Hin] He Hu Hother.
           ++ injection Hin as -> ->. congruence.
           ++ apply (Hset key value Hin He Hu).
              intros key' value' Hin'. apply (Hother key' value'). now right.
      * set (w := if is_number v0 then v0 else PStr (py_str v0)).
        assert ((if is_number v0
                 then if is_dimensional k0
                      then Raise (ValueError
                                    (missing_unit_message k0 (k0 ++ py "_unit")))
                      else Ok (dict_set ps (snake_to_camel k0) v0, k0 :: pr)
                 else Ok (dict_set ps (snake_to_camel k0) (PStr (py_str v0)),
                          k0 :: pr))
                = Ok (dict_set ps (snake_to_camel k0) w, k0 :: pr)) as ->.
        { unfold w. destruct (is_number v0); [|reflexivity].
          cbn [andb] in Hv. now rewrite Hv. }
        cbn [bind].
        assert (forall k, In k (k0 :: pr) -> In k (dict_keys todo) ->
                          endswith k (py "_unit") = true) as Hpr'.
        { intros k [<-|Hk] Hin.
          - contradiction.
          - apply Hpr; [exact Hk|]. cbn. now right. }
        destruct (IH (dict_set ps (snake_to_camel k0) w) (k0 :: pr) ND' Hpr' Hok')
          as (ps' & pr' & Hrun & Hset).
        exists ps', pr'. split; [exact Hrun|].
        intros key value [Hin|Hin] He Hu Hother.
        -- injection Hin as -> ->.
           destruct (@parameter_loop G todo (dict_set ps (snake_to_camel key) w)
                       (key :: pr) ND' Hpr' Hok')
             as (ps2 & pr2 & Hrun2 & Hkeep & _).
           rewrite Hrun in Hrun2. injection Hrun2 as <- <-.
           rewrite Hkeep.
           ++ apply dict_get_set_same.
           ++ intros key' value' Hin' He'. apply (Hother key' value'); auto.
              ** now right.
              ** intros ->. apply Hk0. apply (in_map fst) in Hin'. exact Hin'.
        -- apply (Hset key value Hin He Hu).
           intros key' value' Hin'. apply (Hother key' value'). now right.
Qed.

Lemma dict_get_parsed (params : dict) (key : str) :
  dict_get (parsed params) key
  = match dict_get params key with
    | Some v => Some (parse_parameter_value v)
    | None => None
    end.
Proof.
  induction params as [|[k v] params IH]; [reflexivity|].
  cbn [parsed map fst snd dict_get]. fold (parsed params).
  destruct (str_eqb k key); [reflexivity|exact IH].
Qed.

(** A base key of the geometry comes from a PascalCase name other than
    Material. *)
Lemma geometry_base_name (items : dict) (key : str) (value : pyval) :
  Forall parsed_ok items ->
  In (key, value) (flat_map emitted items) -> endswith key (py "_unit") = false ->
  exists k, pascal_key k = true /\ str_eqb k (py "Material") = false /\ key = snake k.
Proof.
  intros Hok Hin He.
  destruct (@geometry_entry items Hok key value Hin) as (k & v & Hkv & Hem & Hp).
  assert (str_eqb k (py "Material") = false) as Hm.
  { destruct (str_eqb k (py "Material")) eqn:E; [|reflexivity].
    unfold emitted in Hem. rewrite E in Hem. destruct Hem. }
  destruct (emitted_cases _ _ Hp Hem)
    as [Hpk [(x & u & -> & [[-> ->]|[-> ->]])|(Hd & Hn & -> & ->)]]; eauto.
  rewrite endswith_app in He. discriminate.
Qed.

(** Where a parameter that is not a mapping is in the geometry: under its
    key, with no unit beside it. *)
Lemma geometry_plain_value (items : dict) (k : str) (v : pyval) :
  NoDup (dict_keys items) -> Forall parsed_ok items ->
  In (k, v) items -> str_eqb k (py "Material") = false -> is_dict v = false ->
  In (snake k, v) (flat_map emitted items)
  /\ dict_in (snake k ++ py "_unit") (flat_map emitted items) = false
  /\ endswith (snake k) (py "_unit") = false.
Proof.
  intros Hnd Hok Hin Hm Hd.
  assert (parsed_ok (k, v)) as Hp.
  { rewrite Forall_forall in Hok. now apply Hok. }
  assert (emitted (k, v) = [(snake k, v)]) as Hem.
  { unfold emitted. rewrite Hm. destruct v; try reflexivity. discriminate. }
  split; [|split].
  - apply in_flat_map. exists (k, v). split; [exact Hin|]. rewrite Hem. now left.
  - destruct (dict_in (snake k ++ py "_unit") (flat_map emitted items)) eqn:Eu;
      [|reflexivity].
    exfalso. apply dict_in_keys in Eu.
    apply flat_map_emitted_keys in Eu as (k' & v' & Hin' & Hk').
    assert (parsed_ok (k', v')) as Hok'.
    { rewrite Forall_forall in Hok. now apply Hok. }
    pose proof Hk' as Hk''. apply emitted_keys in Hk'' as [E|E].
    + symmetry in E. apply (@snake_unit_neq k' k (proj1 Hok') E).
    + apply app_inv_tail in E. apply snake_inj in E; [|apply Hp|apply Hok'].
      subst k'. assert (v' = v) as -> by (eapply In_key_unique; eauto).
      rewrite Hem in Hk'. destruct Hk' as [F|[]]. cbn [fst] in F.
      apply (f_equal (@length _)) in F. rewrite length_app in F.
      change (length (py "_unit")) with 5%nat in F. lia.
  - apply snake_not_unit. apply Hp.
Qed.

(** The round trip of a document with distinct PascalCase parameter names,
    step by step: the tool bit it returns, the loop over the geometry that
    gave its parameters, and the Material written after the loop. *)
Lemma round_trip_run (doc : dict) (default_shape : str)
      (version name shape shape_type : pyval) (params : dict) :
  dict_get doc (py "version") = Some version ->
  dict_get doc (py "name") = Some name ->
  dict_get doc (py "shape") = Some shape ->
  dict_get doc (py "shape-type") = Some shape_type ->
  dict_get doc (py "parameter") = Some (PDict params) ->
  is_hashable shape_type = true ->
  NoDup (dict_keys params) ->
  forallb plain_parameter params = true ->
  let G := flat_map emitted (parsed params) in
  exists ps pr,
    for_each G (parameter_step G) ([], []) = Ok (ps, pr)
    /\ round_trip doc default_shape
       = Ok [ (py "version", version);
              (py "name", name);
              (py "shape",
                if truthy shape then shape else PStr (default_shape ++ py ".fcstd"));
              (py "shape-type", shape_type);
              (py "parameter",
                PDict match dict_get params (py "Material") with
                      | Some v => if truthy (parse_parameter_value v)
                                  then dict_set ps (py "Material") (parse_parameter_value v)
                                  else ps
                      | None => ps
                      end);
              (py "attribute", PDict []);
              (py "id", get_or doc (py "id") PNone) ].
Proof.
  intros Hv Hn Hs Ht Hp Hh Hnd Hpl G.
  pose proof (@parsed_ok_all params Hpl) as Hok.
  assert (NoDup (dict_keys (parsed params))) as Hnd'
    by (rewrite parsed_keys; exact Hnd).
  pose proof (@geometry_nodup (parsed params) Hnd' Hok) as HG.
  pose proof (@geometry_loop (parsed params) [] Hok HG) as Hloop1.
  cbn [app] in Hloop1. fold G in HG, Hloop1.
  destruct (@parameter_loop G G [] [] HG) as (ps & pr & Hfor & _).
  { intros k []. }
  { intros key value. apply (@geometry_formats (parsed params) Hnd' Hok). }
  exists ps, pr. split; [exact Hfor|].
  clearbody G. unfold round_trip.
  rewrite (@parse_fctb_dict_record doc version name shape shape_type params
             Hv Hn Hs Ht Hp).
  rewrite (@parse_parameters_map params Hnd). fold (parsed params).
  cbn [bind].
  match goal with
  | |- (smooth_tool <- fctb_to_smooth ?t ;; _) = _ => set (tool := t)
  end.
  unfold fctb_to_smooth.
  change (dict_item tool (py "parameters")) with (Ok (PDict (parsed params))).
  change (dict_item tool (py "shape")) with (Ok shape).
  change (dict_item tool (py "shape_type")) with (Ok shape_type).
  change (dict_item tool (py "name")) with (Ok name).
  change (dict_item tool (py "version")) with (Ok version).
  change (dict_get tool (py "shape")) with (Some shape).
  change (dict_get tool (py "id")) with (Some (get_or doc (py "id") PNone)).
  cbn [bind py_items]. rewrite Hloop1. cbn [bind].
  unfold map_shape_type, table_get. rewrite Hh.
  rewrite dict_get_parsed.
  assert (forall sd material x,
             (truthy shape = false -> sd = PNone) ->
             build_parameters (PDict G) (py_or material (PDict [])) = Ok x ->
             smooth_to_fctb
               [ (py "type",
                   PStr match find (fun kv => eq_str shape_type (fst kv)) shape_type_map with
                        | Some kv => snd kv
                        | None => py "cutting_tool"
                        end);
                 (py "description", name);
                 (py "geometry", PDict G);
                 (py "material", material);
                 (py "shape_data", sd);
                 (py "freecad_metadata",
                   PDict [ (py "shape", shape); (py "shape_type", shape_type);
                           (py "id", get_or doc (py "id") PNone);
                           (py "version", version) ]) ] default_shape
             = Ok [ (py "version", version); (py "name", name);
                    (py "shape",
                      if truthy shape then shape
                      else PStr (default_shape ++ py ".fcstd"));
                    (py "shape-type", shape_type);
                    (py "parameter", PDict x);
                    (py "attribute", PDict []);
                    (py "id", get_or doc (py "id") PNone) ]) as Hback.
  { intros sd material x Hsd Hb. now apply smooth_to_fctb_record. }
  assert (forall material,
             is_dict material = true ->
             build_parameters (PDict G) material
             = Ok match py_get material (py "type") PNone with
                  | Ok t => if truthy t then dict_set ps (py "Material") t else ps
                  | Raise _ => ps
                  end) as Hbuild.
  { intros material Hm. unfold build_parameters. cbn [py_items bind].
    match goal with
    | |- context [for_each G (parameter_step G) ?i] =>
        assert (for_each G (parameter_step G) i = Ok (ps, pr)) as -> by exact Hfor
    end.
    cbn [bind fst].
    destruct material as [| | | | | |d]; try discriminate Hm.
    cbn [py_get bind py_item]. unfold dict_item.
    destruct (dict_get d (py "type")) as [t|]; [|reflexivity].
    destruct (truthy t); reflexivity. }
  destruct (dict_get params (py "Material")) as [v|] eqn:Em.
  - destruct (truthy shape) eqn:Es; cbn [bind];
      (apply Hback; [intros; try discriminate; reflexivity|]);
      change (py_or (if truthy (PDict [(py "type", parse_parameter_value v)])
                     then PDict [(py "type", parse_parameter_value v)] else PNone)
                    (PDict []))
        with (PDict [(py "type", parse_parameter_value v)]);
      rewrite Hbuild by reflexivity; reflexivity.
  - destruct (truthy shape) eqn:Es; cbn [bind];
      (apply Hback; [intros; try discriminate; reflexivity|]);
      change (py_or (if truthy (PDict []) then PDict [] else PNone) (PDict []))
        with (PDict []);
      rewrite Hbuild by reflexivity; reflexivity.
Qed.

Lemma dict_get_material (ps : dict) (m : option pyval) (key : str) :
  str_eqb key (py "Material") = false ->
  dict_get match m with
           | Some v => if truthy (parse_parameter_value v)
                       then dict_set ps (py "Material") (parse_parameter_value v)
                       else ps
           | None => ps
           end key
  = dict_get ps key.
Proof.
  intros Hk. destruct m as [v|]; [|reflexivity].
  destruct (truthy (parse_parameter_value v)); [|reflexivity].
  apply dict_get_set_other. intros <-. rewrite str_eqb_refl in Hk. discriminate.
Qed.

Lemma plain_parameter_inv (params : dict) (key : str) (value : pyval) :
  forallb plain_parameter params = true -> In (key, value) params ->
  pascal_key key = true /\ is_dict value = false.
Proof.
  intros Hpl Hin. rewrite forallb_forall in Hpl. specialize (Hpl _ Hin).
  unfold plain_parameter in Hpl. cbn [fst snd] in Hpl.
  apply andb_true_iff in Hpl as [Hpl _]. apply andb_true_iff in Hpl as [H1 H2].
  apply negb_true_iff in H2. auto.
Qed.

(** The round trip of the parameters without unit.  For a document as in
    the round trip of the dimensional parameters (the five required keys,
    a hashable shape-type, distinct PascalCase parameter names, no mapping
    as a value, no bare number under a dimensional name), every parameter
    other than Material that [parse_parameter_value] leaves as it is comes
    back as it is when it is a number, and as its text otherwise: a text
    comes back unchanged, [null] comes back as the text "None". *)
Theorem round_trip_plain_parameters (doc : dict) (default_shape : str)
        (version name shape shape_type : pyval) (params : dict) :
  dict_get doc (py "version") = Some version ->
  dict_get doc (py "name") = Some name ->
  dict_get doc (py "shape") = Some shape ->
  dict_get doc (py "shape-type") = Some shape_type ->
  dict_get doc (py "parameter") = Some (PDict params) ->
  is_hashable shape_type = true ->
  NoDup (dict_keys params) ->
  forallb plain_parameter params = true ->
  exists fctb parameter,
    round_trip doc default_shape = Ok fctb
    /\ dict_get fctb (py "parameter") = Some (PDict parameter)
    /\ forall key value,
         dict_get params key = Some value ->
         str_eqb key (py "Material") = false ->
         parse_parameter_value value = value ->
         dict_get parameter key
         = Some (if is_number value then value else PStr (py_str value)).
Proof.
  intros Hv Hn Hs Ht Hp Hh Hnd Hpl.
  destruct (@round_trip_run doc default_shape version name shape shape_type params
              Hv Hn Hs Ht Hp Hh Hnd Hpl) as (ps & pr & Hfor & Hrun).
  pose proof (@parsed_ok_all params Hpl) as Hok.
  assert (NoDup (dict_keys (parsed params))) as Hnd'
    by (rewrite parsed_keys; exact Hnd).
  pose proof (@geometry_nodup (parsed params) Hnd' Hok) as HG.
  set (G := flat_map emitted (parsed params)) in *.
  eexists. eexists. split; [exact Hrun|]. split; [reflexivity|].
  intros key value Hk Hm Hsame.
  rewrite dict_get_material by exact Hm.
  apply dict_get_In in Hk.
  destruct (plain_parameter_inv _ _ _ Hpl Hk) as [Hpk Hd].
  assert (In (key, value) (parsed params)) as Hin.
  { rewrite <- Hsame at 1. unfold parsed.
    apply (in_map (fun kv : str * pyval => (fst kv, parse_parameter_value (snd kv)))
                  _ _ Hk). }
  destruct (@geometry_plain_value (parsed params) key value Hnd' Hok Hin Hm Hd)
    as (Hbase & Hnu & He).
  fold G in Hbase, Hnu.
  destruct (@parameter_loop_plain G G [] [] HG) as (ps2 & pr2 & Hfor2 & Hset).
  { intros k []. }
  { intros k v. apply (@geometry_formats (parsed params) Hnd' Hok). }
  pose proof (eq_trans (eq_sym Hfor2) Hfor) as Heq. injection Heq as -> ->.
  rewrite <- (@snake_to_camel_snake key Hpk) at 1.
  apply (Hset (snake key) value Hbase He Hnu).
  intros key' value' Hin' He' Hne.
  destruct (@geometry_base_key (parsed params) Hok _ _ Hin' He') as (k' & Hpk' & ->).
  rewrite !snake_to_camel_snake by assumption.
  intros ->. now apply Hne.
Qed.

Lemma round_trip_plain_parameters_witness :
  exists fctb parameter,
    round_trip bit_with_null_chipload (py "endmill") = Ok fctb
    /\ dict_get fctb (py "parameter") = Some (PDict parameter)
    /\ dict_get parameter (py "Flutes") = Some (PInt 2)
    /\ dict_get parameter (py "Chipload") = Some (PStr (py "None")).
Proof.
  destruct (@round_trip_plain_parameters bit_with_null_chipload (py "endmill")
              (PInt 2) (PStr (py "Test Tool")) (PStr (py "test.fcstd"))
              (PStr (py "Drill"))
              [ (py "Flutes", PInt 2); (py "Chipload", PNone);
                (py "Material", PStr []) ]
              eq_refl eq_refl eq_refl eq_refl eq_refl eq_refl)
    as (fctb & parameter & Hrun & Hp & Hkeep).
  - repeat (apply NoDup_cons; [vm_compute; intuition discriminate|]). apply NoDup_nil.
  - reflexivity.
  - exists fctb, parameter. split; [exact Hrun|]. split; [exact Hp|]. split.
    + apply (Hkeep (py "Flutes") (PInt 2)); reflexivity.
    + apply (Hkeep (py "Chipload") PNone); reflexivity.
Defined.

(** The Material of the round trip: a document with distinct PascalCase
    parameter names gets its Material back as [parse_parameter_value] read
    it when that is truthy; a Material that is empty, zero or [null] is
    dropped, and no Material is made up. *)
Theorem round_trip_material (doc : dict) (default_shape : str)
        (version name shape shape_type : pyval) (params : dict) :
  dict_get doc (py "version") = Some version ->
  dict_get doc (py "name") = Some name ->
  dict_get doc (py "shape") = Some shape ->
  dict_get doc (py "shape-type") = Some shape_type ->
  dict_get doc (py "parameter") = Some (PDict params) ->
  is_hashable shape_type = true ->
  NoDup (dict_keys params) ->
  forallb plain_parameter params = true ->
  exists fctb parameter,
    round_trip doc default_shape = Ok fctb
    /\ dict_get fctb (py "parameter") = Some (PDict parameter)
    /\ dict_get parameter (py "Material")
       = match dict_get params (py "Material") with
         | Some v => if truthy (parse_parameter_value v)
                     then Some (parse_parameter_value v) else None
         | None => None
         end.
Proof.
  intros Hv Hn Hs Ht Hp Hh Hnd Hpl.
  destruct (@round_trip_run doc default_shape version name shape shape_type params
              Hv Hn Hs Ht Hp Hh Hnd Hpl) as (ps & pr & Hfor & Hrun).
  pose proof (@parsed_ok_all params Hpl) as Hok.
  assert (NoDup (dict_keys (parsed params))) as Hnd'
    by (rewrite parsed_keys; exact Hnd).
  pose proof (@geometry_nodup (parsed params) Hnd' Hok) as HG.
  set (G := flat_map emitted (parsed params)) in *.
  assert (dict_get ps (py "Material") = None) as Hnone.
  { destruct (@parameter_loop G G [] [] HG) as (ps2 & pr2 & Hfor2 & Hkeep & _).
    { intros k []. }
    { intros k v. apply (@geometry_formats (parsed params) Hnd' Hok). }
    pose proof (eq_trans (eq_sym Hfor2) Hfor) as Heq. injection Heq as -> ->.
    rewrite Hkeep; [reflexivity|].
    intros key value Hin He.
    destruct (@geometry_base_name (parsed params) key value Hok Hin He)
      as (k & Hpk & Hm & ->).
    rewrite snake_to_camel_snake by exact Hpk.
    intros ->. rewrite str_eqb_refl in Hm. discriminate. }
  eexists. eexists. split; [exact Hrun|]. split; [reflexivity|].
  destruct (dict_get params (py "Material")) as [v|]; [|exact Hnone].
  destruct (truthy (parse_parameter_value v)); [|exact Hnone].
  apply dict_get_set_same.
Qed.

Lemma round_trip_material_witness :
  exists fctb parameter,
    round_trip endmill_bit (py "endmill") = Ok fctb
    /\ dict_get fctb (py "parameter") = Some (PDict parameter)
    /\ dict_get parameter (py "Material") = Some (PStr (py "HSS")).
Proof.
  apply (@round_trip_material endmill_bit (py "endmill")
           (PInt 2) (PStr (py "6mm 4-Flute Endmill")) (PStr (py "endmill.fcstd"))
           (PStr (py "Endmill"))
           [ (py "Diameter", PStr (py "6.00 mm"));
             (py "Length", PStr (py "50.00 mm"));
             (py "Flutes", PInt 4);
             (py "Material", PStr (py "HSS"));
             (py "ShankDiameter", PStr (py "6.00 mm")) ]);
    try reflexivity.
  repeat (apply NoDup_cons; [vm_compute; intuition discriminate|]). apply NoDup_nil.
Defined.

(** What the round trip does to the id and the attribute: the tool bit it
    returns always has an id, the document's or [null] when it had none,
    and an empty attribute, whatever the document's attribute was; its keys
    are version, name, shape, shape-type, parameter, attribute and id. *)
Theorem round_trip_id_and_attribute (doc : dict) (default_shape : str)
        (version name shape shape_type : pyval) (params : dict) :
  dict_get doc (py "version") = Some version ->
  dict_get doc (py "name") = Some name ->
  dict_get doc (py "shape") = Some shape ->
  dict_get doc (py "shape-type") = Some shape_type ->
  dict_get doc (py "parameter") = Some (PDict params) ->
  is_hashable shape_type = true ->
  NoDup (dict_keys params) ->
  forallb plain_parameter params = true ->
  exists fctb,
    round_trip doc default_shape = Ok fctb
    /\ dict_get fctb (py "id") = Some (get_or doc (py "id") PNone)
    /\ dict_get fctb (py "attribute") = Some (PDict [])
    /\ dict_keys fctb
       = [ py "version"; py "name"; py "shape"; py "shape-type"; py "parameter";
           py "attribute"; py "id" ].
Proof.
  intros Hv Hn Hs Ht Hp Hh Hnd Hpl.
  destruct (@round_trip_run doc default_shape version name shape shape_type params
              Hv Hn Hs Ht Hp Hh Hnd Hpl) as (ps & pr & Hfor & Hrun).
  eexists. split; [exact Hrun|]. repeat split.
Qed.

Lemma round_trip_id_and_attribute_witness :
  dict_get custom_bit (py "attribute") = Some (PDict [(py "custom", PStr (py "data"))])
  /\ exists fctb,
       round_trip custom_bit (py "endmill") = Ok fctb
       /\ dict_get fctb (py "id") = Some (PStr (py "test_tool"))
       /\ dict_get fctb (py "attribute") = Some (PDict [])
       /\ dict_keys fctb
          = [ py "version"; py "name"; py "shape"; py "shape-type"; py "parameter";
              py "attribute"; py "id" ].
Proof.
  split; [reflexivity|].
  apply (@round_trip_id_and_attribute custom_bit (py "endmill")
           (PInt 2) (PStr (py "Test Tool")) (PStr (py "test.fcstd"))
           (PStr (py "Drill"))
           [ (py "Diameter", PStr (py "5.00 mm"));
             (py "CustomParam", PStr (py "CustomValue")) ]);
    try reflexivity.
  repeat (apply NoDup_cons; [vm_compute; intuition discriminate|]). apply NoDup_nil.
Defined.
(* ================================================================== *)
(** * [fctb_to_smooth]: when it returns, and the keys it writes *)

Lemma geometry_step_returns (geometry : dict) (kv : str * pyval) :
  (exists geometry', geometry_step geometry kv = Ok geometry')
  <-> convertible_parameter kv = true.
Proof.
  destruct kv as [key value]. unfold geometry_step, convertible_parameter.
  destruct (str_eqb key (py "Material")); [cbn; split; eauto|].
  cbn [orb]. destruct key as [|c rest].
  - cbn. split; [intros [g H]; discriminate|discriminate].
  - rewrite snake_key_eq. cbn [bind andb].
    destruct value as [| | | | | |d]; try (split; eauto; fail).
    unfold dict_in, dict_item.
    destruct (dict_get d (py "value")) as [v|]; [|cbn; split; eauto].
    cbn [bind negb orb].
    destruct (dict_get d (py "unit")) as [u|]; cbn [bind].
    + split; eauto.
    + split; [intros [g H]; discriminate|discriminate].
Qed.

Lemma geometry_loop_returns (items : dict) :
  forall geometry,
    (exists geometry', for_each items geometry_step geometry = Ok geometry')
    <-> forallb convertible_parameter items = true.
Proof.
  induction items as [|kv items IH]; intros geometry.
  - cbn. split; eauto.
  - cbn [for_each forallb]. rewrite andb_true_iff. split.
    + intros [g' H]. apply bind_ok in H as (g1 & H1 & H2). split.
      * apply (geometry_step_returns geometry kv). eauto.
      * apply (IH g1). eauto.
    + intros [H1 H2]. apply (geometry_step_returns geometry kv) in H1 as [g1 H1].
      rewrite H1. cbn [bind]. now apply IH.
Qed.

(** [fctb_to_smooth] returns an exchange item exactly for a tool that has
    a name, a shape, a version, a hashable shape_type, and a mapping of
    parameters in which, Material apart, no name is empty and every mapping
    with a "value" has a "unit"; in every other case it raises. *)
Theorem fctb_to_smooth_returns_iff (tool : dict) :
  (exists smooth_tool, fctb_to_smooth tool = Ok smooth_tool)
  <-> exists items shape_type,
      dict_get tool (py "parameters") = Some (PDict items)
      /\ forallb convertible_parameter items = true
      /\ dict_get tool (py "shape_type") = Some shape_type
      /\ is_hashable shape_type = true
      /\ dict_in (py "name") tool = true
      /\ dict_in (py "shape") tool = true
      /\ dict_in (py "version") tool = true.
Proof.
  unfold fctb_to_smooth, dict_item, dict_in. split.
  - intros [smooth H].
    destruct (dict_get tool (py "parameters")) as [params|]; [|discriminate].
    cbn [bind] in H. destruct params as [| | | | | |items]; try discriminate H.
    cbn [py_items bind] in H.
    apply bind_ok in H as (g & Hg & H).
    apply bind_ok in H as (sd & _ & H).
    destruct (dict_get tool (py "shape_type")) as [st|]; [|discriminate].
    cbn [bind] in H. unfold map_shape_type, table_get in H.
    destruct (is_hashable st) eqn:Hh; [|discriminate]. cbn [bind] in H.
    destruct (dict_get tool (py "name")); [|discriminate]. cbn [bind] in H.
    destruct (dict_get tool (py "shape")); [|discriminate]. cbn [bind] in H.
    destruct (dict_get tool (py "version")); [|discriminate].
    exists items, st. repeat split; try reflexivity.
    + apply (geometry_loop_returns items []). eauto.
    + exact Hh.
  - intros (items & st & Hp & Hc & Hst & Hh & Hn & Hs & Hv).
    rewrite Hp, Hst. cbn [bind py_items].
    apply (geometry_loop_returns items []) in Hc as [g Hg]. rewrite Hg. cbn [bind].
    unfold map_shape_type, table_get. rewrite Hh.
    destruct (dict_get tool (py "name")); [|discriminate].
    destruct (dict_get tool (py "shape")); [|discriminate].
    destruct (dict_get tool (py "version")); [|discriminate].
    destruct (truthy p0); cbn [bind]; eauto.
Qed.

(** Two tools that do not convert: a diameter whose mapping has a value and
    no unit, and the same tool after [parse_fctb_dict] when the document
    wrote the mapping itself. *)
Lemma fctb_to_smooth_value_without_unit :
  fctb_to_smooth tool_without_unit = Raise (KeyError (py "unit")).
Proof. vm_compute. reflexivity. Qed.

Lemma lower_no_capital (s : str) : existsb is_upper (lower s) = false.
Proof.
  induction s as [|c s IH]; [reflexivity|].
  cbn [lower map existsb]. fold (lower s). rewrite IH, orb_false_r.
  unfold lower_char. destruct (is_upper c) eqn:E; [|exact E].
  unfold is_upper in *. apply andb_true_iff in E as [E1 E2].
  apply N.leb_le in E1, E2. apply andb_false_iff. right. apply N.leb_gt. lia.
Qed.

Lemma existsb_app_false {A} (f : A -> bool) (x y : list A) :
  existsb f x = false -> existsb f y = false -> existsb f (x ++ y) = false.
Proof. intros Hx Hy. now rewrite existsb_app, Hx, Hy. Qed.

Lemma geometry_step_keys (geometry geometry' : dict) (key : str) (value : pyval) :
  geometry_step geometry (key, value) = Ok geometry' ->
  forall k, In k (dict_keys geometry') ->
            In k (dict_keys geometry)
            \/ (str_eqb key (py "Material") = false
                /\ exists base, snake_key key = Ok base
                                /\ (k = base \/ k = base ++ py "_unit")).
Proof.
  unfold geometry_step. destruct (str_eqb key (py "Material")).
  { intros H. injection H as <-. auto. }
  destruct (snake_key key) as [base|]; [|discriminate]. cbn [bind].
  assert (forall g v k, In k (dict_keys (dict_set g base v)) ->
                        In k (dict_keys g) \/ k = base) as Hone.
  { intros g v k. rewrite dict_keys_set. destruct (dict_in base g); [auto|].
    rewrite in_app_iff. cbn. intuition. }
  assert (forall g v k, In k (dict_keys (dict_set g (base ++ py "_unit") v)) ->
                        In k (dict_keys g) \/ k = base ++ py "_unit") as Htwo.
  { intros g v k. rewrite dict_keys_set. destruct (dict_in (base ++ py "_unit") g);
      [auto|]. rewrite in_app_iff. cbn. intuition. }
  assert (forall v, Ok (dict_set geometry base v) = Ok geometry' ->
                    forall k, In k (dict_keys geometry') ->
                              In k (dict_keys geometry)
                              \/ (false = false
                                  /\ exists b, Ok base = Ok b
                                               /\ (k = b \/ k = b ++ py "_unit")))
    as Hplain.
  { intros v H k Hk. injection H as <-. apply Hone in Hk as [Hk| ->]; [auto|].
    right. split; [reflexivity|]. exists base. auto. }
  destruct value as [| | | | | |d]; try (apply Hplain).
  destruct (dict_in (py "value") d); [|apply Hplain].
  intros H k Hk.
  apply bind_ok in H as (v & _ & H). apply bind_ok in H as (u & _ & H).
  injection H as <-. apply Htwo in Hk as [Hk| ->].
  - apply Hone in Hk as [Hk| ->]; [auto|].
    right. split; [reflexivity|]. exists base. auto.
  - right. split; [reflexivity|]. exists base. auto.
Qed.

Lemma geometry_loop_keys (items : dict) :
  forall geometry geometry',
    for_each items geometry_step geometry = Ok geometry' ->
    forall k, In k (dict_keys geometry') ->
              In k (dict_keys geometry)
              \/ exists name base,
                  In name (dict_keys items)
                  /\ str_eqb name (py "Material") = false
                  /\ snake_key name = Ok base
                  /\ (k = base \/ k = base ++ py "_unit").
Proof.
  induction items as [|[key value] items IH]; intros g g' H k Hk.
  - injection H as <-. auto.
  - cbn [for_each] in H. apply bind_ok in H as (g1 & H1 & H2).
    destruct (IH g1 g' H2 k Hk) as [Hk1|(name & base & Hin & Hm & Hb & Hkb)].
    + destruct (geometry_step_keys _ _ _ H1 k Hk1) as [Hk0|(Hm & base & Hb & Hkb)];
        [auto|].
      right. exists key, base. cbn. auto.
    + right. exists name, base. cbn. auto.
Qed.

(** The keys of the geometry [fctb_to_smooth] returns: each one is the
    transliteration of a parameter name other than Material, or that with
    "_unit" after it, and none has an ASCII capital letter in it; so
    Material is never a key of the geometry. *)
Theorem fctb_to_smooth_geometry_keys (tool smooth_tool : dict) :
  fctb_to_smooth tool = Ok smooth_tool ->
  exists items geometry,
    dict_get tool (py "parameters") = Some (PDict items)
    /\ dict_get smooth_tool (py "geometry") = Some (PDict geometry)
    /\ forall k, In k (dict_keys geometry) ->
                 existsb is_upper k = false
                 /\ exists name base,
                     In name (dict_keys items)
                     /\ str_eqb name (py "Material") = false
                     /\ snake_key name = Ok base
                     /\ (k = base \/ k = base ++ py "_unit").
Proof.
  unfold fctb_to_smooth, dict_item. intros H.
  destruct (dict_get tool (py "parameters")) as [params|]; [|discriminate].
  cbn [bind] in H. destruct params as [| | | | | |items]; try discriminate H.
  cbn [py_items bind] in H.
  apply bind_ok in H as (g & Hg & H).
  apply bind_ok in H as (sd & _ & H).
  apply bind_ok in H as (st & _ & H).
  apply bind_ok in H as (type & _ & H).
  apply bind_ok in H as (nm & _ & H).
  apply bind_ok in H as (shape & _ & H).
  apply bind_ok in H as (st' & _ & H).
  apply bind_ok in H as (version & _ & H).
  injection H as <-.
  exists items, g. split; [reflexivity|]. split; [reflexivity|].
  intros k Hk.
  destruct (geometry_loop_keys _ _ Hg k Hk) as [[]|(name & base & Hin & Hm & Hb & Hkb)].
  split; [|exists name, base; auto].
  destruct name as [|c rest]; [discriminate|].
  rewrite snake_key_eq in Hb. injection Hb as <-.
  destruct Hkb as [-> | ->].
  - apply lower_no_capital.
  - apply existsb_app_false; [apply lower_no_capital|reflexivity].
Qed.

Lemma fctb_to_smooth_geometry_keys_witness :
  exists items geometry,
    dict_get drill_tool (py "parameters") = Some (PDict items)
    /\ dict_get (match fctb_to_smooth drill_tool with Ok s => s | Raise _ => [] end)
                (py "geometry") = Some (PDict geometry)
    /\ forall k, In k (dict_keys geometry) ->
                 existsb is_upper k = false
                 /\ exists name base,
                     In name (dict_keys items)
                     /\ str_eqb name (py "Material") = false
                     /\ snake_key name = Ok base
                     /\ (k = base \/ k = base ++ py "_unit").
Proof.
  apply (@fctb_to_smooth_geometry_keys drill_tool
           (match fctb_to_smooth drill_tool with Ok s => s | Raise _ => [] end)).
  vm_compute. reflexivity.
Defined.
(* ================================================================== *)
(** * [smooth_to_fctb]: the tool bit it returns *)

(** The fixed part of every tool bit [smooth_to_fctb] returns: the six keys
    version, name, shape, shape-type, parameter and attribute in this
    order; an attribute that is empty; the description as the name, or
    "Unnamed Tool" when the item has none; the version of the metadata, or
    2; and as id the one of the metadata when it has one, else the one of
    the item, else none. *)
Theorem smooth_to_fctb_result (smooth_tool : dict) (default_shape : str) (fctb : dict) :
  smooth_to_fctb smooth_tool default_shape = Ok fctb ->
  firstn 6 (dict_keys fctb)
  = [ py "version"; py "name"; py "shape"; py "shape-type"; py "parameter";
      py "attribute" ]
  /\ dict_get fctb (py "attribute") = Some (PDict [])
  /\ dict_get fctb (py "name")
     = Some (get_or smooth_tool (py "description") (PStr (py "Unnamed Tool")))
  /\ exists metadata,
       metadata_of smooth_tool = PDict metadata
       /\ dict_get fctb (py "version") = Some (get_or metadata (py "version") (PInt 2))
       /\ dict_get fctb (py "id")
          = match dict_get metadata (py "id") with
            | Some id => Some id
            | None => dict_get smooth_tool (py "id")
            end
       /\ skipn 6 (dict_keys fctb)
          = if dict_in (py "id") metadata || dict_in (py "id") smooth_tool
            then [py "id"] else [].
Proof.
  unfold smooth_to_fctb. fold (metadata_of smooth_tool) (shape_data_of smooth_tool).
  intros H.
  apply bind_ok in H as (parameters & _ & H).
  apply bind_ok in H as (shape_type & _ & H).
  apply bind_ok in H as (shape_file & _ & H).
  apply bind_ok in H as (version & Hv & H).
  apply bind_ok in H as (has_id & Hi & H).
  destruct (metadata_of smooth_tool) as [| | | | | |md]; try discriminate Hv.
  cbn [py_get] in Hv. injection Hv as <-.
  cbn [py_in] in Hi. injection Hi as <-.
  unfold dict_in in *.
  destruct (dict_get md (py "id")) as [id|] eqn:Eid.
  - cbn [py_item bind] in H. unfold dict_item in H. rewrite Eid in H.
    injection H as <-.
    repeat split. exists md. rewrite ?Eid. repeat split.
  - destruct (dict_get smooth_tool (py "id")) as [id|] eqn:Eid'.
    + unfold dict_item in H. rewrite Eid' in H. injection H as <-.
      repeat split. exists md. rewrite ?Eid, ?Eid'. repeat split.
    + injection H as <-. repeat split. exists md. rewrite ?Eid, ?Eid'. repeat split.
Qed.

Lemma smooth_to_fctb_result_witness :
  firstn 6 (dict_keys (match smooth_to_fctb item_text_diameter (py "endmill") with
                       | Ok fctb => fctb | Raise _ => [] end))
  = [ py "version"; py "name"; py "shape"; py "shape-type"; py "parameter";
      py "attribute" ].
Proof.
  apply (@smooth_to_fctb_result item_text_diameter (py "endmill")
           (match smooth_to_fctb item_text_diameter (py "endmill") with
            | Ok fctb => fctb | Raise _ => [] end)).
  vm_compute. reflexivity.
Defined.

(** The names in the state of the loop of [smooth_to_fctb]: nothing is
    taken away, what is added is the name of a base key of the turn, and
    every base key that is done has its name in the parameters. *)
Lemma parameter_step_names (G : dict) (ps : dict) (pr : list str) (key : str)
      (value : pyval) (ps' : dict) (pr' : list str) :
  parameter_step G (ps, pr) (key, value) = Ok (ps', pr') ->
  (forall k, In k pr -> endswith k (py "_unit") = false ->
             In (snake_to_camel k) (dict_keys ps)) ->
  (forall name, In name (dict_keys ps) -> In name (dict_keys ps'))
  /\ (forall name, In name (dict_keys ps') ->
                   In name (dict_keys ps)
                   \/ (endswith key (py "_unit") = false /\ name = snake_to_camel key))
  /\ (forall k, In k pr' -> endswith k (py "_unit") = false ->
                In (snake_to_camel k) (dict_keys ps'))
  /\ (endswith key (py "_unit") = false -> In (snake_to_camel key) (dict_keys ps')).
Proof.
  intros H Hinv. unfold parameter_step in H.
  destruct (endswith key (py "_unit")) eqn:Ee.
  { injection H as <- <-. repeat split; auto. discriminate. }
  destruct (existsb (str_eqb key) pr) eqn:Ep.
  { injection H as <- <-. repeat split; auto. intros _.
    apply existsb_exists in Ep as (k & Hk & E). apply str_eqb_eq in E. subst k.
    now apply Hinv. }
  assert (forall w pr0,
             (forall k, In k pr0 -> k = key ++ py "_unit" \/ k = key \/ In k pr) ->
             (forall name, In name (dict_keys ps) ->
                           In name (dict_keys (dict_set ps (snake_to_camel key) w)))
             /\ (forall name, In name (dict_keys (dict_set ps (snake_to_camel key) w)) ->
                              In name (dict_keys ps)
                              \/ (false = false /\ name = snake_to_camel key))
             /\ (forall k, In k pr0 -> endswith k (py "_unit") = false ->
                           In (snake_to_camel k)
                              (dict_keys (dict_set ps (snake_to_camel key) w)))
             /\ (false = false ->
                 In (snake_to_camel key)
                    (dict_keys (dict_set ps (snake_to_camel key) w)))) as Hset.
  { intros w pr0 Hpr0.
    assert (forall name, In name (dict_keys (dict_set ps (snake_to_camel key) w))
                         <-> In name (dict_keys ps) \/ name = snake_to_camel key) as Hk.
    { intros name. rewrite dict_keys_set.
      destruct (dict_in (snake_to_camel key) ps) eqn:Ein.
      - apply dict_in_keys in Ein. split; [auto|]. intros [?| ->]; auto.
      - rewrite in_app_iff. cbn. intuition. }
    repeat split.
    - intros name Hn. apply Hk. auto.
    - intros name Hn. apply Hk in Hn as [?| ->]; auto.
    - intros k Hin He. apply Hk.
      destruct (Hpr0 k Hin) as [-> | [-> | Hin']].
      + rewrite endswith_app in He. discriminate.
      + auto.
      + left. now apply Hinv.
    - intros _. apply Hk. auto. }
  destruct (dict_in (key ++ py "_unit") G).
  - apply bind_ok in H as (u & _ & H). apply bind_ok in H as (t & _ & H).
    injection H as <- <-. apply Hset. cbn. intuition.
  - destruct (is_number value).
    + destruct (is_dimensional key); [discriminate|].
      injection H as <- <-. apply Hset. cbn. intuition.
    + injection H as <- <-. apply Hset. cbn. intuition.
Qed.

Lemma parameter_loop_names (G : dict) (todo : dict) :
  forall ps pr ps' pr',
    for_each todo (parameter_step G) (ps, pr) = Ok (ps', pr') ->
    (forall k, In k pr -> endswith k (py "_unit") = false ->
               In (snake_to_camel k) (dict_keys ps)) ->
    (forall name, In name (dict_keys ps) -> In name (dict_keys ps'))
    /\ (forall name, In name (dict_keys ps') ->
                     In name (dict_keys ps)
                     \/ exists key, In key (dict_keys todo)
                                    /\ endswith key (py "_unit") = false
                                    /\ name = snake_to_camel key)
    /\ (forall key, In key (dict_keys todo) -> endswith key (py "_unit") = false ->
                    In (snake_to_camel key) (dict_keys ps')).
Proof.
  induction todo as [|[key value] todo IH]; intros ps pr ps' pr' H Hinv.
  - injection H as <- <-. repeat split; auto. intros key [].
  - cbn [for_each] in H. apply bind_ok in H as ([ps1 pr1] & H1 & H2).
    destruct (@parameter_step_names G ps pr key value ps1 pr1 H1 Hinv) as (Ha & Hb & Hc & Hd).
    destruct (IH ps1 pr1 ps' pr' H2 Hc) as (Ha' & Hb' & Hc').
    repeat split.
    + auto.
    + intros name Hn. destruct (Hb' name Hn) as [Hn1|(k & Hk & He & ->)].
      * destruct (Hb name Hn1) as [?|[He ->]]; [auto|].
        right. exists key. cbn. auto.
      * right. exists k. cbn. auto.
    + intros k [<-|Hk] He; [|now apply Hc'].
      apply Ha'. now apply Hd.
Qed.

(** The names of the parameters [smooth_to_fctb] returns are the names
    [snake_to_camel] gives the keys of the geometry that do not end in
    "_unit", and Material when the item has one: every such key has its
    name among the parameters, and nothing else is there; a key that ends
    in "_unit" is never exported under a name of its own. *)
Theorem smooth_to_fctb_parameter_names (smooth_tool : dict) (default_shape : str)
        (fctb : dict) :
  smooth_to_fctb smooth_tool default_shape = Ok fctb ->
  exists geometry parameters,
    get_or smooth_tool (py "geometry") (PDict []) = PDict geometry
    /\ dict_get fctb (py "parameter") = Some (PDict parameters)
    /\ (forall key, In key (dict_keys geometry) -> endswith key (py "_unit") = false ->
                    In (snake_to_camel key) (dict_keys parameters))
    /\ (forall name, In name (dict_keys parameters) ->
                     name = py "Material"
                     \/ exists key, In key (dict_keys geometry)
                                    /\ endswith key (py "_unit") = false
                                    /\ name = snake_to_camel key).
Proof.
  unfold smooth_to_fctb. intros H.
  apply bind_ok in H as (parameters & Hb & H).
  apply bind_ok in H as (shape_type & _ & H).
  apply bind_ok in H as (shape_file & _ & H).
  apply bind_ok in H as (version & _ & H).
  apply bind_ok in H as (has_id & _ & H).
  assert (dict_get fctb (py "parameter") = Some (PDict parameters)) as Hp.
  { destruct has_id.
    - apply bind_ok in H as (id & _ & H). injection H as <-. reflexivity.
    - destruct (dict_in (py "id") smooth_tool).
      + apply bind_ok in H as (id & _ & H). injection H as <-. reflexivity.
      + injection H as <-. reflexivity. }
  clear H. unfold build_parameters in Hb.
  apply bind_ok in Hb as (g & Hg & Hb).
  destruct (get_or smooth_tool (py "geometry") (PDict [])) as [| | | | | |g0];
    try discriminate Hg.
  cbn [py_items] in Hg. injection Hg as <-.
  apply bind_ok in Hb as ([ps pr] & Hloop & Hb). cbn [fst] in Hb.
  destruct (@parameter_loop_names g0 g0 [] [] ps pr Hloop) as (_ & Hfrom & Hall).
  { intros k []. }
  apply bind_ok in Hb as (type & _ & Hb).
  exists g0, parameters. split; [reflexivity|]. split; [exact Hp|].
  destruct (truthy type).
  - apply bind_ok in Hb as (type' & _ & Hb). injection Hb as <-.
    assert (forall name, In name (dict_keys (dict_set ps (py "Material") type'))
                         <-> In name (dict_keys ps) \/ name = py "Material") as Hk.
    { intros name. rewrite dict_keys_set.
      destruct (dict_in (py "Material") ps) eqn:Ein.
      - apply dict_in_keys in Ein. split; [auto|]. intros [?| ->]; auto.
      - rewrite in_app_iff. cbn. intuition. }
    split.
    + intros key Hin He. apply Hk. left. now apply Hall.
    + intros name Hn. apply Hk in Hn as [Hn| ->]; [|auto].
      destruct (Hfrom name Hn) as [[]|?]. auto.
  - injection Hb as <-. split.
    + exact Hall.
    + intros name Hn. destruct (Hfrom name Hn) as [[]|?]. auto.
Qed.

Lemma smooth_to_fctb_parameter_names_witness :
  exists geometry parameters,
    get_or item_text_diameter (py "geometry") (PDict []) = PDict geometry
    /\ dict_get (match smooth_to_fctb item_text_diameter (py "endmill") with
                 | Ok fctb => fctb | Raise _ => [] end) (py "parameter")
       = Some (PDict parameters)
    /\ (forall key, In key (dict_keys geometry) -> endswith key (py "_unit") = false ->
                    In (snake_to_camel key) (dict_keys parameters))
    /\ (forall name, In name (dict_keys parameters) ->
                     name = py "Material"
                     \/ exists key, In key (dict_keys geometry)
                                    /\ endswith key (py "_unit") = false
                                    /\ name = snake_to_camel key).
Proof.
  apply (@smooth_to_fctb_parameter_names item_text_diameter (py "endmill")
           (match smooth_to_fctb item_text_diameter (py "endmill") with
            | Ok fctb => fctb | Raise _ => [] end)).
  vm_compute. reflexivity.
Defined.
(* ================================================================== *)
(** * fctl_parser.py: tool numbers *)

Lemma for_each_collect {A B} (f : A -> result B) (xs : list A) (ys : list B) :
  forall acc,
    Forall2 (fun x y => f x = Ok y) xs ys ->
    for_each xs (fun acc x => y <- f x ;; Ok (acc ++ [y])) acc = Ok (acc ++ ys).
Proof.
  revert ys. induction xs as [|x xs IH]; intros ys acc H; inversion H; subst.
  - cbn. now rewrite app_nil_r.
  - cbn [for_each]. rewrite H2. cbn [bind]. rewrite IH with (ys := l') by assumption.
    now rewrite <- app_assoc.
Qed.

Lemma tool_numbers_ints (library : dict) (tools : list pyval) (numbers : list Z) :
  dict_get library (py "tools") = Some (PList tools) ->
  Forall2 has_number tools numbers ->
  tool_numbers library = Ok (map PInt numbers).
Proof.
  intros Ht H. unfold tool_numbers, dict_item. rewrite Ht. cbn [bind py_iter].
  apply (@for_each_collect pyval pyval (fun tool => py_item tool (py "nr"))
           tools (map PInt numbers) []).
  clear Ht. induction H as [|tool n tools numbers (d & -> & Hn) H IH]; constructor.
  - cbn [py_item]. unfold dict_item. now rewrite Hn.
  - exact IH.
Qed.

Lemma NoDup_snoc {A} (l : list A) (x : A) :
  NoDup l -> ~ In x l -> NoDup (l ++ [x]).
Proof.
  induction l as [|y l IH]; intros Hl Hx; cbn [app].
  - constructor; [intros []|constructor].
  - inversion Hl as [|? ? Hy Hl']; subst. constructor.
    + rewrite in_app_iff. cbn. intros [H|[H|[]]]; [now apply Hy|].
      subst. apply Hx. now left.
    + apply IH; [exact Hl'|]. intros H. apply Hx. now right.
Qed.

Lemma count_element_int (counter : list (Z * Z)) (n : Z) :
  count_element (int_counter counter) (PInt n) = int_counter (count_number counter n).
Proof.
  induction counter as [|[k c] counter IH]; [reflexivity|].
  cbn [int_counter map fst snd count_element count_number key_eqb].
  fold (int_counter counter).
  destruct (k =? n)%Z; [reflexivity|]. cbn [int_counter map fst snd].
  now rewrite IH.
Qed.

Lemma Counter_ints (numbers : list Z) :
  Counter (map PInt numbers) = Ok (int_counter (fold_left count_number numbers [])).
Proof.
  unfold Counter. change (@nil (pyval * Z)) with (int_counter []).
  generalize (@nil (Z * Z)) as counter.
  induction numbers as [|n numbers IH]; intros counter; [reflexivity|].
  cbn [map for_each is_hashable bind fold_left].
  rewrite count_element_int. apply IH.
Qed.

Lemma number_count_count_number (counter : list (Z * Z)) (n m : Z) :
  number_count (count_number counter n) m
  = (number_count counter m + if (n =? m)%Z then 1 else 0)%Z.
Proof.
  induction counter as [|[k c] counter IH]; cbn [count_number number_count].
  - destruct (n =? m)%Z; lia.
  - destruct (k =? n)%Z eqn:Ekn; cbn [number_count].
    + apply Z.eqb_eq in Ekn. subst k. destruct (n =? m)%Z; lia.
    + destruct (k =? m)%Z eqn:Ekm; [|exact IH].
      apply Z.eqb_eq in Ekm. subst k. rewrite Z.eqb_sym in Ekn. rewrite Ekn. lia.
Qed.

Lemma count_number_keys (counter : list (Z * Z)) (n : Z) :
  map fst (count_number counter n)
  = if existsb (Z.eqb n) (map fst counter) then map fst counter
    else map fst counter ++ [n].
Proof.
  induction counter as [|[k c] counter IH]; [reflexivity|].
  cbn [count_number map fst existsb]. rewrite (Z.eqb_sym n k).
  destruct (k =? n)%Z; [reflexivity|]. cbn [map fst orb]. rewrite IH.
  destruct (existsb (Z.eqb n) (map fst counter)); reflexivity.
Qed.

Lemma count_number_positive (counter : list (Z * Z)) (n : Z) :
  Forall (fun kc => (1 <= snd kc)%Z) counter ->
  Forall (fun kc => (1 <= snd kc)%Z) (count_number counter n).
Proof.
  induction 1 as [|[k c] counter Hc H IH]; cbn [count_number].
  - constructor; [cbn; lia|constructor].
  - destruct (k =? n)%Z; constructor; cbn in *; auto; lia.
Qed.

(** The counter of a list of [int]s: no key twice, every count positive,
    and the count of a number is how often it occurs. *)
Lemma counter_of_numbers (numbers : list Z) :
  let counter := fold_left count_number numbers [] in
  NoDup (map fst counter)
  /\ Forall (fun kc => (1 <= snd kc)%Z) counter
  /\ forall n, number_count counter n = Z.of_nat (count_occ Z.eq_dec numbers n).
Proof.
  cbv zeta.
  assert (forall counter seen,
             NoDup (map fst counter) ->
             Forall (fun kc => (1 <= snd kc)%Z) counter ->
             (forall n, number_count counter n = Z.of_nat (count_occ Z.eq_dec seen n)) ->
             let counter' := fold_left count_number numbers counter in
             NoDup (map fst counter')
             /\ Forall (fun kc => (1 <= snd kc)%Z) counter'
             /\ forall n, number_count counter' n
                          = Z.of_nat (count_occ Z.eq_dec (seen ++ numbers) n)) as H.
  { induction numbers as [|m numbers IH]; intros counter seen Hnd Hpos Hc.
    - cbn. rewrite app_nil_r. auto.
    - cbn [fold_left]. replace (seen ++ m :: numbers) with ((seen ++ [m]) ++ numbers)
        by (now rewrite <- app_assoc).
      apply IH.
      + rewrite count_number_keys.
        destruct (existsb (Z.eqb m) (map fst counter)) eqn:E; [exact Hnd|].
        apply NoDup_snoc; [exact Hnd|]. intros Hk.
        assert (existsb (Z.eqb m) (map fst counter) = true) as F.
        { apply existsb_exists. exists m. split; [exact Hk|apply Z.eqb_refl]. }
        congruence.
      + now apply count_number_positive.
      + intros n. rewrite number_count_count_number, Hc, count_occ_app.
        cbn [count_occ]. destruct (Z.eq_dec m n) as [->|N].
        * rewrite Z.eqb_refl. cbn. lia.
        * assert ((m =? n)%Z = false) as -> by (now apply Z.eqb_neq). cbn. lia. }
  apply (H [] []); [constructor|constructor|reflexivity].
Qed.

Lemma number_count_in (counter : list (Z * Z)) (n c : Z) :
  NoDup (map fst counter) -> In (n, c) counter -> number_count counter n = c.
Proof.
  induction counter as [|[k c0] counter IH]; intros Hnd Hin; [destruct Hin|].
  cbn [map fst] in Hnd. inversion Hnd as [|? ? Hk Hnd']; subst.
  cbn [number_count]. destruct Hin as [E|Hin].
  - injection E as -> ->. now rewrite Z.eqb_refl.
  - destruct (k =? n)%Z eqn:E; [|now apply IH].
    apply Z.eqb_eq in E. subst k. exfalso. apply Hk.
    apply (in_map fst) in Hin. exact Hin.
Qed.

Lemma NoDup_map_fst_filter {A B} (p : A * B -> bool) (l : list (A * B)) :
  NoDup (map fst l) -> NoDup (map fst (filter p l)).
Proof.
  induction l as [|x l IH]; intros H; [constructor|].
  cbn [map] in H. inversion H as [|? ? Hx Hl]; subst. cbn [filter].
  destruct (p x); [|now apply IH]. cbn [map]. constructor; [|now apply IH].
  intros Hin. apply Hx. apply in_map_iff in Hin as (y & E & Hy).
  apply filter_In in Hy as [Hy _]. rewrite <- E. now apply in_map.
Qed.

(** The numbers counted twice or more. *)
Lemma duplicates_in (numbers : list Z) (n : Z) :
  In n (map fst (filter (fun kc : Z * Z => (1 <? snd kc)%Z)
                        (fold_left count_number numbers [])))
  <-> (2 <= count_occ Z.eq_dec numbers n)%nat.
Proof.
  destruct (counter_of_numbers numbers) as (Hnd & Hpos & Hc).
  set (counter := fold_left count_number numbers []) in *.
  split.
  - intros Hn. apply in_map_iff in Hn as ([k c] & E & Hk). cbn in E. subst k.
    apply filter_In in Hk as [Hk Hc1]. cbn in Hc1. apply Z.ltb_lt in Hc1.
    apply (@number_count_in counter n c Hnd) in Hk. rewrite Hc in Hk. lia.
  - intros Hn.
    assert (exists c, In (n, c) counter) as [c Hk].
    { assert (number_count counter n <> 0%Z) as Hz by (rewrite Hc; lia).
      clear - Hz. induction counter as [|[k c] counter IH]; [now elim Hz|].
      cbn [number_count] in Hz. destruct (k =? n)%Z eqn:E.
      - apply Z.eqb_eq in E. subst. exists c. now left.
      - destruct (IH Hz) as [c' Hc']. exists c'. now right. }
    apply in_map_iff. exists (n, c). split; [reflexivity|].
    apply filter_In. split; [exact Hk|]. cbn.
    pose proof (@number_count_in counter n c Hnd Hk) as Hk'.
    apply Z.ltb_lt. rewrite <- Hk', Hc. lia.
Qed.

Lemma duplicates_nil_iff (numbers : list Z) :
  map fst (filter (fun kc : Z * Z => (1 <? snd kc)%Z)
                  (fold_left count_number numbers [])) = []
  <-> NoDup numbers.
Proof.
  pose proof (duplicates_in numbers) as Hin.
  destruct (map fst (filter (fun kc : Z * Z => (1 <? snd kc)%Z)
                            (fold_left count_number numbers []))) as [|n l].
  - split; [intros _|reflexivity].
    apply (NoDup_count_occ Z.eq_dec). intros n.
    destruct (le_lt_dec 2 (count_occ Z.eq_dec numbers n)) as [Hn|Hn]; [|lia].
    apply Hin in Hn. destruct Hn.
  - split; [discriminate|]. intros Hn.
    pose proof (proj1 (Hin n) (or_introl eq_refl)) as Hn'.
    rewrite (NoDup_count_occ Z.eq_dec) in Hn. specialize (Hn n). lia.
Qed.

(** The run of [check_tool_number_uniqueness] on [int] numbers. *)
Lemma check_tool_number_uniqueness_run (library : dict) (tools : list pyval)
      (numbers : list Z) :
  dict_get library (py "tools") = Some (PList tools) ->
  Forall2 has_number tools numbers ->
  check_tool_number_uniqueness library
  = Ok (map PInt (map fst (filter (fun kc : Z * Z => (1 <? snd kc)%Z)
                                  (fold_left count_number numbers [])))).
Proof.
  intros Ht H. unfold check_tool_number_uniqueness.
  rewrite (@tool_numbers_ints library tools numbers Ht H). cbn [bind].
  rewrite Counter_ints. cbn [bind]. f_equal. unfold int_counter.
  generalize (fold_left count_number numbers []) as counter.
  induction counter as [|[k c] counter IH]; [reflexivity|].
  cbn [map filter fst snd]. destruct (1 <? c)%Z; cbn [map fst]; now rewrite IH.
Qed.

(** The duplicates of a library whose tools have [int] numbers: a number
    is reported when it is the number of two tools or more, it is reported
    once, and nothing is reported exactly when the numbers are all
    different. *)
Theorem check_tool_number_uniqueness_spec (library : dict) (tools : list pyval)
        (numbers : list Z) :
  dict_get library (py "tools") = Some (PList tools) ->
  Forall2 has_number tools numbers ->
  exists duplicates,
    check_tool_number_uniqueness library = Ok (map PInt duplicates)
    /\ NoDup duplicates
    /\ (forall n, In n duplicates <-> (2 <= count_occ Z.eq_dec numbers n)%nat)
    /\ (duplicates = [] <-> NoDup numbers).
Proof.
  intros Ht H.
  exists (map fst (filter (fun kc : Z * Z => (1 <? snd kc)%Z)
                          (fold_left count_number numbers []))).
  split; [|split; [|split]].
  - now apply check_tool_number_uniqueness_run with (tools := tools).
  - apply NoDup_map_fst_filter. apply (counter_of_numbers numbers).
  - apply duplicates_in.
  - apply duplicates_nil_iff.
Qed.

Lemma check_tool_number_uniqueness_spec_witness :
  exists duplicates,
    check_tool_number_uniqueness library_with_duplicates = Ok (map PInt duplicates)
    /\ NoDup duplicates
    /\ (forall n, In n duplicates <-> (2 <= count_occ Z.eq_dec [1; 2; 2; 3]%Z n)%nat)
    /\ (duplicates = [] <-> NoDup [1; 2; 2; 3]%Z).
Proof.
  apply (@check_tool_number_uniqueness_spec library_with_duplicates
           [ PDict [(py "nr", PInt 1); (py "path", PStr (py "drill_5.0mm.fctb"))];
             PDict [(py "nr", PInt 2); (py "path", PStr (py "end_mill_6.0mm_2f.fctb"))];
             PDict [(py "nr", PInt 2); (py "path", PStr (py "60degree_Vbit.fctb"))];
             PDict [(py "nr", PInt 3); (py "path", PStr (py "thread_mill_6.0mm.fctb"))] ]
           [1; 2; 2; 3]%Z eq_refl).
  repeat (constructor; [eexists; split; reflexivity|]). constructor.
Defined.

(** The loop of [get_tool_by_number] on tools with [int] numbers. *)
Lemma first_with_number_spec (tools : list pyval) (numbers : list Z) (n : Z) :
  Forall2 has_number tools numbers ->
  (In n numbers ->
   exists i tool,
     nth_error tools i = Some tool /\ nth_error numbers i = Some n
     /\ (forall j, (j < i)%nat -> nth_error numbers j <> Some n)
     /\ first_with_number tools n = Ok tool)
  /\ (~ In n numbers -> first_with_number tools n = Ok PNone).
Proof.
  induction 1 as [|tool m tools numbers (d & -> & Hm) H [IH1 IH2]].
  - split; [intros []|reflexivity].
  - cbn [first_with_number py_item]. unfold dict_item. rewrite Hm. cbn [bind eq_int].
    destruct (m =? n)%Z eqn:E.
    + apply Z.eqb_eq in E. subst m. split.
      * intros _. exists 0%nat, (PDict d). repeat split. intros j Hj. lia.
      * intros Hn. exfalso. apply Hn. now left.
    + apply Z.eqb_neq in E. split.
      * intros [Hn|Hn]; [contradiction|].
        destruct (IH1 Hn) as (i & tool & Ht & Hi & Hfirst & Hrun).
        exists (S i), tool. repeat split; auto.
        intros [|j] Hj; cbn [nth_error]; [congruence|]. apply Hfirst. lia.
      * intros Hn. apply IH2. intros Hin. apply Hn. now right.
Qed.

(** [get_tool_by_number] on a library whose tools have [int] numbers: it
    returns the first tool with the number, and [None] exactly when no tool
    has it. *)
Theorem get_tool_by_number_spec (library : dict) (tools : list pyval)
        (numbers : list Z) (n : Z) :
  dict_get library (py "tools") = Some (PList tools) ->
  Forall2 has_number tools numbers ->
  (In n numbers ->
   exists i tool,
     nth_error tools i = Some tool /\ nth_error numbers i = Some n
     /\ (forall j, (j < i)%nat -> nth_error numbers j <> Some n)
     /\ has_number tool n
     /\ get_tool_by_number library n = Ok tool)
  /\ (~ In n numbers -> get_tool_by_number library n = Ok PNone).
Proof.
  intros Ht H. unfold get_tool_by_number, dict_item. rewrite Ht. cbn [bind py_iter].
  destruct (@first_with_number_spec tools numbers n H) as [H1 H2].
  split; [|exact H2].
  intros Hn. destruct (H1 Hn) as (i & tool & Hti & Hni & Hfirst & Hrun).
  exists i, tool. repeat split; auto.
  clear - H Hti Hni. revert i Hti Hni.
  induction H as [|t m tools numbers Htm H IH]; intros [|i]; cbn [nth_error];
    try discriminate.
  - intros E1 E2. injection E1 as <-. injection E2 as <-. exact Htm.
  - apply IH.
Qed.

Lemma get_tool_by_number_spec_witness :
  exists i tool,
    nth_error [ PDict [(py "nr", PInt 1); (py "path", PStr (py "drill_5.0mm.fctb"))];
                PDict [(py "nr", PInt 2); (py "path", PStr (py "end_mill_6.0mm_2f.fctb"))];
                PDict [(py "nr", PInt 2); (py "path", PStr (py "60degree_Vbit.fctb"))];
                PDict [(py "nr", PInt 3); (py "path", PStr (py "thread_mill_6.0mm.fctb"))] ]
              i = Some tool
    /\ nth_error [1; 2; 2; 3]%Z i = Some 2%Z
    /\ (forall j, (j < i)%nat -> nth_error [1; 2; 2; 3]%Z j <> Some 2%Z)
    /\ has_number tool 2
    /\ get_tool_by_number library_with_duplicates 2 = Ok tool.
Proof.
  apply (@get_tool_by_number_spec library_with_duplicates
           [ PDict [(py "nr", PInt 1); (py "path", PStr (py "drill_5.0mm.fctb"))];
             PDict [(py "nr", PInt 2); (py "path", PStr (py "end_mill_6.0mm_2f.fctb"))];
             PDict [(py "nr", PInt 2); (py "path", PStr (py "60degree_Vbit.fctb"))];
             PDict [(py "nr", PInt 3); (py "path", PStr (py "thread_mill_6.0mm.fctb"))] ]
           [1; 2; 2; 3]%Z 2%Z eq_refl).
  - repeat (constructor; [eexists; split; reflexivity|]). constructor.
  - cbn. auto.
Defined.


(* ================================================================== *)
(** * fctl_parser.py: [smooth_to_fctl] *)

Lemma member_entry_shape (member entry : pyval) :
  member_entry member = Ok entry -> library_entry entry.
Proof.
  unfold member_entry. intros H.
  apply bind_ok in H as (nr & _ & H). apply bind_ok in H as (path & _ & H).
  apply bind_ok in H as (nr' & _ & H). injection H as <-.
  eexists. eexists. split; [reflexivity|].
  unfold py_or. destruct (truthy path) eqn:E; [exact E|reflexivity].
Qed.

Lemma member_entries_shape (members : pyval) (tools : list pyval) :
  member_entries members = Ok tools -> Forall library_entry tools.
Proof.
  unfold member_entries. intros H. apply bind_ok in H as (entries & _ & H).
  assert (forall acc, Forall library_entry acc ->
            for_each entries
                     (fun tools member => e <- member_entry member ;; Ok (tools ++ [e]))
                     acc = Ok tools ->
            Forall library_entry tools) as Hloop.
  { clear H. induction entries as [|m entries IH]; intros acc Hacc H.
    - injection H as <-. exact Hacc.
    - cbn [for_each] in H. apply bind_ok in H as (acc' & H1 & H2).
      apply bind_ok in H1 as (e & He & H1). injection H1 as <-.
      apply (IH (acc ++ [e])); [|exact H2].
      apply Forall_app. split; [exact Hacc|].
      constructor; [|constructor]. now apply member_entry_shape with (member := m). }
  apply (Hloop []); [constructor|exact H].
Qed.

Lemma numbered_entries_shape (items : list (Z * pyval)) :
  Forall library_entry (map numbered_entry items).
Proof.
  induction items as [|item items IH]; constructor; [|exact IH].
  eexists. eexists. split; reflexivity.
Qed.

(** Every library [smooth_to_fctl] returns has the keys version, label and
    tools; its label is not empty; each of its tools has a number and a
    path that is not empty, and nothing else; and [parse_fctl_dict] accepts
    it, with the same version, label and tools. *)
Theorem smooth_to_fctl_result (tool_set : dict) (tools_dict : option (list (Z * pyval)))
        (fctl : dict) :
  smooth_to_fctl tool_set tools_dict = Ok fctl ->
  exists version label tools,
    fctl = [ (py "version", version); (py "label", label); (py "tools", PList tools) ]
    /\ truthy label = true
    /\ Forall library_entry tools
    /\ parse_fctl_dict fctl
       = Ok [ (py "version", version); (py "label", label); (py "tools", PList tools);
              (py "_original", PDict fctl) ].
Proof.
  unfold smooth_to_fctl. intros H.
  apply bind_ok in H as (tools & Ht & H). apply bind_ok in H as (version & _ & H).
  injection H as <-.
  set (label := py_or (get_or tool_set (py "name") PNone) (PStr (py "Unnamed Library"))).
  assert (truthy label = true) as Hl.
  { unfold label, py_or. destruct (truthy (get_or tool_set (py "name") PNone)) eqn:E;
      [exact E|reflexivity]. }
  exists version, label, tools. split; [reflexivity|]. split; [exact Hl|]. split.
  - destruct (dict_in (py "members") tool_set).
    + apply bind_ok in Ht as (members & _ & Ht). now apply member_entries_shape in Ht.
    + destruct (dict_in (py "tools") tool_set).
      * apply bind_ok in Ht as (members & _ & Ht). now apply member_entries_shape in Ht.
      * destruct tools_dict as [[|item items]|]; injection Ht as <-;
          try constructor. apply numbered_entries_shape.
  - unfold parse_fctl_dict.
    change (missing_fields fctl_required_fields
              [(py "version", version); (py "label", label); (py "tools", PList tools)])
      with (@nil str).
    change (dict_item [(py "version", version); (py "label", label);
                       (py "tools", PList tools)] (py "tools"))
      with (Ok (PList tools)).
    change (dict_item [(py "version", version); (py "label", label);
                       (py "tools", PList tools)] (py "version"))
      with (Ok version).
    change (get_or [(py "version", version); (py "label", label);
                    (py "tools", PList tools)] (py "label") PNone)
      with label.
    cbn [bind is_list negb]. unfold py_or at 1. now rewrite Hl.
Qed.

Lemma smooth_to_fctl_result_witness :
  exists version label tools,
    match smooth_to_fctl tool_set_with_members None with Ok fctl => fctl | Raise _ => [] end
    = [ (py "version", version); (py "label", label); (py "tools", PList tools) ]
    /\ truthy label = true
    /\ Forall library_entry tools
    /\ parse_fctl_dict
         (match smooth_to_fctl tool_set_with_members None with
          | Ok fctl => fctl | Raise _ => [] end)
       = Ok [ (py "version", version); (py "label", label); (py "tools", PList tools);
              (py "_original",
                PDict (match smooth_to_fctl tool_set_with_members None with
                       | Ok fctl => fctl | Raise _ => [] end)) ].
Proof.
  apply (@smooth_to_fctl_result tool_set_with_members None
           (match smooth_to_fctl tool_set_with_members None with
            | Ok fctl => fctl | Raise _ => [] end)).
  vm_compute. reflexivity.
Defined.

Lemma insert_by_number_sorted (item : Z * pyval) (sorted : list (Z * pyval)) :
  Sorted Z.le (map fst sorted) -> Sorted Z.le (map fst (insert_by_number item sorted)).
Proof.
  induction sorted as [|x sorted IH]; intros H; cbn [insert_by_number].
  - repeat constructor.
  - destruct (fst item <? fst x)%Z eqn:E.
    + cbn [map]. constructor; [exact H|]. constructor. apply Z.ltb_lt in E. lia.
    + cbn [map] in H |- *. inversion H as [|? ? Hs Hr]; subst.
      constructor; [now apply IH|].
      apply Z.ltb_ge in E. destruct sorted as [|y sorted]; cbn [insert_by_number map].
      * constructor. exact E.
      * destruct (fst item <? fst y)%Z; cbn [map]; constructor; [exact E|].
        inversion Hr; subst. assumption.
Qed.

Lemma insert_by_number_permutation (item : Z * pyval) (sorted : list (Z * pyval)) :
  Permutation (insert_by_number item sorted) (item :: sorted).
Proof.
  induction sorted as [|x sorted IH]; cbn [insert_by_number]; [reflexivity|].
  destruct (fst item <? fst x)%Z; [reflexivity|].
  rewrite IH. apply perm_swap.
Qed.

Lemma sorted_items_spec (items : list (Z * pyval)) :
  Sorted Z.le (map fst (sorted_items items)) /\ Permutation (sorted_items items) items.
Proof.
  unfold sorted_items.
  assert (forall acc, Sorted Z.le (map fst acc) ->
            Sorted Z.le (map fst (fold_left (fun sorted item =>
                                               insert_by_number item sorted) items acc))
            /\ Permutation (fold_left (fun sorted item =>
                                         insert_by_number item sorted) items acc)
                           (acc ++ items)) as H.
  { induction items as [|item items IH]; intros acc Hacc; cbn [fold_left].
    - rewrite app_nil_r. split; [exact Hacc|reflexivity].
    - destruct (IH (insert_by_number item acc)) as [H1 H2];
        [now apply insert_by_number_sorted|].
      split; [exact H1|]. rewrite H2, insert_by_number_permutation.
      apply Permutation_middle. }
  apply (H []). constructor.
Qed.

(** A tool set that has neither members nor tools is exported from the
    mapping of tool numbers: the library has one tool for each number, in
    ascending order of the numbers, with "tool_<number>.fctb" as its
    path. *)
Theorem smooth_to_fctl_from_numbers (tool_set : dict) (tools_dict : list (Z * pyval)) :
  dict_in (py "members") tool_set = false ->
  dict_in (py "tools") tool_set = false ->
  is_dict (py_or (get_or tool_set (py "freecad_metadata") PNone) (PDict [])) = true ->
  exists fctl numbers,
    smooth_to_fctl tool_set (Some tools_dict) = Ok fctl
    /\ dict_get fctl (py "tools")
       = Some (PList (map (fun n => PDict [ (py "nr", PInt n);
                                            (py "path",
                                              PStr (py "tool_" ++ int_str n
                                                      ++ py ".fctb")) ])
                          numbers))
    /\ Sorted Z.le numbers
    /\ Permutation numbers (map fst tools_dict).
Proof.
  intros Hm Ht Hd. unfold smooth_to_fctl. rewrite Hm, Ht.
  destruct (py_or (get_or tool_set (py "freecad_metadata") PNone) (PDict []))
    as [| | | | | |md]; try discriminate Hd.
  assert (match tools_dict with
          | item :: items => Ok (map numbered_entry (sorted_items (item :: items)))
          | [] => Ok []
          end = Ok (map numbered_entry (sorted_items tools_dict))) as ->.
  { destruct tools_dict; reflexivity. }
  cbn [bind py_get].
  destruct (sorted_items_spec tools_dict) as [Hs Hp].
  eexists. exists (map fst (sorted_items tools_dict)).
  split; [reflexivity|]. split; [|split].
  - cbn [dict_get]. change (str_eqb (py "version") (py "tools")) with false.
    change (str_eqb (py "label") (py "tools")) with false.
    change (str_eqb (py "tools") (py "tools")) with true. cbv iota.
    now rewrite map_map.
  - exact Hs.
  - now apply Permutation_map.
Qed.

Lemma smooth_to_fctl_from_numbers_witness :
  exists fctl numbers,
    smooth_to_fctl [(py "name", PStr (py "Mill"))]
                   (Some [(3%Z, PDict []); (1%Z, PDict []); (2%Z, PDict [])]) = Ok fctl
    /\ dict_get fctl (py "tools")
       = Some (PList (map (fun n => PDict [ (py "nr", PInt n);
                                            (py "path",
                                              PStr (py "tool_" ++ int_str n
                                                      ++ py ".fctb")) ])
                          numbers))
    /\ Sorted Z.le numbers
    /\ Permutation numbers [3; 1; 2]%Z.
Proof.
  apply (@smooth_to_fctl_from_numbers [(py "name", PStr (py "Mill"))]
           [(3%Z, PDict []); (1%Z, PDict []); (2%Z, PDict [])]); reflexivity.
Defined.
(* ================================================================== *)
(** * fctl_parser.py: loading the tool bits of a library *)

Lemma collect_from {A B} (f : A -> result B) (xs : list A) :
  forall (acc ys : list B),
    for_each xs (fun acc x => y <- f x ;; Ok (acc ++ [y])) acc = Ok ys ->
    exists ys', ys = acc ++ ys' /\ Forall2 (fun x y => f x = Ok y) xs ys'.
Proof.
  induction xs as [|x xs IH]; intros acc ys H.
  - injection H as <-. exists []. split; [now rewrite app_nil_r|constructor].
  - cbn [for_each] in H. apply bind_ok in H as (acc' & H1 & H2).
    apply bind_ok in H1 as (y & Hy & H1). injection H1 as <-.
    destruct (IH _ _ H2) as (ys' & -> & HF).
    exists (y :: ys'). split; [now rewrite <- app_assoc|]. now constructor.
Qed.

Lemma collect_spec {A B} (f : A -> result B) (xs : list A) (ys : list B) :
  collect f xs = Ok ys <-> Forall2 (fun x y => f x = Ok y) xs ys.
Proof.
  unfold collect. split.
  - intros H. apply collect_from in H as (ys' & -> & HF). exact HF.
  - intros H. now apply (@for_each_collect A B f xs ys []).
Qed.

Lemma collect_raise {A B} (f : A -> result B) (xs : list A) (x : A) (e : exn) :
  In x xs -> f x = Raise e -> exists e', collect f xs = Raise e'.
Proof.
  intros Hin He. destruct (collect f xs) as [ys|e'] eqn:E; [|eauto].
  apply collect_spec in E. exfalso.
  induction E as [|x0 y xs ys Hx E IH]; [destruct Hin|].
  destruct Hin as [->|Hin]; [congruence|auto].
Qed.

Lemma Forall2_compose {A B C} (P : A -> B -> Prop) (Q : B -> C -> Prop)
      (xs : list A) (ys : list B) (zs : list C) :
  Forall2 P xs ys -> Forall2 Q ys zs ->
  Forall2 (fun x z => exists y, P x y /\ Q y z) xs zs.
Proof.
  intros H. revert zs. induction H as [|x y xs ys Hxy H IH]; intros zs HQ;
    inversion HQ; subst; constructor; eauto.
Qed.

Lemma Forall2_weaken {A B} (P Q : A -> B -> Prop) (xs : list A) (ys : list B) :
  (forall x y, P x y -> Q x y) -> Forall2 P xs ys -> Forall2 Q xs ys.
Proof. intros H. induction 1; constructor; auto. Qed.

Lemma loading_key_neq (k k' : str) :
  loading_key k = false -> loading_key k' = true -> k' <> k.
Proof. intros H H' ->. congruence. Qed.

(** One entry after the loading: the entry with its "resolved", and with
    its tool data when the file was there and parsed. *)
Lemma load_entry_spec (files : tool_files) (bits_dir : str) (tool_entry loaded_entry
                                                             : pyval) :
  load_entry files bits_dir tool_entry = Ok loaded_entry ->
  exists entry loaded_fields tool_path,
    tool_entry = PDict entry /\ loaded_entry = PDict loaded_fields
    /\ dict_get entry (py "path") = Some (PStr tool_path)
    /\ (forall k, loading_key k = false -> dict_get loaded_fields k = dict_get entry k)
    /\ dict_get loaded_fields (py "resolved")
       = Some (PBool (tool_exists files (resolve_tool_path tool_path bits_dir)
                      && returned (parse_fctb files
                                              (resolve_tool_path tool_path bits_dir))))
    /\ (tool_exists files (resolve_tool_path tool_path bits_dir) = true ->
        forall tool_data,
          parse_fctb files (resolve_tool_path tool_path bits_dir) = Ok tool_data ->
          dict_get loaded_fields (py "tool_data") = Some (PDict tool_data)).
Proof.
  unfold load_entry. intros H.
  destruct tool_entry as [| | | | | |entry]; try discriminate H.
  unfold dict_item in H.
  destruct (dict_get entry (py "path")) as [path|] eqn:Ep; [|discriminate].
  cbn [bind] in H. destruct path as [| | | |tool_path| |]; try discriminate H.
  exists entry. 
  assert (forall k v, loading_key k = false -> forall k', loading_key k' = true ->
            forall d, dict_get (dict_set d k' v) k = dict_get d k) as Hother.
  { intros k v Hk k' Hk' d. apply dict_get_set_other. now apply loading_key_neq. }
  destruct (tool_exists files (resolve_tool_path tool_path bits_dir)) eqn:Ex.
  - destruct (parse_fctb files (resolve_tool_path tool_path bits_dir)) as [data|e]
      eqn:Epar.
    + injection H as <-. eexists. exists tool_path. rewrite Ex, Epar.
      split; [reflexivity|]. split; [reflexivity|]. split; [exact Ep|].
      split; [|split].
      * intros k Hk. now rewrite !Hother.
      * apply dict_get_set_same.
      * intros _ data' E. injection E as <-.
        rewrite dict_get_set_other by (intros E; discriminate E).
        apply dict_get_set_same.
    + destruct e; try discriminate H. injection H as <-. eexists. exists tool_path.
      rewrite Ex, Epar.
      split; [reflexivity|]. split; [reflexivity|]. split; [exact Ep|].
      split; [|split].
      * intros k Hk. now rewrite !Hother.
      * apply dict_get_set_same.
      * intros _ data' E. discriminate E.
  - injection H as <-. eexists. exists tool_path. rewrite Ex.
    split; [reflexivity|]. split; [reflexivity|]. split; [exact Ep|].
    split; [|split].
    + intros k Hk. now rewrite Hother.
    + apply dict_get_set_same.
    + discriminate.
Qed.

(** The library [load_library_with_tools] returns: the keys of the library
    with their values, the tools apart; as many tools as the library has,
    in its order; each tool with the keys of its entry (apart from
    tool_data, error and resolved) and a "resolved" that is [True] exactly
    when there is a file at the path and [parse_fctb] returns its tool,
    which is then the tool_data. *)
Theorem load_library_with_tools_spec (files : tool_files) (library : dict)
        (bits_dir : str) (loaded_library : dict) :
  load_library_with_tools files library bits_dir = Ok loaded_library ->
  exists tools loaded_tools,
    (tools <- dict_item library (py "tools") ;; py_iter tools) = Ok tools
    /\ dict_get loaded_library (py "tools") = Some (PList loaded_tools)
    /\ dict_keys loaded_library = dict_keys library
    /\ (forall k, str_eqb k (py "tools") = false ->
                  dict_get loaded_library k = dict_get library k)
    /\ Forall2
         (fun tool_entry loaded_entry =>
            exists entry loaded_fields tool_path,
              tool_entry = PDict entry /\ loaded_entry = PDict loaded_fields
              /\ dict_get entry (py "path") = Some (PStr tool_path)
              /\ (forall k, loading_key k = false ->
                            dict_get loaded_fields k = dict_get entry k)
              /\ dict_get loaded_fields (py "resolved")
                 = Some (PBool (tool_exists files (resolve_tool_path tool_path bits_dir)
                                && returned (parse_fctb files
                                               (resolve_tool_path tool_path bits_dir))))
              /\ (tool_exists files (resolve_tool_path tool_path bits_dir) = true ->
                  forall tool_data,
                    parse_fctb files (resolve_tool_path tool_path bits_dir)
                    = Ok tool_data ->
                    dict_get loaded_fields (py "tool_data") = Some (PDict tool_data)))
         tools loaded_tools.
Proof.
  unfold load_library_with_tools. intros H.
  apply bind_ok in H as (tools & Ht & H). apply bind_ok in H as (entries & He & H).
  apply bind_ok in H as (loaded_tools & Hl & H). injection H as <-.
  exists entries, loaded_tools. rewrite Ht. cbn [bind].
  split; [exact He|]. split; [apply dict_get_set_same|]. split; [|split].
  - rewrite dict_keys_set.
    assert (dict_in (py "tools") library = true) as ->; [|reflexivity].
    unfold dict_in, dict_item in *. destruct (dict_get library (py "tools"));
      [reflexivity|discriminate].
  - intros k Hk. apply dict_get_set_other. intros <-.
    rewrite str_eqb_refl in Hk. discriminate.
  - apply collect_spec in Hl.
    eapply Forall2_weaken; [|exact Hl]. intros x y. apply load_entry_spec.
Qed.

Lemma load_library_with_tools_spec_witness :
  exists tools loaded_tools,
    (tools <- dict_item library_of_three (py "tools") ;; py_iter tools) = Ok tools
    /\ dict_get (match load_library_with_tools example_files library_of_three (py "Bit")
                 with Ok l => l | Raise _ => [] end) (py "tools")
       = Some (PList loaded_tools)
    /\ map (fun t => match t with
                     | PDict d => get_or d (py "resolved") PNone
                     | _ => PNone
                     end) loaded_tools
       = [PBool true; PBool false; PBool false].
Proof.
  destruct (@load_library_with_tools_spec example_files library_of_three (py "Bit")
              (match load_library_with_tools example_files library_of_three (py "Bit")
               with Ok l => l | Raise _ => [] end))
    as (tools & loaded_tools & Ht & Hl & _).
  - vm_compute. reflexivity.
  - exists tools, loaded_tools. split; [exact Ht|]. split; [exact Hl|].
    vm_compute in Hl. injection Hl as <-. vm_compute. reflexivity.
Defined.

(** A tool bit file that is there and on which [parse_fctb] raises
    something else than an FctbParseError makes the loading of the whole
    library raise: the entry is not marked as unresolved.  A file that
    holds a number, or a document whose parameter is [null], is such a
    file. *)
Theorem load_library_with_tools_raises (files : tool_files) (library : dict)
        (bits_dir : str) (tools : list pyval) (entry : dict) (tool_path : str)
        (e : exn) :
  dict_get library (py "tools") = Some (PList tools) ->
  In (PDict entry) tools ->
  dict_get entry (py "path") = Some (PStr tool_path) ->
  tool_exists files (resolve_tool_path tool_path bits_dir) = true ->
  parse_fctb files (resolve_tool_path tool_path bits_dir) = Raise e ->
  (forall message, e <> FctbParseError message) ->
  exists e', load_library_with_tools files library bits_dir = Raise e'.
Proof.
  intros Ht Hin Hp Hex Hparse Hne.
  unfold load_library_with_tools, dict_item. rewrite Ht. cbn [bind py_iter].
  destruct (@collect_raise pyval pyval (load_entry files bits_dir) tools
              (PDict entry) e Hin) as [e' He'].
  - unfold load_entry, dict_item. rewrite Hp. cbn [bind]. rewrite Hex, Hparse.
    destruct e; try reflexivity. now elim (Hne msg).
  - exists e'. now rewrite He'.
Qed.

Lemma load_library_with_tools_raises_witness :
  exists e',
    load_library_with_tools example_files library_with_null_parameter (py "Bit")
    = Raise e'.
Proof.
  apply (@load_library_with_tools_raises example_files library_with_null_parameter
           (py "Bit")
           [ PDict [(py "nr", PInt 1); (py "path", PStr (py "drill_5.0mm.fctb"))];
             PDict [(py "nr", PInt 2); (py "path", PStr (py "null_parameter.fctb"))] ]
           [(py "nr", PInt 2); (py "path", PStr (py "null_parameter.fctb"))]
           (py "null_parameter.fctb") AttributeError).
  - reflexivity.
  - right. now left.
  - reflexivity.
  - reflexivity.
  - reflexivity.
  - intros message. discriminate.
Defined.
(* ================================================================== *)
(** * fctl_parser.py: a library as a tool set, and back *)

Lemma load_entry_keeps (files : tool_files) (bits_dir : str)
      (tool_entry loaded_entry : pyval) :
  load_entry files bits_dir tool_entry = Ok loaded_entry ->
  exists entry loaded_fields,
    tool_entry = PDict entry /\ loaded_entry = PDict loaded_fields
    /\ dict_get loaded_fields (py "nr") = dict_get entry (py "nr")
    /\ dict_get loaded_fields (py "path") = dict_get entry (py "path").
Proof.
  intros H. apply load_entry_spec in H
    as (entry & fields & p & -> & -> & _ & Hk & _).
  exists entry, fields. repeat split; apply Hk; reflexivity.
Qed.

Lemma tool_set_item_spec (fields : dict) (item : pyval) :
  tool_set_item (PDict fields) = Ok item ->
  exists nr path,
    dict_get fields (py "nr") = Some nr /\ dict_get fields (py "path") = Some path
    /\ item
       = PDict ([ (py "tool_number", nr); (py "tool_path", path) ]
                  ++ if truthy (get_or fields (py "resolved") PNone)
                     then match dict_get fields (py "tool_data") with
                          | Some tool_data => [(py "tool_data", tool_data)]
                          | None => []
                          end
                     else []).
Proof.
  unfold tool_set_item. cbn [py_item py_get py_in]. unfold dict_item, dict_in, get_or.
  intros H.
  destruct (dict_get fields (py "nr")) as [nr|]; [|discriminate].
  destruct (dict_get fields (py "path")) as [path|]; [|discriminate].
  cbn [bind] in H. exists nr, path. split; [reflexivity|]. split; [reflexivity|].
  destruct (truthy match dict_get fields (py "resolved") with
                   | Some x => x | None => PNone end).
  - cbn [bind] in H. destruct (dict_get fields (py "tool_data")) as [data|];
      cbn [bind] in H; injection H as <-; reflexivity.
  - cbn [bind] in H. injection H as <-. reflexivity.
Qed.

(** A library that became a tool set comes back from [smooth_to_fctl] with
    its version, with its label (or "Unnamed Library" when the label is
    empty or [null]), and with one tool for each of its tools, in its
    order: the number of the tool, and its path, or "tool_<number>.fctb"
    when the path is empty.  Nothing else of a tool entry comes back, and
    what the tool bit files hold makes no difference. *)
Theorem library_round_trip (files : tool_files) (library : dict) (bits_dir : str)
        (tool_set : dict) :
  library_to_smooth_tool_set files library bits_dir = Ok tool_set ->
  exists version label tools entries,
    dict_get library (py "version") = Some version
    /\ dict_get library (py "label") = Some label
    /\ (tools <- dict_item library (py "tools") ;; py_iter tools) = Ok tools
    /\ smooth_to_fctl tool_set None
       = Ok [ (py "version", version);
              (py "label", py_or label (PStr (py "Unnamed Library")));
              (py "tools", PList entries) ]
    /\ Forall2
         (fun tool_entry entry =>
            exists fields nr path,
              tool_entry = PDict fields
              /\ dict_get fields (py "nr") = Some nr
              /\ dict_get fields (py "path") = Some path
              /\ entry
                 = PDict [ (py "nr", nr);
                           (py "path",
                             py_or path
                                   (PStr (py "tool_" ++ py_str nr ++ py ".fctb"))) ])
         tools entries.
Proof.
  unfold library_to_smooth_tool_set. intros H.
  apply bind_ok in H as (loaded & Hload & H).
  unfold load_library_with_tools in Hload.
  apply bind_ok in Hload as (tools0 & Ht & Hload).
  apply bind_ok in Hload as (tools & Hiter & Hload).
  apply bind_ok in Hload as (loaded_tools & Hl & Hload). injection Hload as <-.
  unfold dict_item in H at 1. rewrite dict_get_set_same in H. cbn [bind py_iter] in H.
  apply bind_ok in H as (items & Hi & H).
  unfold dict_item in H.
  destruct (dict_get library (py "label")) as [label|]; [|discriminate].
  destruct (dict_get library (py "version")) as [version|]; [|discriminate].
  cbn [bind] in H. injection H as <-.
  apply collect_spec in Hl, Hi.
  (* the entries [smooth_to_fctl] makes of the items *)
  assert (exists entries,
             collect member_entry items = Ok entries
             /\ Forall2
                  (fun tool_entry entry =>
                     exists fields nr path,
                       tool_entry = PDict fields
                       /\ dict_get fields (py "nr") = Some nr
                       /\ dict_get fields (py "path") = Some path
                       /\ entry
                          = PDict [ (py "nr", nr);
                                    (py "path",
                                      py_or path
                                        (PStr (py "tool_" ++ py_str nr ++ py ".fctb"))) ])
                  tools entries) as (entries & He & HF).
  { clear Ht Hiter. revert items Hi.
    induction Hl as [|tool_entry loaded_entry tools loaded_tools Hx Hl IH];
      intros items Hi; inversion Hi as [|? item ? items' Hy Hi']; subst.
    - exists []. split; [reflexivity|constructor].
    - destruct (IH items' Hi') as (entries & He & HF).
      apply load_entry_keeps in Hx as (fields & lf & -> & -> & Hnr & Hpath).
      apply tool_set_item_spec in Hy as (nr & path & Hn & Hp & ->).
      rewrite Hnr in Hn. rewrite Hpath in Hp.
      apply collect_spec in He.
      eexists. split.
      + apply collect_spec. constructor; [|exact He].
        unfold member_entry. cbn [py_get app]. unfold dict_item.
        change (dict_get ((py "tool_number", nr) :: (py "tool_path", path) :: ?r)
                         (py "tool_number")) with (Some nr).
        change (dict_get ((py "tool_number", nr) :: (py "tool_path", path) :: ?r)
                         (py "tool_path")) with (Some path).
        cbn [bind]. reflexivity.
      + constructor; [|exact HF]. exists fields, nr, path. auto. }
  exists version, label, tools, entries.
  split; [reflexivity|]. split; [reflexivity|].
  split; [rewrite Ht; cbn [bind]; exact Hiter|]. split; [|exact HF].
  unfold smooth_to_fctl, member_entries, collect in *.
  cbn [dict_in dict_get dict_item get_or py_or truthy bind py_iter py_get].
  change (dict_in (py "members") ?d) with false.
  cbv iota.
  change (dict_in (py "tools") ((py "name", label) :: ?r)) with true.
  cbv iota. unfold dict_item.
  change (dict_get ((py "name", label) :: ?a :: (py "tools", PList items) :: ?r)
                   (py "tools")) with (Some (PList items)).
  cbn [bind py_iter]. rewrite He. cbn [bind].
  reflexivity.
Qed.

Lemma library_round_trip_witness :
  exists version label tools entries,
    dict_get library_of_three (py "version") = Some version
    /\ dict_get library_of_three (py "label") = Some label
    /\ (tools <- dict_item library_of_three (py "tools") ;; py_iter tools) = Ok tools
    /\ smooth_to_fctl
         (match library_to_smooth_tool_set example_files library_of_three (py "Bit")
          with Ok tool_set => tool_set | Raise _ => [] end) None
       = Ok [ (py "version", version);
              (py "label", py_or label (PStr (py "Unnamed Library")));
              (py "tools", PList entries) ]
    /\ Forall2
         (fun tool_entry entry =>
            exists fields nr path,
              tool_entry = PDict fields
              /\ dict_get fields (py "nr") = Some nr
              /\ dict_get fields (py "path") = Some path
              /\ entry
                 = PDict [ (py "nr", nr);
                           (py "path",
                             py_or path
                                   (PStr (py "tool_" ++ py_str nr ++ py ".fctb"))) ])
         tools entries.
Proof.
  apply (@library_round_trip example_files library_of_three (py "Bit")
           (match library_to_smooth_tool_set example_files library_of_three (py "Bit")
            with Ok tool_set => tool_set | Raise _ => [] end)).
  vm_compute. reflexivity.
Defined.

Lemma preset_of_spec (machine_id : str) (fields : dict) (presets : list pyval) :
  preset_of machine_id (PDict fields) = Ok presets ->
  forall item, tool_set_item (PDict fields) = Ok item ->
               presets = item_preset machine_id item.
Proof.
  intros Hp item Hi.
  apply tool_set_item_spec in Hi as (nr & path & Hn & Hpa & ->).
  unfold preset_of in Hp. cbn [py_get py_in py_item] in Hp.
  unfold dict_item, dict_in, get_or in *. rewrite Hn, Hpa in Hp.
  assert (forall r : pyval,
             (skip <- (if negb (truthy r) then Ok true
                       else has_data <- Ok match dict_get fields (py "tool_data") with
                                           | Some _ => true | None => false end ;;
                            Ok (negb has_data)) ;;
              if skip then Ok []
              else
                nr0 <- Ok nr ;;
                tool_data <- match dict_get fields (py "tool_data") with
                             | Some x => Ok x
                             | None => Raise (KeyError (py "tool_data"))
                             end ;;
                path0 <- Ok path ;;
                Ok [ PDict [ (py "machine_id", PStr machine_id);
                             (py "tool_number", nr0);
                             (py "tool_data", tool_data);
                             (py "source", PStr (py "freecad"));
                             (py "source_path", path0) ] ]) = Ok presets ->
             presets
             = item_preset machine_id
                 (PDict ([(py "tool_number", nr); (py "tool_path", path)]
                           ++ (if truthy r
                               then match dict_get fields (py "tool_data") with
                                    | Some tool_data => [(py "tool_data", tool_data)]
                                    | None => []
                                    end
                               else [])))) as Hcase.
  { intros r H. destruct (truthy r); cbn [negb bind] in H.
    - destruct (dict_get fields (py "tool_data")) as [data|]; cbn [negb bind] in H;
        injection H as <-; reflexivity.
    - injection H as <-. reflexivity. }
  apply Hcase. exact Hp.
Qed.

Lemma presets_from {A} (f : A -> result (list pyval)) (xs : list A) :
  forall (acc ys : list pyval),
    for_each xs (fun acc x => y <- f x ;; Ok (acc ++ y)) acc = Ok ys ->
    exists yss, ys = acc ++ concat yss /\ Forall2 (fun x y => f x = Ok y) xs yss.
Proof.
  induction xs as [|x xs IH]; intros acc ys H.
  - injection H as <-. exists []. split; [now rewrite app_nil_r|constructor].
  - cbn [for_each] in H. apply bind_ok in H as (acc' & H1 & H2).
    apply bind_ok in H1 as (y & Hy & H1). injection H1 as <-.
    destruct (IH _ _ H2) as (yss & -> & HF).
    exists (y :: yss). split; [cbn [concat]; now rewrite <- app_assoc|].
    now constructor.
Qed.

(** The presets of a library are the tools of its tool set that carry
    their tool data, in the same order, each with the machine id, the
    number, the data and the path of the tool; a tool that was not
    resolved gives no preset. *)
Theorem presets_of_the_tool_set (files : tool_files) (library : dict) (bits_dir : str)
        (machine_id : str) (tool_set : dict) (presets : list pyval) :
  library_to_smooth_tool_set files library bits_dir = Ok tool_set ->
  library_to_smooth_presets files library bits_dir machine_id = Ok presets ->
  exists items,
    dict_get tool_set (py "tools") = Some (PList items)
    /\ presets = flat_map (item_preset machine_id) items.
Proof.
  unfold library_to_smooth_tool_set, library_to_smooth_presets. intros Hs Hp.
  apply bind_ok in Hs as (loaded & Hload & Hs).
  rewrite Hload in Hp. cbn [bind] in Hp.
  pose proof Hload as Hload'. unfold load_library_with_tools in Hload'.
  apply bind_ok in Hload' as (tools0 & _ & Hload').
  apply bind_ok in Hload' as (tools & _ & Hload').
  apply bind_ok in Hload' as (loaded_tools & Hl & Hload'). injection Hload' as <-.
  unfold dict_item in Hs at 1. unfold dict_item in Hp at 1.
  rewrite dict_get_set_same in Hs, Hp. cbn [bind py_iter] in Hs, Hp.
  apply bind_ok in Hs as (items & Hi & Hs).
  apply bind_ok in Hs as (name & _ & Hs). apply bind_ok in Hs as (label & _ & Hs).
  apply bind_ok in Hs as (version & _ & Hs). apply bind_ok in Hs as (ol & _ & Hs).
  injection Hs as <-.
  exists items. split; [reflexivity|].
  apply collect_spec in Hl, Hi.
  apply presets_from in Hp as (yss & -> & Hy). cbn [app].
  clear Hload. revert items yss Hi Hy.
  induction Hl as [|tool_entry loaded_entry tools loaded_tools Hx Hl IH];
    intros items yss Hi Hy; inversion Hi; inversion Hy; subst; [reflexivity|].
  cbn [concat flat_map]. f_equal; [|now apply IH].
  apply load_entry_keeps in Hx as (fields & lf & -> & -> & _).
  now apply preset_of_spec with (fields := lf).
Qed.

Lemma presets_of_the_tool_set_witness :
  exists items,
    dict_get (match library_to_smooth_tool_set example_files library_of_three (py "Bit")
              with Ok tool_set => tool_set | Raise _ => [] end) (py "tools")
    = Some (PList items)
    /\ match library_to_smooth_presets example_files library_of_three (py "Bit")
                                       (py "freecad_default")
       with Ok presets => presets | Raise _ => [] end
       = flat_map (item_preset (py "freecad_default")) items.
Proof.
  apply (@presets_of_the_tool_set example_files library_of_three (py "Bit")
           (py "freecad_default")
           (match library_to_smooth_tool_set example_files library_of_three (py "Bit")
            with Ok tool_set => tool_set | Raise _ => [] end)
           (match library_to_smooth_presets example_files library_of_three (py "Bit")
                                            (py "freecad_default")
            with Ok presets => presets | Raise _ => [] end));
    vm_compute; reflexivity.
Defined.
(* ================================================================== *)
(** * shape_storage.py: finding and describing shape files *)

Lemma first_existing_spec (fs : filesystem) (shape_reference : str) (dirs : list str) :
  match first_existing fs shape_reference dirs with
  | Some path =>
      exists before after,
        map (fun dir => path_join dir shape_reference) dirs = before ++ path :: after
        /\ exists_ fs path = true
        /\ Forall (fun candidate => exists_ fs candidate = false) before
  | None =>
      Forall (fun candidate => exists_ fs candidate = false)
             (map (fun dir => path_join dir shape_reference) dirs)
  end.
Proof.
  induction dirs as [|dir dirs IH]; cbn [first_existing map]; [constructor|].
  destruct (exists_ fs (path_join dir shape_reference)) eqn:E.
  - exists [], (map (fun dir => path_join dir shape_reference) dirs).
    split; [reflexivity|]. split; [exact E|constructor].
  - destruct (first_existing fs shape_reference dirs) as [path|].
    + destruct IH as (before & after & Hc & Hp & Hb).
      exists (path_join dir shape_reference :: before), after.
      split; [cbn [app]; now rewrite Hc|]. split; [exact Hp|]. now constructor.
    + now constructor.
Qed.

(** [resolve_shape_file_path] returns the first of its candidates that
    exists, the base directory first and then the search directories in
    their order, and [None] exactly when none of them exists. *)
Theorem resolve_shape_file_path_first (fs : filesystem) (shape_reference base_dir : str)
        (search_dirs : option (list str)) :
  let dirs := base_dir :: match search_dirs with Some dirs => dirs | None => [] end in
  let candidates := map (fun dir => path_join dir shape_reference) dirs in
  match resolve_shape_file_path fs shape_reference base_dir search_dirs with
  | Some path =>
      exists before after,
        candidates = before ++ path :: after
        /\ exists_ fs path = true
        /\ Forall (fun candidate => exists_ fs candidate = false) before
  | None => Forall (fun candidate => exists_ fs candidate = false) candidates
  end.
Proof.
  cbv zeta. unfold resolve_shape_file_path.
  assert (match search_dirs with
          | Some (dir :: dirs) => first_existing fs shape_reference (dir :: dirs)
          | _ => None
          end
          = first_existing fs shape_reference
                           match search_dirs with Some dirs => dirs | None => [] end)
    as ->.
  { destruct search_dirs as [[|dir dirs]|]; reflexivity. }
  apply (first_existing_spec fs shape_reference
           (base_dir :: match search_dirs with Some dirs => dirs | None => [] end)).
Qed.

Lemma path_join_absolute (base other : str) :
  startswith (py "/") other = true ->
  path_join base other = path_text (path_root other) (path_parts other).
Proof. intros H. unfold path_join. now rewrite H. Qed.

Lemma first_existing_same (fs : filesystem) (shape_reference path : str)
      (dirs : list str) :
  (forall dir, path_join dir shape_reference = path) ->
  exists_ fs path = false -> first_existing fs shape_reference dirs = None.
Proof.
  intros Hsame Hp. induction dirs as [|dir dirs IH]; [reflexivity|].
  cbn [first_existing]. now rewrite Hsame, Hp.
Qed.

(** An absolute path is taken as it is: [resolve_tool_path] and
    [resolve_shape_file_path] do not keep a reference that starts with "/"
    inside the directories they are given.  The tool path is the same for
    every bits directory, and the shape file is that one path when it
    exists, whatever the base and the search directories are. *)
Theorem absolute_reference_ignores_directories (fs : filesystem) (reference : str) :
  startswith (py "/") reference = true ->
  exists path,
    (forall bits_dir, resolve_tool_path reference bits_dir = path)
    /\ forall base_dir search_dirs,
         resolve_shape_file_path fs reference base_dir search_dirs
         = if exists_ fs path then Some path else None.
Proof.
  intros H. exists (path_text (path_root reference) (path_parts reference)).
  split.
  - intros bits_dir. now apply path_join_absolute.
  - intros base_dir search_dirs. unfold resolve_shape_file_path.
    rewrite (path_join_absolute base_dir _ H).
    destruct (exists_ fs (path_text (path_root reference) (path_parts reference)))
      eqn:E; [reflexivity|].
    destruct search_dirs as [[|dir dirs]|]; try reflexivity.
    apply first_existing_same
      with (path := path_text (path_root reference) (path_parts reference));
      [|exact E].
    intros d. now apply path_join_absolute.
Qed.

Lemma absolute_reference_ignores_directories_witness :
  exists path,
    (forall bits_dir, resolve_tool_path (py "/etc/passwd") bits_dir = path)
    /\ forall base_dir search_dirs,
         resolve_shape_file_path fs_with_shape (py "/etc/passwd") base_dir search_dirs
         = if exists_ fs_with_shape path then Some path else None.
Proof.
  apply (@absolute_reference_ignores_directories fs_with_shape (py "/etc/passwd")).
  reflexivity.
Defined.

(** The hash that this module writes for a file verifies against the
    file. *)
Lemma verify_written_hash (fs : filesystem) (path : str) (content : list Z) :
  fs path = Some (File content) ->
  verify_shape_file_integrity fs path (py "sha256:" ++ SHA256.hexdigest content)
  = Ok true.
Proof.
  intros H. unfold verify_shape_file_integrity, exists_. rewrite H. cbn [negb].
  rewrite (@calculate_file_hash_file fs path content H). cbn [bind].
  assert (contains (py ":") (py "sha256:" ++ SHA256.hexdigest content) = true) as ->.
  { apply contains_app_l. reflexivity. }
  change (py "sha256:" ++ SHA256.hexdigest content)
    with (py "sha256" ++ py ":" ++ SHA256.hexdigest content).
  rewrite split_once_colon by reflexivity.
  now rewrite str_eqb_refl.
Qed.

(** What [create_shape_data_reference] writes.  For a file that is there,
    the reference holds a hash that [verify_shape_file_integrity] accepts
    for the file, the number of its bytes, and the upload URL as a "url"
    when one is given, the path as a "local_path" otherwise; the metadata
    holds the name of the file.  For a path with nothing at it the
    reference is the path as a "local_path", without hash and size, also
    when an upload URL is given. *)
Theorem create_shape_data_reference_spec (fs : filesystem) (path : str)
        (shape_type upload_url : pyval) :
  match fs path with
  | Some (File content) =>
      exists shape_data reference metadata,
        create_shape_data_reference fs (Some path) shape_type upload_url
        = Ok (PDict shape_data)
        /\ dict_get shape_data (py "reference") = Some (PDict reference)
        /\ dict_get shape_data (py "metadata") = Some (PDict metadata)
        /\ dict_get reference (py "hash")
           = Some (PStr (py "sha256:" ++ SHA256.hexdigest content))
        /\ verify_shape_file_integrity fs path (py "sha256:" ++ SHA256.hexdigest content)
           = Ok true
        /\ dict_get reference (py "size_bytes") = Some (PInt (Z.of_nat (length content)))
        /\ dict_get reference (py "type")
           = Some (PStr (if truthy upload_url then py "url" else py "local_path"))
        /\ dict_get reference (py "value")
           = Some (if truthy upload_url then upload_url else PStr path)
        /\ dict_get metadata (py "filename") = Some (PStr (path_name path))
  | Some Dir =>
      create_shape_data_reference fs (Some path) shape_type upload_url
      = Raise IsADirectoryError
  | None =>
      create_shape_data_reference fs (Some path) shape_type upload_url
      = Ok (PDict
              [ (py "format", PStr (file_format path));
                (py "source_system", PStr (py "freecad"));
                (py "reference",
                  PDict [ (py "type", PStr (py "local_path"));
                          (py "value", PStr path) ]);
                (py "metadata",
                  PDict [ (py "shape_type", shape_type);
                          (py "original_reference", PStr path) ]) ])
  end.
Proof.
  destruct (fs path) as [[content|]|] eqn:E.
  - unfold create_shape_data_reference, exists_, st_size, open_rb. rewrite E.
    cbn [negb]. rewrite (@calculate_file_hash_file fs path content E). cbn [bind].
    eexists. eexists. eexists. split; [reflexivity|].
    split; [reflexivity|]. split; [reflexivity|]. split; [reflexivity|].
    split; [now apply verify_written_hash|]. repeat split.
  - unfold create_shape_data_reference, exists_, calculate_file_hash, open_rb.
    rewrite E. reflexivity.
  - unfold create_shape_data_reference, exists_. rewrite E. reflexivity.
Qed.

(** What [prepare_shape_upload] returns: a FileNotFoundError for a path
    with nothing at it; for a file, its name, the hash that
    [verify_shape_file_integrity] accepts for it, the number of its bytes
    and its bytes in base64. *)
Theorem prepare_shape_upload_spec (fs : filesystem) (path : str) :
  match fs path with
  | Some (File content) =>
      prepare_shape_upload fs path
      = Ok [ (py "filename", PStr (path_name path));
             (py "format", PStr (file_format path));
             (py "content", PStr (b64encode content));
             (py "hash", PStr (py "sha256:" ++ SHA256.hexdigest content));
             (py "size_bytes", PInt (Z.of_nat (length content))) ]
      /\ verify_shape_file_integrity fs path (py "sha256:" ++ SHA256.hexdigest content)
         = Ok true
  | Some Dir => prepare_shape_upload fs path = Raise IsADirectoryError
  | None => prepare_shape_upload fs path = Raise FileNotFoundError
  end.
Proof.
  destruct (fs path) as [[content|]|] eqn:E.
  - split; [|now apply verify_written_hash].
    unfold prepare_shape_upload, exists_, st_size, open_rb. rewrite E.
    cbn [negb bind]. rewrite (@calculate_file_hash_file fs path content E).
    reflexivity.
  - unfold prepare_shape_upload, exists_, open_rb. rewrite E. reflexivity.
  - unfold prepare_shape_upload, exists_. rewrite E. reflexivity.
Qed.
(* ================================================================== *)
(** * SmoothDialog.py: the base URL *)

Lemma rstrip_slash_keep (s : str) (c : char) :
  N.eqb c 47 = false -> rstrip_slash (s ++ [c]) = s ++ [c].
Proof.
  intros H. unfold rstrip_slash. rewrite rev_app_distr. cbn [rev app]. rewrite H.
  change (c :: rev s) with (rev [c] ++ rev s). rewrite <- rev_app_distr.
  apply rev_involutive.
Qed.

Lemma rstrip_slash_drop (s : str) : rstrip_slash (s ++ py "/") = rstrip_slash s.
Proof.
  unfold rstrip_slash. rewrite rev_app_distr. reflexivity.
Qed.

Lemma bare_url_inv (url : str) :
  bare_url url = true ->
  exists c r s d,
    url = c :: r /\ url = s ++ [d]
    /\ is_space c = false /\ is_space d = false /\ N.eqb d 47 = false.
Proof.
  unfold bare_url. destruct url as [|c r]; [discriminate|].
  destruct (rev (c :: r)) as [|d s'] eqn:E; [discriminate|].
  intros H. apply andb_true_iff in H as [H H3]. apply andb_true_iff in H as [H1 H2].
  apply negb_true_iff in H1, H2, H3.
  exists c, r, (rev s'), d. repeat split; auto.
  apply (f_equal (@rev _)) in E. rewrite rev_involutive in E. exact E.
Qed.

Lemma strip_between (c d : char) (s : str) :
  is_space c = false -> is_space d = false -> strip (c :: s ++ [d]) = c :: s ++ [d].
Proof.
  intros Hc Hd. apply strip_id; [exact Hc|].
  change (c :: s ++ [d]) with ((c :: s) ++ [d]). rewrite rev_app_distr. exact Hd.
Qed.

Lemma firstn_length_app (a b : str) : firstn (length (a ++ b) - length b) (a ++ b) = a.
Proof.
  rewrite length_app. replace (length a + length b - length b)%nat with (length a) by lia.
  rewrite firstn_app, Nat.sub_diag, firstn_all. cbn. apply app_nil_r.
Qed.

(** The spellings of a base URL: for a URL without white space at its ends
    and without a slash at its end, the URL followed by "/api" and the URL
    followed by "/api/" are normalized to the URL itself, the URL followed
    by "/" is normalized as the URL is, and the URL is left as it is unless
    it ends in "/api" itself. *)
Theorem normalize_url_spellings (url : str) :
  bare_url url = true ->
  normalize_url (url ++ py "/api") = url
  /\ normalize_url (url ++ py "/api/") = url
  /\ normalize_url (url ++ py "/") = normalize_url url
  /\ (endswith url (py "/api") = false -> normalize_url url = url).
Proof.
  intros H. destruct (bare_url_inv _ H) as (c & r & s & d & E1 & E2 & Hc & Hd & Hs).
  assert (forall t e, is_space e = false ->
            strip (url ++ t ++ [e]) = url ++ t ++ [e]) as Hstrip.
  { intros t e He. rewrite E1. cbn [app]. rewrite app_assoc.
    now apply strip_between. }
  assert (strip url = url) as Hu.
  { destruct s as [|c' s'].
    - cbn [app] in E2. rewrite E2. apply strip_id; cbn; exact Hd.
    - assert (c' = c) as -> by (rewrite E1 in E2; now injection E2).
      rewrite E2. cbn [app]. now apply strip_between. }
  assert (rstrip_slash url = url) as Hr.
  { rewrite E2. now apply rstrip_slash_keep. }
  assert (forall t, normalize_url (url ++ t)
                    = if endswith (rstrip_slash (strip (url ++ t))) (py "/api")
                      then firstn (length (rstrip_slash (strip (url ++ t))) - 4)
                                  (rstrip_slash (strip (url ++ t)))
                      else rstrip_slash (strip (url ++ t))) as Hn.
  { intros t. unfold normalize_url. rewrite E1 at 1. reflexivity. }
  assert (rstrip_slash (strip (url ++ py "/api")) = url ++ py "/api") as Ha.
  { change (py "/api") with (py "/ap" ++ [105%N]).
    rewrite Hstrip by reflexivity.
    rewrite app_assoc, rstrip_slash_keep by reflexivity. now rewrite <- app_assoc. }
  assert (rstrip_slash (strip (url ++ py "/api/")) = url ++ py "/api") as Hb.
  { change (py "/api/") with (py "/api" ++ [47%N]).
    rewrite Hstrip by reflexivity.
    rewrite app_assoc. change [47%N] with (py "/"). rewrite rstrip_slash_drop.
    rewrite <- Ha at 2. f_equal. symmetry.
    change (py "/api") with (py "/ap" ++ [105%N]). now apply Hstrip. }
  assert (rstrip_slash (strip (url ++ py "/")) = url) as Hc'.
  { change (py "/") with ([] ++ [47%N]). rewrite Hstrip by reflexivity.
    cbn [app]. change [47%N] with (py "/"). now rewrite rstrip_slash_drop. }
  pose proof (Hn []) as Hn0. rewrite app_nil_r in Hn0. rewrite Hu, Hr in Hn0.
  repeat split.
  - rewrite Hn, Ha, endswith_app. change 4%nat with (length (py "/api")).
    apply firstn_length_app.
  - rewrite Hn, Hb, endswith_app. change 4%nat with (length (py "/api")).
    apply firstn_length_app.
  - now rewrite Hn, Hc', Hn0.
  - intros He. now rewrite Hn0, He.
Qed.

Lemma normalize_url_spellings_witness :
  normalize_url (py "https://api.loobric.com" ++ py "/api") = py "https://api.loobric.com"
  /\ normalize_url (py "https://api.loobric.com" ++ py "/api/")
     = py "https://api.loobric.com"
  /\ normalize_url (py "https://api.loobric.com" ++ py "/")
     = normalize_url (py "https://api.loobric.com")
  /\ (endswith (py "https://api.loobric.com") (py "/api") = false ->
      normalize_url (py "https://api.loobric.com") = py "https://api.loobric.com").
Proof.
  apply (@normalize_url_spellings (py "https://api.loobric.com")). reflexivity.
Defined.
(* ================================================================== *)
(** * SmoothDialog.py: duplicates by description and diameter *)

Lemma pydict_set_in (d : pydict) (k v : pyval) :
  key_eqb k k = true -> existsb (fun kv => key_eqb (fst kv) k) (pydict_set d k v) = true.
Proof.
  intros Hk. induction d as [|[k' v'] d IH]; cbn [pydict_set existsb fst].
  - now rewrite Hk.
  - destruct (key_eqb k' k) eqn:E; cbn [existsb fst]; rewrite ?E; [reflexivity|].
    exact IH.
Qed.

Lemma pydict_set_keeps (d : pydict) (k k' v : pyval) :
  existsb (fun kv => key_eqb (fst kv) k) d = true ->
  existsb (fun kv => key_eqb (fst kv) k) (pydict_set d k' v) = true.
Proof.
  induction d as [|[k0 v0] d IH]; [discriminate|].
  cbn [pydict_set existsb fst]. intros H.
  destruct (key_eqb k0 k') ; cbn [existsb fst].
  - exact H.
  - apply orb_true_iff in H as [H|H]; [now rewrite H|].
    rewrite (IH H). apply orb_true_r.
Qed.

Lemma signature_eqb (desc diam : pyval) :
  key_eqb (signature desc diam) (signature desc diam) = true.
Proof. unfold signature. cbn [key_eqb]. apply str_eqb_refl. Qed.

Lemma index_step_signatures (by_id by_sig by_id' by_sig' : pydict) (item : pyval) :
  index_step (by_id, by_sig) item = Ok (by_id', by_sig') ->
  (forall k, existsb (fun kv => key_eqb (fst kv) k) by_sig = true ->
             existsb (fun kv => key_eqb (fst kv) k) by_sig' = true)
  /\ forall fields desc diam,
       item = PDict fields -> has_signature fields desc diam ->
       existsb (fun kv => key_eqb (fst kv) (signature desc diam)) by_sig' = true.
Proof.
  unfold index_step. intros H.
  apply bind_ok in H as (metadata & _ & H). apply bind_ok in H as (fc_id & _ & H).
  apply bind_ok in H as (ids & _ & H). apply bind_ok in H as (desc0 & Hd & H).
  apply bind_ok in H as (geometry & Hg & H). apply bind_ok in H as (diam0 & Hm & H).
  destruct (truthy desc0 && negb (is_none diam0)) eqn:E.
  - injection H as <- <-. split.
    + intros k. apply pydict_set_keeps.
    + intros fields desc diam -> (Hdesc & Htd & g & Hgeo & Hdiam & Hnn).
      cbn [py_get] in Hd, Hg. rewrite Hdesc in Hd. rewrite Hgeo in Hg.
      injection Hd as <-. injection Hg as <-.
      cbn [py_get] in Hm. rewrite Hdiam in Hm. injection Hm as <-.
      apply pydict_set_in. apply signature_eqb.
  - injection H as <- <-. split; [auto|].
    intros fields desc diam -> (Hdesc & Htd & g & Hgeo & Hdiam & Hnn).
    cbn [py_get] in Hd, Hg. rewrite Hdesc in Hd. rewrite Hgeo in Hg.
    injection Hd as <-. injection Hg as <-.
    cbn [py_get] in Hm. rewrite Hdiam in Hm. injection Hm as <-.
    rewrite Htd, Hnn in E. discriminate.
Qed.

Lemma index_loop_signatures (items : list pyval) :
  forall by_id by_sig by_id' by_sig',
    for_each items index_step (by_id, by_sig) = Ok (by_id', by_sig') ->
    (forall k, existsb (fun kv => key_eqb (fst kv) k) by_sig = true ->
               existsb (fun kv => key_eqb (fst kv) k) by_sig' = true)
    /\ forall fields desc diam,
         In (PDict fields) items -> has_signature fields desc diam ->
         existsb (fun kv => key_eqb (fst kv) (signature desc diam)) by_sig' = true.
Proof.
  induction items as [|item items IH]; intros by_id by_sig by_id' by_sig' H.
  - injection H as <- <-. split; [auto|]. intros fields desc diam [].
  - cbn [for_each] in H. apply bind_ok in H as ([ids sigs] & H1 & H2).
    destruct (index_step_signatures _ _ _ H1) as [Hk1 Hs1].
    destruct (IH _ _ _ _ H2) as [Hk2 Hs2].
    split; [auto|].
    intros fields desc diam [->|Hin] Hsig.
    + apply Hk2. now apply (Hs1 fields desc diam).
    + now apply (Hs2 fields desc diam).
Qed.

(** A tool without an id of its own that has the description and the
    diameter of an item of the index is reported as a duplicate, by
    "description+diameter".  The exchange item [fctb_to_smooth] makes has
    no id of its own, so this is the check an exported tool bit gets. *)
Theorem check_duplicates_by_signature (items : list pyval)
        (existing_by_id existing_by_sig : pydict) (item tool : dict)
        (desc diam : pyval) :
  index_existing items = Ok (existing_by_id, existing_by_sig) ->
  In (PDict item) items ->
  has_signature item desc diam ->
  has_signature tool desc diam ->
  truthy (get_or tool (py "id") PNone) = false ->
  check_duplicates tool existing_by_id existing_by_sig
  = Ok (true, py "description+diameter").
Proof.
  intros Hidx Hin Hitem (Hdesc & Htd & g & Hgeo & Hdiam & Hnn) Hid.
  unfold index_existing in Hidx.
  destruct (index_loop_signatures _ _ _ Hidx) as [_ Hs].
  specialize (Hs item desc diam Hin Hitem).
  unfold check_duplicates, get_or in *. rewrite Hgeo, Hdesc.
  cbn [py_get]. rewrite Hdiam. cbn [bind]. rewrite Hid. cbn [bind].
  rewrite Htd, Hnn. cbn [andb negb]. unfold pydict_in.
  change (is_hashable (signature desc diam)) with true. cbv iota.
  rewrite Hs. reflexivity.
Qed.

Lemma check_duplicates_by_signature_witness :
  check_duplicates endmill_to_export
    (fst (match index_existing [PDict stored_endmill] with
          | Ok index => index | Raise _ => ([], []) end))
    (snd (match index_existing [PDict stored_endmill] with
          | Ok index => index | Raise _ => ([], []) end))
  = Ok (true, py "description+diameter").
Proof.
  apply (@check_duplicates_by_signature [PDict stored_endmill] _ _
           stored_endmill endmill_to_export
           (PStr (py "6mm Endmill")) (PFloat (F64.of_Z 6))).
  - vm_compute. reflexivity.
  - now left.
  - repeat split. eexists. repeat split.
  - repeat split. eexists. repeat split.
  - reflexivity.
Defined.
(* ================================================================== *)
(** * What the parser makes of an export, and of JSON that is no object *)

(** Every tool bit [smooth_to_fctb] returns is one [parse_fctb_dict]
    accepts: the tool it makes has the version, the name, the shape and
    the shape-type of the tool bit, and its parameters parsed. *)
Theorem exported_tool_bit_parses (smooth_tool : dict) (default_shape : str)
        (fctb : dict) :
  smooth_to_fctb smooth_tool default_shape = Ok fctb ->
  exists version name shape shape_type parameters tool,
    dict_get fctb (py "version") = Some version
    /\ dict_get fctb (py "name") = Some name
    /\ dict_get fctb (py "shape") = Some shape
    /\ dict_get fctb (py "shape-type") = Some shape_type
    /\ dict_get fctb (py "parameter") = Some (PDict parameters)
    /\ parse_fctb_dict fctb = Ok tool
    /\ dict_get tool (py "version") = Some version
    /\ dict_get tool (py "name") = Some name
    /\ dict_get tool (py "shape") = Some shape
    /\ dict_get tool (py "shape_type") = Some shape_type
    /\ dict_get tool (py "parameters") = Some (PDict (parse_parameters parameters)).
Proof.
  unfold smooth_to_fctb. intros H.
  apply bind_ok in H as (parameters & _ & H).
  apply bind_ok in H as (shape_type & _ & H).
  apply bind_ok in H as (shape_file & _ & H).
  apply bind_ok in H as (version & _ & H).
  apply bind_ok in H as (has_id & _ & H).
  exists version, (get_or smooth_tool (py "description") (PStr (py "Unnamed Tool"))),
    shape_file, shape_type, parameters.
  assert (dict_get fctb (py "version") = Some version
          /\ dict_get fctb (py "name")
             = Some (get_or smooth_tool (py "description") (PStr (py "Unnamed Tool")))
          /\ dict_get fctb (py "shape") = Some shape_file
          /\ dict_get fctb (py "shape-type") = Some shape_type
          /\ dict_get fctb (py "parameter") = Some (PDict parameters))
    as (Hv & Hn & Hs & Ht & Hp).
  { destruct has_id.
    - apply bind_ok in H as (id & _ & H). injection H as <-. repeat split.
    - destruct (dict_in (py "id") smooth_tool).
      + apply bind_ok in H as (id & _ & H). injection H as <-. repeat split.
      + injection H as <-. repeat split. }
  eexists. split; [exact Hv|]. split; [exact Hn|]. split; [exact Hs|].
  split; [exact Ht|]. split; [exact Hp|].
  split; [exact (parse_fctb_dict_record fctb Hv Hn Hs Ht Hp)|].
  repeat split.
Qed.

Lemma exported_tool_bit_parses_witness :
  exists version name shape shape_type parameters tool,
    dict_get (match smooth_to_fctb item_text_diameter (py "endmill") with
              | Ok fctb => fctb | Raise _ => [] end) (py "version") = Some version
    /\ dict_get (match smooth_to_fctb item_text_diameter (py "endmill") with
                 | Ok fctb => fctb | Raise _ => [] end) (py "name") = Some name
    /\ dict_get (match smooth_to_fctb item_text_diameter (py "endmill") with
                 | Ok fctb => fctb | Raise _ => [] end) (py "shape") = Some shape
    /\ dict_get (match smooth_to_fctb item_text_diameter (py "endmill") with
                 | Ok fctb => fctb | Raise _ => [] end) (py "shape-type")
       = Some shape_type
    /\ dict_get (match smooth_to_fctb item_text_diameter (py "endmill") with
                 | Ok fctb => fctb | Raise _ => [] end) (py "parameter")
       = Some (PDict parameters)
    /\ parse_fctb_dict (match smooth_to_fctb item_text_diameter (py "endmill") with
                        | Ok fctb => fctb | Raise _ => [] end) = Ok tool
    /\ dict_get tool (py "version") = Some version
    /\ dict_get tool (py "name") = Some name
    /\ dict_get tool (py "shape") = Some shape
    /\ dict_get tool (py "shape_type") = Some shape_type
    /\ dict_get tool (py "parameters") = Some (PDict (parse_parameters parameters)).
Proof.
  apply (@exported_tool_bit_parses item_text_diameter (py "endmill")
           (match smooth_to_fctb item_text_diameter (py "endmill") with
            | Ok fctb => fctb | Raise _ => [] end)).
  vm_compute. reflexivity.
Defined.

Lemma missing_loop_returns (data : pyval) (fields : list str) :
  (is_list data = true \/ is_str data = true) ->
  forall missing,
    exists missing',
      for_each fields
               (fun missing field =>
                  has <- py_in field data ;;
                  Ok (if has then missing else missing ++ [field]))
               missing
      = Ok missing'.
Proof.
  intros Hd. induction fields as [|f fields IH]; intros missing; [now exists missing|].
  cbn [for_each].
  destruct data as [| | | |s|l|]; destruct Hd as [Hd|Hd]; try discriminate Hd;
    cbn [py_in bind]; apply IH.
Qed.

(** A tool bit file that holds JSON that is no object never gives a tool:
    [parse_fctb] raises, and what it raises for a number, a truth value or
    [null] is a TypeError, not the FctbParseError of its documentation. *)
Theorem parse_fctb_not_an_object (files : tool_files) (file_path : str) (data : pyval) :
  tool_load files file_path = Json data ->
  is_dict data = false ->
  exists e,
    parse_fctb files file_path = Raise e
    /\ (is_list data = false -> is_str data = false -> e = TypeError).
Proof.
  intros Hl Hd. unfold parse_fctb. rewrite Hl. unfold parse_fctb_data.
  destruct data as [|b|n|x|s|l|d]; try discriminate Hd;
    try (exists TypeError; split; [reflexivity|auto]; fail).
  - destruct (@missing_loop_returns (PStr s) fctb_required_fields
                (or_intror eq_refl) []) as [missing ->].
    cbn [bind]. destruct missing; cbn [py_item bind]; eexists;
      (split; [reflexivity|discriminate]).
  - destruct (@missing_loop_returns (PList l) fctb_required_fields
                (or_introl eq_refl) []) as [missing ->].
    cbn [bind]. destruct missing; cbn [py_item bind]; eexists;
      (split; [reflexivity|discriminate]).
Qed.

Lemma parse_fctb_not_an_object_witness :
  exists e,
    parse_fctb files_without_objects (py "number.fctb") = Raise e
    /\ (is_list (PInt 5) = false -> is_str (PInt 5) = false -> e = TypeError).
Proof.
  apply (@parse_fctb_not_an_object files_without_objects (py "number.fctb") (PInt 5));
    reflexivity.
Defined.

(* ================================================================== *)
(** * SmoothDialog.py: duplicates by id *)

Lemma index_step_ids (by_id by_sig by_id' by_sig' : pydict) (item : pyval) :
  index_step (by_id, by_sig) item = Ok (by_id', by_sig') ->
  (forall k, existsb (fun kv => key_eqb (fst kv) k) by_id = true ->
             existsb (fun kv => key_eqb (fst kv) k) by_id' = true)
  /\ forall fields metadata id,
       item = PDict fields ->
       dict_get fields (py "freecad_metadata") = Some (PDict metadata) ->
       dict_get metadata (py "id") = Some (PStr id) -> id <> [] ->
       existsb (fun kv => key_eqb (fst kv) (PStr id)) by_id' = true.
Proof.
  unfold index_step. intros H.
  apply bind_ok in H as (metadata & Hm & H). apply bind_ok in H as (fc_id & Hi & H).
  apply bind_ok in H as (ids & Hids & H). apply bind_ok in H as (desc0 & _ & H).
  apply bind_ok in H as (geometry & _ & H). apply bind_ok in H as (diam0 & _ & H).
  assert (by_id' = ids) as ->.
  { destruct (truthy desc0 && negb (is_none diam0)); now injection H as <- <-. }
  clear H. split.
  - intros k Hk. destruct (truthy fc_id).
    + destruct (is_hashable fc_id); [|discriminate]. injection Hids as <-.
      now apply pydict_set_keeps.
    + now injection Hids as <-.
  - intros fields md id -> Hmd Hid Hne.
    cbn [py_get] in Hm. rewrite Hmd in Hm. injection Hm as <-.
    cbn [py_get] in Hi. rewrite Hid in Hi. injection Hi as <-.
    destruct id as [|c id]; [contradiction|]. cbn [truthy is_hashable] in Hids.
    injection Hids as <-. apply pydict_set_in. cbn [key_eqb]. apply str_eqb_refl.
Qed.

Lemma index_loop_ids (items : list pyval) :
  forall by_id by_sig by_id' by_sig',
    for_each items index_step (by_id, by_sig) = Ok (by_id', by_sig') ->
    (forall k, existsb (fun kv => key_eqb (fst kv) k) by_id = true ->
               existsb (fun kv => key_eqb (fst kv) k) by_id' = true)
    /\ forall fields metadata id,
         In (PDict fields) items ->
         dict_get fields (py "freecad_metadata") = Some (PDict metadata) ->
         dict_get metadata (py "id") = Some (PStr id) -> id <> [] ->
         existsb (fun kv => key_eqb (fst kv) (PStr id)) by_id' = true.
Proof.
  induction items as [|item items IH]; intros by_id by_sig by_id' by_sig' H.
  - injection H as <- <-. split; [auto|]. intros fields metadata id [].
  - cbn [for_each] in H. apply bind_ok in H as ([ids sigs] & H1 & H2).
    destruct (index_step_ids _ _ _ H1) as [Hk1 Hs1].
    destruct (IH _ _ _ _ H2) as [Hk2 Hs2].
    split; [auto|].
    intros fields metadata id [->|Hin] Hmd Hid Hne.
    + apply Hk2. now apply (Hs1 fields metadata id).
    + now apply (Hs2 fields metadata id).
Qed.

(** A tool that has, as its own id, the FreeCAD id an item of the index
    has in its metadata is reported as a duplicate, by "FreeCAD ID",
    whatever its description is. *)
Theorem check_duplicates_by_id (items : list pyval)
        (existing_by_id existing_by_sig : pydict) (item metadata tool : dict) (id : str) :
  index_existing items = Ok (existing_by_id, existing_by_sig) ->
  In (PDict item) items ->
  dict_get item (py "freecad_metadata") = Some (PDict metadata) ->
  dict_get metadata (py "id") = Some (PStr id) ->
  id <> [] ->
  dict_get tool (py "id") = Some (PStr id) ->
  is_dict (get_or tool (py "geometry") (PDict [])) = true ->
  check_duplicates tool existing_by_id existing_by_sig = Ok (true, py "FreeCAD ID").
Proof.
  intros Hidx Hin Hmd Hid Hne Htool Hg.
  unfold index_existing in Hidx.
  destruct (index_loop_ids _ _ _ Hidx) as [_ Hs].
  specialize (Hs item metadata id Hin Hmd Hid Hne).
  unfold check_duplicates.
  destruct (get_or tool (py "geometry") (PDict [])) as [| | | | | |g];
    try discriminate Hg.
  cbn [py_get bind]. unfold get_or. rewrite Htool.
  destruct id as [|c id]; [contradiction|]. cbn [truthy]. unfold pydict_in.
  cbn [is_hashable].
  match goal with
  | |- context [existsb ?f existing_by_id] =>
      replace (existsb f existing_by_id) with true by (symmetry; exact Hs)
  end.
  reflexivity.
Qed.

Lemma check_duplicates_by_id_witness :
  check_duplicates tool_with_id
    (fst (match index_existing [PDict stored_with_metadata] with
          | Ok index => index | Raise _ => ([], []) end))
    (snd (match index_existing [PDict stored_with_metadata] with
          | Ok index => index | Raise _ => ([], []) end))
  = Ok (true, py "FreeCAD ID").
Proof.
  apply (@check_duplicates_by_id [PDict stored_with_metadata] _ _
           stored_with_metadata [(py "id", PStr (py "drill_5.0mm"))] tool_with_id
           (py "drill_5.0mm")).
  - vm_compute. reflexivity.
  - now left.
  - reflexivity.
  - reflexivity.
  - discriminate.
  - reflexivity.
  - reflexivity.
Defined.
